(** * Browsing with the Copilot SDK: broker, approval gate and element resolution

    A shallow embedding of the three programs of the repository:
    - [Ext]: the extension's service worker (extension/background.js),
    - [Backend]: the Node backend (backend server and its wire protocol),
    - [Content]: the content script (extension/content.js).

    JavaScript strings are modelled as Rocq strings holding the UTF-8
    bytes of the text; white space and code units are counted by
    character ([Js.chars]).  The patterns and keywords of the code are
    ASCII, and case folding is the ASCII one: this is exactly what the
    [i] flag of a regular expression without the [u] flag does with an
    ASCII pattern, and what [toLowerCase] does to a text whose cased
    letters are all ASCII. *)

From Stdlib Require Import ZArith Ascii String Sorted.
From stdpp Require Import gmap strings list fin_maps pretty.

Local Open Scope Z_scope.
#[local] Set Warnings "-register-all".

(* ===================================================================== *)
(** * JavaScript string primitives *)
(* ===================================================================== *)

Module Js.

(** [c.toLowerCase()] on one ASCII character. *)
Definition lower_ascii (c : ascii) : ascii :=
  let n := nat_of_ascii c in
  if ((65 <=? n)%nat && (n <=? 90)%nat)%bool then ascii_of_nat (n + 32) else c.

(** [s.toLowerCase()] on the letters A to Z, the bytes of every other
    character left as they are: what the [i] flag of the regular
    expressions of the source folds, and what [toLowerCase] does to text
    without cased letters outside ASCII. *)
Fixpoint toLowerCase (s : string) : string :=
  match s with
  | EmptyString => EmptyString
  | String c r => String (lower_ascii c) (toLowerCase r)
  end.

(** [s.startsWith(p)] *)
Fixpoint startsWith (p s : string) : bool :=
  match p, s with
  | EmptyString, _ => true
  | String a p', String b s' => if Ascii.eqb a b then startsWith p' s' else false
  | String _ _, EmptyString => false
  end.

(** [hay.includes(needle)] *)
Fixpoint includes (needle hay : string) : bool :=
  if startsWith needle hay then true
  else match hay with
       | EmptyString => false
       | String _ r => includes needle r
       end.

(** ** Characters and white space *)

(** A text is held as its UTF-8 bytes.  A character is a lead byte with
    the continuation bytes ([10xxxxxx]) that follow it; [chars] cuts a
    text into its characters. *)
Definition is_continuation (c : ascii) : bool :=
  let n := nat_of_ascii c in ((128 <=? n)%nat && (n <=? 191)%nat)%bool.

Definition continues (g : string) : bool :=
  match g with
  | String c _ => is_continuation c
  | EmptyString => false
  end.

Fixpoint chars (s : string) : list string :=
  match s with
  | EmptyString => []
  | String c r =>
      match chars r with
      | g :: gs => if continues g then String c g :: gs
                   else String c EmptyString :: g :: gs
      | [] => [String c EmptyString]
      end
  end.

Definition join (l : list string) : string := fold_right String.append EmptyString l.

(** The white space of one byte: space, tab, line feed, vertical tab,
    form feed, carriage return. *)
Definition is_space (c : ascii) : bool :=
  let n := nat_of_ascii c in
  ((n =? 32)%nat || ((9 <=? n)%nat && (n <=? 13)%nat))%bool.

Definition byte_is (c : ascii) (n : nat) : bool := Nat.eqb (nat_of_ascii c) n.

(** White space as [\s] and [String.prototype.trim] see it (WhiteSpace
    and LineTerminator of the language): the six of one byte, U+00A0,
    U+1680, U+2000 to U+200A, U+2028, U+2029, U+202F, U+205F, U+3000 and
    U+FEFF. *)
Definition is_white_space (g : string) : bool :=
  match g with
  | String a EmptyString => is_space a
  | String a (String b EmptyString) => (byte_is a 194 && byte_is b 160)%bool
  | String a (String b (String c EmptyString)) =>
      ((byte_is a 225 && byte_is b 154 && byte_is c 128)
       || (byte_is a 226 && byte_is b 128
           && (((128 <=? nat_of_ascii c)%nat && (nat_of_ascii c <=? 138)%nat)
               || byte_is c 168 || byte_is c 169 || byte_is c 175))
       || (byte_is a 226 && byte_is b 129 && byte_is c 159)
       || (byte_is a 227 && byte_is b 128 && byte_is c 128)
       || (byte_is a 239 && byte_is b 187 && byte_is c 191))%bool
  | _ => false
  end.

(** The characters of a text without the white space at its start. *)
Fixpoint drop_ws (l : list string) : list string :=
  match l with
  | g :: r => if is_white_space g then drop_ws r else l
  | [] => []
  end.

(** Without the white space at its end: a character is kept when
    something that is kept follows it, or when it is not white space. *)
Fixpoint drop_ws_end (l : list string) : list string :=
  match l with
  | [] => []
  | g :: r =>
      match drop_ws_end r with
      | [] => if is_white_space g then [] else [g]
      | t => g :: t
      end
  end.

Definition trimStart (s : string) : string := join (drop_ws (chars s)).

Definition trimEnd (s : string) : string := join (drop_ws_end (chars s)).

(** [s.trim()] *)
Definition trim (s : string) : string := join (drop_ws_end (drop_ws (chars s))).

(** [s.split(/\s+/).filter(Boolean)]: the maximal runs of characters
    that are not white space, in order.  [cur] is the run being read,
    reversed. *)
Fixpoint tokens_go (cur : list string) (l : list string) : list string :=
  let flush (k : list string) :=
    match cur with
    | [] => k
    | _ => join (rev cur) :: k
    end in
  match l with
  | [] => flush []
  | g :: r =>
      if is_white_space g then flush (tokens_go [] r) else tokens_go (g :: cur) r
  end.

Definition tokens (s : string) : list string := tokens_go [] (chars s).

(** [s.replace(/\s+/g, " ")]: every maximal run of white space becomes
    one space.  [in_ws] tells that the previous character was white space. *)
Fixpoint collapse_ws_go (in_ws : bool) (l : list string) : string :=
  match l with
  | [] => EmptyString
  | g :: r =>
      if is_white_space g
      then (if in_ws then collapse_ws_go true r else String " " (collapse_ws_go true r))
      else g +:+ collapse_ws_go false r
  end.

Definition collapse_ws (s : string) : string := collapse_ws_go false (chars s).

(** The lead byte of a character of four bytes, which is two code units
    (a surrogate pair) of the string. *)
Definition is_lead4 (c : ascii) : bool := (240 <=? nat_of_ascii c)%nat.

(** The first code unit of the character of four bytes [c :: r], as the
    three bytes that stand for a lone surrogate; nothing when the bytes
    that should follow the lead are missing. *)
Definition high_surrogate (c : ascii) (r : string) : string :=
  match r with
  | String b2 (String b3 (String b4 _)) =>
      let cp := (((N_of_ascii c mod 8) * 262144) + ((N_of_ascii b2 mod 64) * 4096)
                 + ((N_of_ascii b3 mod 64) * 64) + (N_of_ascii b4 mod 64))%N in
      let w := ((cp - 65536) / 1024)%N in
      String (ascii_of_N 237)
        (String (ascii_of_N (160 + w / 64)%N)
           (String (ascii_of_N (128 + w mod 64)%N) EmptyString))
  | _ => EmptyString
  end.

(** [s.slice(0, n)]: the first [n] code units.  A character of up to
    three bytes is one code unit, one of four bytes is two; continuation
    bytes go with their lead byte. *)
Fixpoint slice0 (n : nat) (s : string) : string :=
  match s with
  | EmptyString => EmptyString
  | String c r =>
      if is_continuation c then String c (slice0 n r)
      else
        match n with
        | O => EmptyString
        | S k =>
            if is_lead4 c then
              match k with
              | O => high_surrogate c r
              | S k' => String c (slice0 k' r)
              end
            else String c (slice0 k r)
        end
  end.

(** A regular expression that is an alternation of literal words, tested
    with the [i] flag and no anchors: some word occurs in the text, letter
    case apart.  The words are given in lower case. *)
Definition test_words_i (words : list string) (text : string) : bool :=
  existsb (fun w => includes w (toLowerCase text)) words.

End Js.

(* ===================================================================== *)
(** * The wire protocol (backend protocol types) *)
(* ===================================================================== *)

Module Protocol.

(** A parsed JSON value, as [JSON.parse] returns it.  An object is the
    list of its members, with distinct keys. *)
Inductive JValue :=
| JNull
| JBool (b : bool)
| JNum (n : Z)
| JStr (s : string)
| JArr (items : list JValue)
| JObj (members : list (string * JValue)).

(** [obj[key]]; [None] is [undefined]. *)
Fixpoint jlookup (key : string) (members : list (string * JValue)) : option JValue :=
  match members with
  | [] => None
  | (k, v) :: rest => if String.eqb k key then Some v else jlookup key rest
  end.

Definition jget (key : string) (v : JValue) : option JValue :=
  match v with
  | JObj members => jlookup key members
  | _ => None
  end.

Inductive ToolName :=
| browser_find
| browser_highlight
| browser_click
| browser_type
| browser_navigate
| browser_select_candidate.

Definition tool_string (t : ToolName) : string :=
  match t with
  | browser_find => "browser_find"
  | browser_highlight => "browser_highlight"
  | browser_click => "browser_click"
  | browser_type => "browser_type"
  | browser_navigate => "browser_navigate"
  | browser_select_candidate => "browser_select_candidate"
  end.

Inductive ToolResultError :=
| EXTENSION_NOT_READY
| NO_ACTIVE_TAB
| PERMISSION_DENIED
| NOT_FOUND
| TIMEOUT
| CANCELLED.

Definition error_string (e : ToolResultError) : string :=
  match e with
  | EXTENSION_NOT_READY => "EXTENSION_NOT_READY"
  | NO_ACTIVE_TAB => "NO_ACTIVE_TAB"
  | PERMISSION_DENIED => "PERMISSION_DENIED"
  | NOT_FOUND => "NOT_FOUND"
  | TIMEOUT => "TIMEOUT"
  | CANCELLED => "CANCELLED"
  end.

(** The closed vocabulary, as the chains of [===] of [toErrorCode] and
    [normalizeErrorCode] test it. *)
Definition error_of_string (s : string) : option ToolResultError :=
  if String.eqb s "EXTENSION_NOT_READY" then Some EXTENSION_NOT_READY
  else if String.eqb s "NO_ACTIVE_TAB" then Some NO_ACTIVE_TAB
  else if String.eqb s "PERMISSION_DENIED" then Some PERMISSION_DENIED
  else if String.eqb s "NOT_FOUND" then Some NOT_FOUND
  else if String.eqb s "TIMEOUT" then Some TIMEOUT
  else if String.eqb s "CANCELLED" then Some CANCELLED
  else None.

(** Extension to backend.  [tr_data] and [tr_error] are optional members. *)
Inductive ExtensionToBackend :=
| UserMessage (sessionId token text : string)
| UserApproval (sessionId token actionId : string) (approved : bool)
| Cancel (sessionId token : string)
| ToolResult (sessionId token actionId : string) (ok : bool)
             (data : option JValue) (error : option string).

Record Candidate := mkCandidate {
  cand_id : string;
  cand_label : string;
  cand_selector : string
}.

(** Backend to extension. *)
Inductive BackendToExtension :=
| AssistantDelta (sessionId token textDelta : string)
| AssistantFinal (sessionId token text : string)
| ToolRequestMsg (sessionId token actionId : string) (tool : ToolName)
                 (params : list (string * string)) (uiLabel : string) (timeoutMs : Z)
| StepEvent (sessionId token step : string).

End Protocol.

(* ===================================================================== *)
(** * The extension's service worker (extension/background.js) *)
(* ===================================================================== *)

Module Ext.
Import Protocol.

Definition DEFAULT_TOKEN : string := "change-me-local-token".
Definition TOOL_TIMEOUT_MS : Z := 5000.

(** The alternatives of [DANGEROUS_CLICK_RE], in the order of the source. *)
Definition DANGEROUS_CLICK_WORDS : list string :=
  [ "delete"; "remove"; "purchase"; "buy"; "checkout"; "send"; "payment";
    "pay"; "place order"; "confirm order"; "submit payment"; "transfer";
    "confirm"; "submit"; "withdraw"; "irreversible" ].

(** [DANGEROUS_CLICK_RE.test(text)] *)
Definition DANGEROUS_CLICK_RE_test (text : string) : bool :=
  Js.test_words_i DANGEROUS_CLICK_WORDS text.

(** An inbound [tool_request].  [params] is the request's parameter
    object restricted to its string-valued entries; [param r k] is
    [String(request.params?.k || "")]. *)
Record ToolRequest := mkToolRequest {
  actionId : string;
  tool : string;
  params : gmap string string;
  ui_label : string;
  timeoutMs : Z
}.

Definition param (r : ToolRequest) (k : string) : string :=
  default "" (params r !! k).

Record PendingAction := mkPendingAction {
  pa_actionId : string;
  pa_tool : string;
  pa_label : string
}.

(** The worker's [state] object and its [pendingToolRequests] map. *)
Record State := mkState {
  sessionId : string;
  token : string;
  autoRun : bool;
  pendingAction : option PendingAction;
  pendingToolRequests : gmap string ToolRequest
}.

Definition set_pendingAction (a : option PendingAction) (st : State) : State :=
  mkState (sessionId st) (token st) (autoRun st) a (pendingToolRequests st).

Definition set_pendingToolRequests (m : gmap string ToolRequest) (st : State) : State :=
  mkState (sessionId st) (token st) (autoRun st) (pendingAction st) m.

(** [requiresManualApproval(request)], reading [state.autoRun]. *)
Definition requiresManualApproval (st : State) (request : ToolRequest) : bool :=
  if (negb (String.eqb (tool request) "browser_click")
      && negb (String.eqb (tool request) "browser_type"))%bool then false
  else if negb (autoRun st) then true
  else if negb (String.eqb (tool request) "browser_click") then false
  else
    let selector := param request "selector" in
    let label := ui_label request in
    DANGEROUS_CLICK_RE_test (label +:+ " " +:+ selector).

(** [normalizeErrorCode(error)] on the message of a thrown error. *)
Definition normalizeErrorCode (message : string) : string :=
  match error_of_string message with
  | Some e => error_string e
  | None => "EXTENSION_NOT_READY"
  end.

(** ** The world around the worker *)

(** A command for the content script of the active tab
    ([{ kind: "copilot_tool", action, ... }]). *)
Inductive PageCommand :=
| CmdHud (message : string)
| CmdFind (query : string)
| CmdHighlight (selector label : string)
| CmdClick (selector : string)
| CmdType (selector text : string).

(** The answer of the content script: [{ ok, data }] or [{ ok, error }]. *)
Record PageResponse := mkPageResponse {
  resp_ok : bool;
  resp_data : option JValue;
  resp_error : option string
}.

(** How [chrome.tabs.sendMessage] ends: with a response (possibly
    [undefined]) or with a rejection carrying a message. *)
Inductive SendOutcome :=
| Answered (r : option PageResponse)
| SendFailed (message : string).

Record Tab := mkTab {
  tab_id : option Z;
  tab_url : option string
}.

(** What the worker observes of the browser while one handler runs. *)
Record Browser := mkBrowser {
  socketOpen : bool;                       (* [isOpenSocket()] *)
  activeTab : option Tab;                  (* [tabs[0] || null] *)
  firstReply : PageCommand -> SendOutcome; (* first [sendMessage] *)
  injectOk : bool;                         (* [executeScript] resolves *)
  retryReply : PageCommand -> SendOutcome; (* [sendMessage] after injection *)
  elapsedMs : PageCommand -> Z;            (* time a tool exchange takes to settle *)
  normalizeUrl : string -> string;         (* [normalizeUrl], not interpreted *)
  tabLoadMs : string -> option Z           (* time to status "complete", if ever *)
}.

(** What the worker does to the outside. *)
Inductive Effect :=
| SendBackend (m : ExtensionToBackend)     (* [ws.send] *)
| TabsSendMessage (cmd : PageCommand)      (* [chrome.tabs.sendMessage] *)
| ExecuteScript                            (* [chrome.scripting.executeScript] *)
| TabsUpdate (url : string)                (* [chrome.tabs.update] *)
| BroadcastState (pending : option PendingAction)
| BroadcastApprovalNeeded (action : PendingAction).

(** ** A state, output and exception monad for the handlers *)

Inductive Res (A : Type) :=
| Ok (a : A)
| Throw (message : string).
Arguments Ok {A} a.
Arguments Throw {A} message.

Definition M (A : Type) : Type := State -> State * list Effect * Res A.

Definition ret {A} (a : A) : M A := fun st => (st, [], Ok a).

Definition bind {A B} (m : M A) (k : A -> M B) : M B := fun st =>
  match m st with
  | (st1, out1, Ok a) =>
      match k a st1 with
      | (st2, out2, r) => (st2, out1 ++ out2, r)
      end
  | (st1, out1, Throw e) => (st1, out1, Throw e)
  end.

Definition throw {A} (message : string) : M A := fun st => (st, [], Throw message).

(** [try { body } catch (e) { handler(e) }] *)
Definition try_catch {A} (body : M A) (handler : string -> M A) : M A := fun st =>
  match body st with
  | (st1, out1, Ok a) => (st1, out1, Ok a)
  | (st1, out1, Throw e) =>
      match handler e st1 with
      | (st2, out2, r) => (st2, out1 ++ out2, r)
      end
  end.

(** [try { body } finally { cleanup }], for a [cleanup] that does not throw. *)
Definition try_finally {A} (body : M A) (cleanup : M unit) : M A := fun st =>
  match body st with
  | (st1, out1, r) =>
      match cleanup st1 with
      | (st2, out2, _) => (st2, out1 ++ out2, r)
      end
  end.

Definition emit (e : Effect) : M unit := fun st => (st, [e], Ok tt).
Definition get : M State := fun st => (st, [], Ok st).
Definition modify (f : State -> State) : M unit := fun st => (f st, [], Ok tt).

#[local] Instance M_ret : MRet M := @ret.
#[local] Instance M_bind : MBind M := fun A B k m => bind m k.

Section Handlers.
Variable browser : Browser.

Definition broadcastState : M unit :=
  st ← get; emit (BroadcastState (pendingAction st)).

(** [sendToBackend(message)] *)
Definition sendToBackend (message : ExtensionToBackend) : M unit :=
  if negb (socketOpen browser) then throw "EXTENSION_NOT_READY"
  else emit (SendBackend message).

(** [withTimeout(promise, timeoutMs)]: the timer wins when the exchange
    is not over before it fires.  The effects of the exchange are listed
    with the outcome whichever wins; when the timer wins, the exchange
    is not stopped, and what it does after the deadline in fact comes
    after what the handler does with the TIMEOUT.  The list says what is
    done to the page, not at which moment. *)
Definition withTimeout {A} (elapsed : Z) (promise : M A) (timeout : Z) : M A :=
  x ← try_catch (a ← promise; ret (Ok a)) (fun e => ret (Throw e));
  if timeout <=? elapsed then throw "TIMEOUT"
  else match x with
       | Ok a => ret a
       | Throw e => throw e
       end.

(** [isRestrictedUrl(url)] *)
Definition isRestrictedUrl (url : option string) : bool :=
  match url with
  | None => true
  | Some u =>
      if String.eqb u "" then true
      else (Js.startsWith "chrome://" u || Js.startsWith "edge://" u
            || Js.startsWith "about:" u)%bool
  end.

(** The [if (!response || response.ok !== true) throw ...; return
    response.data] of [sendToolMessageToActiveTab]. *)
Definition unwrapResponse (o : SendOutcome) : M (option JValue) :=
  match o with
  | SendFailed e => throw e
  | Answered None => throw "EXTENSION_NOT_READY"
  | Answered (Some r) =>
      if resp_ok r then ret (resp_data r)
      else throw (match resp_error r with
                  | Some e => if String.eqb e "" then "EXTENSION_NOT_READY" else e
                  | None => "EXTENSION_NOT_READY"
                  end)
  end.

(** [sendToolMessageToActiveTab(payload)] *)
Definition sendToolMessageToActiveTab (payload : PageCommand) : M (option JValue) :=
  match activeTab browser with
  | None => throw "NO_ACTIVE_TAB"
  | Some tab =>
      match tab_id tab with
      | None => throw "NO_ACTIVE_TAB"
      | Some _ =>
          if isRestrictedUrl (tab_url tab) then throw "PERMISSION_DENIED"
          else
            try_catch
              (emit (TabsSendMessage payload) ;;
               unwrapResponse (firstReply browser payload))
              (fun firstError =>
                 try_catch
                   (emit ExecuteScript ;;
                    (if injectOk browser then ret tt else throw "inject") ;;
                    emit (TabsSendMessage payload) ;;
                    unwrapResponse (retryReply browser payload))
                   (fun _ =>
                      if Js.includes "Cannot access" firstError
                      then throw "PERMISSION_DENIED"
                      else throw "EXTENSION_NOT_READY"))
      end
  end.

(** [updateHud(message)] *)
Definition updateHud (message : string) : M unit :=
  try_catch (sendToolMessageToActiveTab (CmdHud message) ;; ret tt)
            (fun _ => ret tt).

(** [navigateActiveTab(url, timeoutMs)]; [waitForTabLoad] rejects with
    [TIMEOUT] when the tab is not complete in time. *)
Definition navigateActiveTab (url : string) (timeout : Z) : M (option JValue) :=
  match activeTab browser with
  | None => throw "NO_ACTIVE_TAB"
  | Some tab =>
      match tab_id tab with
      | None => throw "NO_ACTIVE_TAB"
      | Some _ =>
          let targetUrl := normalizeUrl browser url in
          if (String.eqb targetUrl "" || isRestrictedUrl (Some targetUrl))%bool
          then throw "PERMISSION_DENIED"
          else
            emit (TabsUpdate targetUrl) ;;
            match tabLoadMs browser targetUrl with
            | Some t =>
                if t <? timeout
                then ret (Some (JObj [("ok", JBool true); ("url", JStr targetUrl)]))
                else throw "TIMEOUT"
            | None => throw "TIMEOUT"
            end
      end
  end.

(** The chain of [if (request.tool === ...)] of [executeToolRequest]. *)
Definition runTool (request : ToolRequest) (timeout : Z) : M (option JValue) :=
  if String.eqb (tool request) "browser_find" then
    let cmd := CmdFind (param request "query") in
    withTimeout (elapsedMs browser cmd) (sendToolMessageToActiveTab cmd) timeout
  else if String.eqb (tool request) "browser_navigate" then
    let url := param request "url" in
    (* the deadline of [waitForTabLoad] is the same and rejects alike *)
    withTimeout 0 (navigateActiveTab url timeout) timeout
  else if String.eqb (tool request) "browser_highlight" then
    let cmd := CmdHighlight (param request "selector") (param request "label") in
    withTimeout (elapsedMs browser cmd) (sendToolMessageToActiveTab cmd) timeout
  else if String.eqb (tool request) "browser_click" then
    let cmd := CmdClick (param request "selector") in
    withTimeout (elapsedMs browser cmd) (sendToolMessageToActiveTab cmd) timeout
  else if String.eqb (tool request) "browser_type" then
    let cmd := CmdType (param request "selector") (param request "text") in
    withTimeout (elapsedMs browser cmd) (sendToolMessageToActiveTab cmd) timeout
  else throw "EXTENSION_NOT_READY".

(** [executeToolRequest(request)], run from its start to its end with
    nothing in between. *)
Definition executeToolRequest (request : ToolRequest) : M unit :=
  try_finally
    (try_catch
       (let timeout :=
          Z.min (if timeoutMs request =? 0 then TOOL_TIMEOUT_MS else timeoutMs request)
                120000 in
        resultData ← runTool request timeout;
        updateHud "Done" ;;
        st ← get;
        sendToBackend
          (ToolResult (sessionId st) (token st) (actionId request) true resultData None))
       (fun error =>
          let code := normalizeErrorCode error in
          updateHud ("Failed: " +:+ code) ;;
          st ← get;
          sendToBackend
            (ToolResult (sessionId st) (token st) (actionId request) false None (Some code))))
    (modify (fun st =>
       set_pendingToolRequests (delete (actionId request) (pendingToolRequests st)) st) ;;
     st ← get;
     match pendingAction st with
     | Some a =>
         if String.eqb (pa_actionId a) (actionId request)
         then modify (set_pendingAction None) ;; broadcastState
         else ret tt
     | None => ret tt
     end).

(** [onToolRequest(request)], run from its start to its end with nothing
    in between. *)
Definition onToolRequest (request : ToolRequest) : M unit :=
  modify (fun st =>
    set_pendingToolRequests (<[actionId request := request]> (pendingToolRequests st)) st) ;;
  updateHud ("Copilot: " +:+ ui_label request +:+ "...") ;;
  st ← get;
  if requiresManualApproval st request then
    let action := mkPendingAction (actionId request) (tool request) (ui_label request) in
    modify (set_pendingAction (Some action)) ;;
    broadcastState ;;
    emit (BroadcastApprovalNeeded action)
  else executeToolRequest request.

(** [handleApproval(actionId, approved)], run from its start to its end
    with nothing in between.  Its denied branch forgets the request
    before its first [await]; its approved branch forgets it only at the
    end of [executeToolRequest] ([ExtMore.handleApproval_start] and
    [ExtMore.handleApproval_rest] cut it at the first [await]). *)
Definition handleApproval (id : string) (approved : bool) : M unit :=
  st ← get;
  match pendingToolRequests st !! id with
  | None => ret tt
  | Some request =>
      sendToBackend (UserApproval (sessionId st) (token st) id approved) ;;
      modify (set_pendingAction None) ;;
      broadcastState ;;
      if negb approved then
        modify (fun st =>
          set_pendingToolRequests (delete id (pendingToolRequests st)) st) ;;
        updateHud "Failed: PERMISSION_DENIED" ;;
        st ← get;
        sendToBackend
          (ToolResult (sessionId st) (token st) id false None (Some "PERMISSION_DENIED"))
      else executeToolRequest request
  end.

End Handlers.

(** A command that runs a tool against the page, as opposed to the
    status line of the HUD. *)
Definition is_tool_command (cmd : PageCommand) : bool :=
  match cmd with
  | CmdHud _ => false
  | _ => true
  end.

(** The effects that act on the page for a tool: a tool command sent to
    the content script, or a navigation of the tab. *)
Definition acts_on_page (e : Effect) : bool :=
  match e with
  | TabsSendMessage cmd => is_tool_command cmd
  | TabsUpdate _ => true
  | _ => false
  end.

(** A [tool_result] sent to the backend. *)
Definition sends_tool_result (e : Effect) : bool :=
  match e with
  | SendBackend (ToolResult _ _ _ _ _ _) => true
  | _ => false
  end.

(** Any message at all to the content script, the HUD line included. *)
Definition is_page_message (e : Effect) : bool :=
  match e with
  | TabsSendMessage _ => true
  | _ => false
  end.

End Ext.

(* ===================================================================== *)
(** * The backend (tool-call broker, run controller, router) *)
(* ===================================================================== *)

Module Backend.
Import Protocol.

Definition TOOL_TIMEOUT_MS : Z := 5000.
Definition TOOL_TIMEOUT_NAVIGATE_MS : Z := 30000.
Definition TOOL_TIMEOUT_ACTION_MS : Z := 60000.
Definition MESSAGE_TIMEOUT_MS : Z := 120000.

(** [toolTimeoutMs(tool)] *)
Definition toolTimeoutMs (tool : ToolName) : Z :=
  match tool with
  | browser_navigate => TOOL_TIMEOUT_NAVIGATE_MS
  | browser_click | browser_type => TOOL_TIMEOUT_ACTION_MS
  | _ => TOOL_TIMEOUT_MS
  end.

Record RunContext := mkRun {
  cancelled : bool;
  finalSent : bool;
  steps : list string
}.

(** How a promise is settled: [resolve(value)] or [reject(new Error(message))]. *)
Inductive Outcome :=
| Resolved (value : option JValue)
| Rejected (message : string).

(** One round trip owns one promise and one timer; both are named by the
    handle allocated for the round trip.  [pt_handle] stands for the
    [resolve]/[reject] pair and for [timer] of the source's record. *)
Record PendingToolCall := mkPending {
  pt_handle : nat;
  pt_tool : ToolName
}.

(** An armed [setTimeout]: its callback deletes [tm_actionId] from the
    pending map and rejects the promise of the same handle. *)
Record Timer := mkTimer {
  tm_actionId : string;
  tm_delay : Z
}.

(** A tool handler suspended at [await requestToolRoundTrip(...)]. *)
Record Suspended := mkSuspended {
  su_tool : ToolName;
  su_url : string
}.

(** [SessionState], with the parts of the runtime it leans on: whether
    [state.ws] is open and what was sent on it, the armed timers, every
    call of a [resolve] or [reject] so far, and the suspended handlers. *)
Record SessionState := mkSession {
  sessionId : string;
  token : string;
  wsOpen : bool;
  sent : list BackendToExtension;
  hasCopilotSession : bool;
  run : option RunContext;
  pendingTools : gmap string PendingToolCall;
  lastFindCandidates : list Candidate;
  timers : gmap nat Timer;
  settled : list (nat * Outcome);
  awaiting : gmap nat Suspended;
  nextHandle : nat
}.

Definition set_token (tok : string) (st : SessionState) : SessionState :=
  mkSession (sessionId st) tok (wsOpen st) (sent st) (hasCopilotSession st) (run st)
    (pendingTools st) (lastFindCandidates st) (timers st) (settled st) (awaiting st)
    (nextHandle st).

Definition set_wsOpen (b : bool) (st : SessionState) : SessionState :=
  mkSession (sessionId st) (token st) b (sent st) (hasCopilotSession st) (run st)
    (pendingTools st) (lastFindCandidates st) (timers st) (settled st) (awaiting st)
    (nextHandle st).

Definition set_sent (l : list BackendToExtension) (st : SessionState) : SessionState :=
  mkSession (sessionId st) (token st) (wsOpen st) l (hasCopilotSession st) (run st)
    (pendingTools st) (lastFindCandidates st) (timers st) (settled st) (awaiting st)
    (nextHandle st).

Definition set_run (r : option RunContext) (st : SessionState) : SessionState :=
  mkSession (sessionId st) (token st) (wsOpen st) (sent st) (hasCopilotSession st) r
    (pendingTools st) (lastFindCandidates st) (timers st) (settled st) (awaiting st)
    (nextHandle st).

Definition set_pendingTools (m : gmap string PendingToolCall) (st : SessionState)
  : SessionState :=
  mkSession (sessionId st) (token st) (wsOpen st) (sent st) (hasCopilotSession st) (run st)
    m (lastFindCandidates st) (timers st) (settled st) (awaiting st) (nextHandle st).

Definition set_lastFindCandidates (l : list Candidate) (st : SessionState) : SessionState :=
  mkSession (sessionId st) (token st) (wsOpen st) (sent st) (hasCopilotSession st) (run st)
    (pendingTools st) l (timers st) (settled st) (awaiting st) (nextHandle st).

Definition set_timers (m : gmap nat Timer) (st : SessionState) : SessionState :=
  mkSession (sessionId st) (token st) (wsOpen st) (sent st) (hasCopilotSession st) (run st)
    (pendingTools st) (lastFindCandidates st) m (settled st) (awaiting st) (nextHandle st).

Definition set_settled (l : list (nat * Outcome)) (st : SessionState) : SessionState :=
  mkSession (sessionId st) (token st) (wsOpen st) (sent st) (hasCopilotSession st) (run st)
    (pendingTools st) (lastFindCandidates st) (timers st) l (awaiting st) (nextHandle st).

Definition set_awaiting (m : gmap nat Suspended) (st : SessionState) : SessionState :=
  mkSession (sessionId st) (token st) (wsOpen st) (sent st) (hasCopilotSession st) (run st)
    (pendingTools st) (lastFindCandidates st) (timers st) (settled st) m (nextHandle st).

Definition set_nextHandle (n : nat) (st : SessionState) : SessionState :=
  mkSession (sessionId st) (token st) (wsOpen st) (sent st) (hasCopilotSession st) (run st)
    (pendingTools st) (lastFindCandidates st) (timers st) (settled st) (awaiting st) n.

(** [toErrorCode(value)]; [None] is an [error] member that is absent. *)
Definition toErrorCode (value : option string) : ToolResultError :=
  match value with
  | Some s => default EXTENSION_NOT_READY (error_of_string s)
  | None => EXTENSION_NOT_READY
  end.

(** [normalizeMessage(raw)].  [parsed] is what [JSON.parse(raw.toString())]
    gives, [None] when it throws. *)
Record Envelope := mkEnvelope {
  env_type : string;
  env_sessionId : string;
  env_token : string;
  env_body : JValue
}.

Definition normalizeMessage (parsed : option JValue) : option Envelope :=
  match parsed with
  | Some (JObj members) =>
      match jlookup "sessionId" members with
      | Some (JStr sid) =>
          match jlookup "token" members with
          | Some (JStr tok) =>
              match jlookup "type" members with
              | Some (JStr ty) => Some (mkEnvelope ty sid tok (JObj members))
              | _ => None
              end
          | _ => None
          end
      | _ => None
      end
  | _ => None
  end.

(** [send(state, message)] *)
Definition send (message : BackendToExtension) (st : SessionState) : SessionState :=
  if wsOpen st then set_sent (sent st ++ [message]) st else st.

Definition sendDelta (textDelta : string) (st : SessionState) : SessionState :=
  send (AssistantDelta (sessionId st) (token st) textDelta) st.

Definition sendFinal (text : string) (st : SessionState) : SessionState :=
  send (AssistantFinal (sessionId st) (token st) text) st.

Definition sendStep (step : string) (st : SessionState) : SessionState :=
  send (StepEvent (sessionId st) (token st) step) st.

(** [appendStep(state, text)] *)
Definition appendStep (text : string) (st : SessionState) : SessionState :=
  match run st with
  | None => st
  | Some r =>
      sendStep text (set_run (Some (mkRun (cancelled r) (finalSent r) (steps r ++ [text]))) st)
  end.

Definition E_FIND_FIRST : string :=
  "Call browser.find first and identify a candidate before taking actions.".
Definition E_DISAMBIGUATE : string :=
  "Multiple candidates are still unresolved. Ask the user to disambiguate by candidate id.".

(** [ensureSingleCandidateBeforeAction(state, tool)]: [Some message] when
    it throws. *)
Definition ensureSingleCandidateBeforeAction (st : SessionState) (tool : ToolName)
  : option string :=
  match tool with
  | browser_find => None
  | _ =>
      match lastFindCandidates st with
      | [] => Some E_FIND_FIRST
      | [_] => None
      | _ :: _ :: _ => Some E_DISAMBIGUATE
      end
  end.

(** [requestToolRoundTrip(state, actionId, tool, params, uiLabel)], up to
    the promise it returns: [inl message] when it throws, [inr h] for the
    promise of handle [h]. *)
Definition requestToolRoundTrip (st : SessionState) (actionId : string) (tool : ToolName)
    (params : list (string * string)) (uiLabel : string)
  : SessionState * (string + nat) :=
  if negb (wsOpen st) then (st, inl "EXTENSION_NOT_READY")
  else
    let payload :=
      ToolRequestMsg (sessionId st) (token st) actionId tool params uiLabel
                     (toolTimeoutMs tool) in
    let h := nextHandle st in
    let st1 := set_nextHandle (S h) st in
    let st2 := set_timers (<[h := mkTimer actionId (toolTimeoutMs tool)]> (timers st1)) st1 in
    let st3 := set_pendingTools (<[actionId := mkPending h tool]> (pendingTools st2)) st2 in
    (send payload st3, inr h).

(** The callback of the timer of handle [h], when the timer is armed. *)
Definition timerFires (h : nat) (st : SessionState) : SessionState :=
  match timers st !! h with
  | None => st
  | Some tm =>
      let st1 := set_timers (delete h (timers st)) st in
      let st2 := set_pendingTools (delete (tm_actionId tm) (pendingTools st1)) st1 in
      set_settled (settled st2 ++ [(h, Rejected "TIMEOUT")]) st2
  end.

(** [candidateFromUnknown(value)] *)
Definition candidateFromUnknown (value : JValue) : option Candidate :=
  match value with
  | JObj members =>
      match jlookup "id" members, jlookup "label" members, jlookup "selector" members with
      | Some (JStr i), Some (JStr l), Some (JStr s) => Some (mkCandidate i l s)
      | _, _, _ => None
      end
  | _ => None
  end.

(** [parseFindResult(data)] *)
Definition parseFindResult (data : option JValue) : list Candidate :=
  match data with
  | Some (JObj members) =>
      match jlookup "candidates" members with
      | Some (JArr items) => omap candidateFromUnknown items
      | _ => []
      end
  | _ => []
  end.

(** [getStringArg(args, key)] *)
Definition getStringArg (args : JValue) (key : string) : string :=
  match jget key args with
  | Some (JStr s) => s
  | _ => ""
  end.

Definition dquote : string := String "034"%char EmptyString.

(** What a tool handler gives back to the driver. *)
Inductive ToolReturn :=
| RetRaw (v : JValue)               (* the object the extension answered *)
| RetNavigated (url : string)       (* [{ ok: true, url }] *)
| RetFind (candidates : list Candidate)
| RetSelected (c : Candidate)
| RetOk.                            (* [{ ok: true }] *)

Inductive HandlerResult :=
| Return (v : ToolReturn)
| Throws (message : string)
| Await (h : nat).

(** The common tail of the handlers that go to the extension: the step
    line, the round trip, and the suspension at [await]. *)
Definition dispatch (st : SessionState) (toolCallId : string) (tool : ToolName)
    (step : string) (params : list (string * string)) (uiLabel : string) (url : string)
  : SessionState * HandlerResult :=
  match requestToolRoundTrip (appendStep step st) toolCallId tool params uiLabel with
  | (st1, inl e) => (st1, Throws e)
  | (st1, inr h) =>
      (set_awaiting (<[h := mkSuspended tool url]> (awaiting st1)) st1, Await h)
  end.

(** The handlers of [createTools], from the call of the driver to the
    first [await] (or to the end, when there is none). *)
Definition handler_start (tool : ToolName) (args : JValue) (toolCallId : string)
    (st : SessionState) : SessionState * HandlerResult :=
  match tool with
  | browser_navigate =>
      let url := Js.trim (getStringArg args "url") in
      if String.eqb url "" then (st, Throws "NOT_FOUND")
      else dispatch st toolCallId browser_navigate ("Navigating to " +:+ url)
             [("url", url)] ("navigating to " +:+ url) url
  | browser_find =>
      let query := Js.trim (getStringArg args "query") in
      if String.eqb query "" then (st, Return (RetFind []))
      else dispatch st toolCallId browser_find
             ("Finding elements for " +:+ dquote +:+ query +:+ dquote)
             [("query", query)] ("finding " +:+ query) ""
  | browser_select_candidate =>
      let id := Js.trim (getStringArg args "id") in
      match List.find (fun c => String.eqb (cand_id c) id) (lastFindCandidates st) with
      | None => (st, Throws "NOT_FOUND")
      | Some candidate =>
          (appendStep ("Selected candidate " +:+ id +:+ ": " +:+ cand_label candidate)
             (set_lastFindCandidates [candidate] st),
           Return (RetSelected candidate))
      end
  | browser_highlight =>
      match ensureSingleCandidateBeforeAction st browser_highlight with
      | Some e => (st, Throws e)
      | None =>
          let selector := Js.trim (getStringArg args "selector") in
          let label := Js.trim (getStringArg args "label") in
          if String.eqb selector "" then (st, Throws "NOT_FOUND")
          else dispatch st toolCallId browser_highlight ("Highlighting " +:+ selector)
                 [("selector", selector); ("label", label)]
                 ("highlighting " +:+ (if String.eqb label "" then selector else label)) ""
      end
  | browser_click =>
      match ensureSingleCandidateBeforeAction st browser_click with
      | Some e => (st, Throws e)
      | None =>
          let selector := Js.trim (getStringArg args "selector") in
          if String.eqb selector "" then (st, Throws "NOT_FOUND")
          else dispatch st toolCallId browser_click ("Clicking " +:+ selector)
                 [("selector", selector)] ("clicking " +:+ selector) ""
      end
  | browser_type =>
      match ensureSingleCandidateBeforeAction st browser_type with
      | Some e => (st, Throws e)
      | None =>
          let selector := Js.trim (getStringArg args "selector") in
          let text := getStringArg args "text" in
          if String.eqb selector "" then (st, Throws "NOT_FOUND")
          else dispatch st toolCallId browser_type ("Typing into " +:+ selector)
                 [("selector", selector); ("text", text)]
                 ("typing into " +:+ selector) ""
      end
  end.

(** The rest of a handler, once the promise it awaits is settled. *)
Definition handler_resume (su : Suspended) (o : Outcome) (st : SessionState)
  : SessionState * HandlerResult :=
  match o with
  | Rejected e => (st, Throws e)
  | Resolved rawResult =>
      match su_tool su with
      | browser_navigate =>
          let result :=
            match rawResult with
            | Some (JObj m) => RetRaw (JObj m)
            | Some (JArr l) => RetRaw (JArr l)
            | _ => RetNavigated (su_url su)
            end in
          (set_lastFindCandidates [] st, Return result)
      | browser_find =>
          let candidates := parseFindResult rawResult in
          (appendStep ("Found " +:+ pretty (length candidates) +:+ " candidate(s)")
             (set_lastFindCandidates candidates st),
           Return (RetFind candidates))
      | _ => (st, Return RetOk)
      end
  end.

(** The first settlement of a promise is the one that counts. *)
Definition outcome_of (h : nat) (log : list (nat * Outcome)) : option Outcome :=
  snd <$> List.find (fun e => Nat.eqb (fst e) h) log.

(** The continuation of the handler that awaits promise [h], when the
    promise is settled. *)
Definition resumeHandler (h : nat) (st : SessionState) : SessionState * option HandlerResult :=
  match awaiting st !! h, outcome_of h (settled st) with
  | Some su, Some o =>
      let '(st1, r) := handler_resume su o (set_awaiting (delete h (awaiting st)) st) in
      (st1, Some r)
  | _, _ => (st, None)
  end.

(** ** The run controller *)

(** What [text.match(...)] of [extractDomainHint] throws when the text
    of the frame is not a string ([None] is a member that is absent). *)
Definition text_error (text : option JValue) : option string :=
  match text with
  | Some (JStr _) => None
  | None => Some "Cannot read properties of undefined (reading 'match')"
  | Some JNull => Some "Cannot read properties of null (reading 'match')"
  | Some _ => Some "text.match is not a function"
  end.

(** [handleUserMessage(state, text)] up to [await sendPrompt()]:
    [Some message] when it throws.  The domain hint is read after the
    run is opened and outside the [try], so a text that is not a string
    leaves the run open. *)
Definition handleUserMessage_start (text : option JValue) (st : SessionState)
  : SessionState * option string :=
  if negb (hasCopilotSession st) then (st, Some "Session not ready")
  else
    (appendStep "Started run"
       (set_lastFindCandidates [] (set_run (Some (mkRun false false [])) st)),
     text_error text).

(** The [setInterval] callback of the turn. *)
Definition keepAlive (st : SessionState) : SessionState :=
  match run st with
  | None => st
  | Some r => if cancelled r then st else sendDelta "..." st
  end.

(** The retry on the default model: one step line, then the prompt is
    sent again. *)
Definition handleUserMessage_retry (model : string) (st : SessionState) : SessionState :=
  appendStep ("Model " +:+ model +:+ " failed with 400; retrying with Copilot default model") st.

(** [handleUserMessage] after [sendPrompt()] resolved; [content] is
    [finalEvent?.data?.content].  The [finally] block ends both paths. *)
Definition handleUserMessage_done (content : option string) (st : SessionState)
  : SessionState :=
  match run st with
  | None => set_run None st
  | Some r =>
      if (cancelled r || finalSent r)%bool then set_run None st
      else
        let trimmed := Js.trim (default "" content) in
        let finalText := if String.eqb trimmed "" then "Done." else trimmed in
        set_run None (sendFinal finalText st)
  end.

(** [handleUserMessage] after [sendPrompt()] rejected; [message] is the
    text the [catch] block reports. *)
Definition handleUserMessage_failed (message : string) (st : SessionState)
  : SessionState :=
  match run st with
  | Some r =>
      if cancelled r then set_run None st
      else set_run None (sendFinal ("Failed: " +:+ message) st)
  | None => set_run None (sendFinal ("Failed: " +:+ message) st)
  end.

(** The handle of every pending call.  The source visits the calls in
    the order they were recorded; the order decides nothing but the
    order of the rejections in the log. *)
Definition pending_handles (st : SessionState) : list nat :=
  pt_handle <$> (map_to_list (pendingTools st)).*2.

(** The loop of [cancelRun] and [teardownSession] over the pending
    calls: each timer is cleared, each promise rejected, the map emptied. *)
Definition rejectAllPending (st : SessionState) : SessionState :=
  let hs := pending_handles st in
  set_pendingTools ∅
    (set_settled (settled st ++ ((fun h => (h, Rejected "CANCELLED")) <$> hs))
       (set_timers (foldr delete (timers st) hs) st)).

Inductive CancelStatus :=
| CancelReturned              (* no run, or the whole function ran *)
| CancelAwaitsAbort           (* suspended at [await copilotSession.abort()] *)
| CancelThrew (message : string).

Definition E_RUN_NULL : string :=
  "TypeError: Cannot read properties of null (reading 'finalSent')".

(** [cancelRun] from the [if (!state.run.finalSent)] on: the part that
    runs once [abort()] has settled. *)
Definition cancelRun_resume (st : SessionState) : SessionState * CancelStatus :=
  match run st with
  | None => (st, CancelThrew E_RUN_NULL)
  | Some r =>
      if finalSent r then (st, CancelReturned)
      else
        let st1 := sendFinal "Cancelled by user." st in
        (set_run (Some (mkRun (cancelled r) true (steps r))) st1, CancelReturned)
  end.

(** [cancelRun(state)] up to [await state.copilotSession.abort()]. *)
Definition cancelRun (st : SessionState) : SessionState * CancelStatus :=
  match run st with
  | None => (st, CancelReturned)
  | Some r =>
      let st1 := set_run (Some (mkRun true (finalSent r) (steps r))) st in
      let st2 := rejectAllPending st1 in
      if hasCopilotSession st2 then (st2, CancelAwaitsAbort)
      else cancelRun_resume st2
  end.

(** The three subscriptions of [wireSessionEvents]. *)
Definition onMessageDelta (delta : string) (st : SessionState) : SessionState :=
  match run st with
  | None => st
  | Some r =>
      if cancelled r then st
      else if String.eqb delta "" then st else sendDelta delta st
  end.

Definition onToolEvent (step : string) (st : SessionState) : SessionState :=
  match run st with
  | None => st
  | Some r => if cancelled r then st else appendStep step st
  end.

(** ** The registry and the router *)

(** The registry, with what the router leans on of the driver: whether
    [client.createSession] resolves (with the configured model or, after
    the fallback, without). *)
Record Server := mkServer {
  pairingToken : string;
  sessions : gmap string SessionState;
  driverUp : bool
}.

Definition set_sessions (m : gmap string SessionState) (srv : Server) : Server :=
  mkServer (pairingToken srv) m (driverUp srv).

(** The body of [onToolResult] once the session is found. *)
Definition settle (actionId : string) (ok : bool) (data : option JValue)
    (error : option string) (st : SessionState) : SessionState :=
  match pendingTools st !! actionId with
  | None => st
  | Some pending =>
      let st1 := set_timers (delete (pt_handle pending) (timers st)) st in
      let st2 := set_pendingTools (delete actionId (pendingTools st1)) st1 in
      let o := if ok then Resolved data
               else Rejected (error_string (toErrorCode error)) in
      set_settled (settled st2 ++ [(pt_handle pending, o)]) st2
  end.

(** [onToolResult(message)] *)
Definition onToolResult (sid actionId : string) (ok : bool) (data : option JValue)
    (error : option string) (srv : Server) : Server :=
  match sessions srv !! sid with
  | None => srv
  | Some st => set_sessions (<[sid := settle actionId ok data error st]> (sessions srv)) srv
  end.

(** What the socket handler did with one inbound frame. *)
Inductive Routed :=
| Dropped                                  (* [normalizeMessage] gave [null] *)
| ClosedInvalidToken                       (* [ws.close(4001, "invalid token")] *)
| ToUserMessage (sid : string) (text : option JValue)
                                           (* queued behind [state.queue] *)
| ToUserApproval (sid : string)
| ToCancel (sid : string) (status : CancelStatus)
| ToToolResult (sid : string)
| NoSuchSession (sid : string)             (* the [return] of a failed lookup *)
| CreateSessionFailed (sid : string)       (* [createSessionState] threw *)
| Unhandled (type : string).               (* the [default] branch throws *)

(** Whether [ws.close] was called. *)
Definition closes_channel (r : Routed) : bool :=
  match r with
  | ClosedInvalidToken => true
  | _ => false
  end.

(** Whether code of a session ran, or was queued to run. *)
Definition runs_handler (r : Routed) : bool :=
  match r with
  | ToUserMessage _ _ | ToUserApproval _ | ToCancel _ _ | ToToolResult _ => true
  | _ => false
  end.

(** [String(v)] for a value of a parsed frame, as a template literal
    writes it (a number is an integer, written in full). *)
Fixpoint to_string (v : JValue) : string :=
  match v with
  | JNull => "null"
  | JBool b => if b then "true" else "false"
  | JNum n => pretty n
  | JStr s => s
  | JArr items =>
      (fix go (l : list JValue) : string :=
         match l with
         | [] => ""
         | x :: r =>
             (match x with JNull => "" | _ => to_string x end)
             +:+ (match r with [] => "" | _ => "," +:+ go r end)
         end) items
  | JObj _ => "[object Object]"
  end.

(** [`${obj[key]}`]; a member that is absent is [undefined]. *)
Definition template (v : option JValue) : string :=
  match v with
  | Some x => to_string x
  | None => "undefined"
  end.

Definition truthy (v : option JValue) : bool :=
  match v with
  | None | Some JNull | Some (JBool false) | Some (JNum 0) => false
  | Some (JStr s) => negb (String.eqb s "")
  | _ => true
  end.

(** A fresh session, as [createSessionState] builds it. *)
Definition createSessionState (sid tok : string) : SessionState :=
  mkSession sid tok true [] true None ∅ [] ∅ [] ∅ 0.

(** [getSessionState(sessionId, token, ws)]: the session of that id,
    bound to the socket the frame came in on (which is open) and to the
    token of the frame, or a new session; nothing when
    [createSessionState] throws.  The creation is taken as one step:
    the frames that arrive while the driver creates the session are
    handled after it. *)
Definition getSessionState (sid tok : string) (srv : Server) : option SessionState :=
  match sessions srv !! sid with
  | Some existing => Some (set_token tok (set_wsOpen true existing))
  | None => if driverUp srv then Some (createSessionState sid tok) else None
  end.

(** [routeMessage(ws, message)].  For a [user_message] the session is
    found or created and the turn chained to [state.queue]; the turn
    itself, [queuedTurn] with the text of the frame, runs later. *)
Definition routeMessage (message : Envelope) (srv : Server) : Server * Routed :=
  if negb (String.eqb (env_token message) (pairingToken srv))
  then (srv, ClosedInvalidToken)
  else
    let sid := env_sessionId message in
    let body := env_body message in
    if String.eqb (env_type message) "user_message" then
      match getSessionState sid (env_token message) srv with
      | Some st =>
          (set_sessions (<[sid := st]> (sessions srv)) srv,
           ToUserMessage sid (jget "text" body))
      | None => (srv, CreateSessionFailed sid)
      end
    else if String.eqb (env_type message) "user_approval" then
      match sessions srv !! sid with
      | None => (srv, NoSuchSession sid)
      | Some st =>
          match run st with
          | None => (srv, NoSuchSession sid)
          | Some r =>
              if cancelled r then (srv, NoSuchSession sid)
              else
                let decision := if truthy (jget "approved" body)
                                then "approved" else "rejected" in
                let st1 := appendStep ("User " +:+ decision +:+ " action "
                                       +:+ template (jget "actionId" body)) st in
                (set_sessions (<[sid := st1]> (sessions srv)) srv, ToUserApproval sid)
          end
      end
    else if String.eqb (env_type message) "cancel" then
      match sessions srv !! sid with
      | None => (srv, NoSuchSession sid)
      | Some st =>
          let '(st1, status) := cancelRun st in
          (set_sessions (<[sid := st1]> (sessions srv)) srv, ToCancel sid status)
      end
    else if String.eqb (env_type message) "tool_result" then
      match jget "actionId" body with
      | Some (JStr actionId) =>
          (onToolResult sid actionId (truthy (jget "ok" body)) (jget "data" body)
             (match jget "error" body with Some (JStr e) => Some e | _ => None end) srv,
           ToToolResult sid)
      | _ => (srv, ToToolResult sid)   (* no key of the map is not a string *)
      end
    else (srv, Unhandled (env_type message)).

(** The [ws.on("message")] handler of [main]. *)
Definition onSocketMessage (parsed : option JValue) (srv : Server) : Server * Routed :=
  match normalizeMessage parsed with
  | None => (srv, Dropped)
  | Some message => routeMessage message srv
  end.

(** ** One session as a transition system *)

(** What can happen to a session, one uninterrupted piece of code each. *)
Inductive Event :=
| EvUserTurn (text : option JValue)          (* the queue starts a turn *)
| EvDriverRetry (model : string)
| EvDriverDone (content : option string)     (* [sendPrompt()] resolved *)
| EvDriverFailed (message : string)          (* [sendPrompt()] rejected *)
| EvKeepAlive
| EvMessageDelta (delta : string)
| EvToolEvent (step : string)
| EvToolCall (tool : ToolName) (args : JValue) (toolCallId : string)
| EvResume (h : nat)                         (* a suspended handler goes on *)
| EvToolResult (actionId : string) (ok : bool) (data : option JValue)
               (error : option string)
| EvTimer (h : nat)
| EvCancel                                   (* [cancelRun], to its [await] *)
| EvAbortSettled                             (* [cancelRun], from its [await] *)
| EvSocket (open : bool).                    (* [ws.readyState] changes *)

(** The link of [state.queue] that [routeMessage] adds for a
    [user_message]: the turn, and a final answer for what it throws. *)
Definition queuedTurn (text : option JValue) (st : SessionState) : SessionState :=
  match handleUserMessage_start text st with
  | (st1, Some e) => sendFinal ("Failed: " +:+ e) st1
  | (st1, None) => st1
  end.

Definition step (st : SessionState) (ev : Event) : SessionState :=
  match ev with
  | EvUserTurn text => queuedTurn text st
  | EvDriverRetry model => handleUserMessage_retry model st
  | EvDriverDone content => handleUserMessage_done content st
  | EvDriverFailed message => handleUserMessage_failed message st
  | EvKeepAlive => keepAlive st
  | EvMessageDelta delta => onMessageDelta delta st
  | EvToolEvent s => onToolEvent s st
  | EvToolCall tool args toolCallId => fst (handler_start tool args toolCallId st)
  | EvResume h => fst (resumeHandler h st)
  | EvToolResult actionId ok data error => settle actionId ok data error st
  | EvTimer h => timerFires h st
  | EvCancel => fst (cancelRun st)
  | EvAbortSettled => fst (cancelRun_resume st)
  | EvSocket b => set_wsOpen b st
  end.

Definition steps_from (st : SessionState) (evs : list Event) : SessionState :=
  fold_left step evs st.

(** The [assistant_final] messages among those sent. *)
Definition finals (l : list BackendToExtension) : list string :=
  omap (fun m => match m with AssistantFinal _ _ t => Some t | _ => None end) l.

(** The [tool_request] messages among those sent. *)
Definition tool_requests (l : list BackendToExtension) : list (string * ToolName) :=
  omap (fun m => match m with
                 | ToolRequestMsg _ _ a t _ _ _ => Some (a, t)
                 | _ => None
                 end) l.

(** The cancelled flag of the run, if there is a run. *)
Definition run_flag (st : SessionState) : option bool := cancelled <$> run st.

(** How often a promise was settled. *)
Definition settle_count (h : nat) (log : list (nat * Outcome)) : nat :=
  length (List.filter (fun e => Nat.eqb (fst e) h) log).

(** The tools that act on an element of the page. *)
Definition targets_element (tool : ToolName) : bool :=
  match tool with
  | browser_highlight | browser_click | browser_type => true
  | _ => false
  end.

(** Whether an event is the continuation of a [browser_find] handler,
    the one place that stores the candidates of a find. *)
Definition resumes_find (st : SessionState) (ev : Event) : bool :=
  match ev with
  | EvResume h =>
      match awaiting st !! h with
      | Some su => match su_tool su with browser_find => true | _ => false end
      | None => false
      end
  | _ => false
  end.

(** No event of the list, run from [st], is such a continuation. *)
Fixpoint no_find_resumes (st : SessionState) (evs : list Event) : Prop :=
  match evs with
  | [] => True
  | ev :: rest => resumes_find st ev = false /\ no_find_resumes (step st ev) rest
  end.

(** ** The invariant of the broker *)

(** The part of a session the broker works on. *)
Definition core (st : SessionState)
  : gmap string PendingToolCall * gmap nat Timer * list (nat * Outcome) * nat :=
  (pendingTools st, timers st, settled st, nextHandle st).

(** Every pending call has its timer armed, under its own action id and
    with the deadline of its tool; the promise of an armed timer is not
    settled; no promise is settled twice; handles are allocated in order. *)
Definition Inv (st : SessionState) : Prop :=
  (forall id pc, pendingTools st !! id = Some pc ->
     timers st !! pt_handle pc = Some (mkTimer id (toolTimeoutMs (pt_tool pc)))) /\
  (forall h tm, timers st !! h = Some tm ->
     (h < nextHandle st)%nat /\ settle_count h (settled st) = 0%nat) /\
  (forall h, (settle_count h (settled st) <= 1)%nat) /\
  (forall h, (nextHandle st <= h)%nat -> settle_count h (settled st) = 0%nat).

(** The states a session can be in. *)
Definition reachable (st : SessionState) : Prop :=
  exists sid tok evs, st = steps_from (createSessionState sid tok) evs.

End Backend.

(* ===================================================================== *)
(** * The content script (extension/content.js) *)
(* ===================================================================== *)

Module Content.

(** ** The document *)

(** What the script reads of one element.  [tag] is
    [tagName.toLowerCase()]; attribute names are in lower case;
    [rendered] is the outcome of the style and box tests of [isVisible];
    [text] is [innerText || textContent || ""]; [value] is the current
    value of an input. *)
Record ElemData := mkElem {
  tag : string;
  attrs : list (string * string);
  isHTMLElement : bool;
  rendered : bool;
  text : string;
  value : string
}.

Inductive Node := Elem (d : ElemData) (children : list Node).

Definition data (n : Node) : ElemData := match n with Elem d _ => d end.
Definition children (n : Node) : list Node := match n with Elem _ cs => cs end.

(** An element is named by the child indexes that lead to it from the
    root element, innermost first: the root is [[]], and the parent of
    [i :: p] is [p]. *)
Definition Path := list nat.

Fixpoint descend (n : Node) (route : list nat) : option Node :=
  match route with
  | [] => Some n
  | i :: rest =>
      match nth_error (children n) i with
      | Some c => descend c rest
      | None => None
      end
  end.

Definition element (doc : Node) (p : Path) : option ElemData :=
  data <$> descend doc (rev p).

(** [element.parentElement] *)
Definition parentElement (p : Path) : option Path :=
  match p with
  | [] => None
  | _ :: parent => Some parent
  end.

(** Every element of the document, in document order. *)
Fixpoint elements_from (p : Path) (n : Node) : list Path :=
  match n with
  | Elem _ cs =>
      p :: (fix go (i : nat) (cs : list Node) : list Path :=
              match cs with
              | [] => []
              | c :: rest => elements_from (i :: p) c ++ go (S i) rest
              end) 0%nat cs
  end.

Definition all_elements (doc : Node) : list Path := elements_from [] doc.

(** [element.getAttribute(name)] *)
Fixpoint getAttribute (name : string) (l : list (string * string)) : option string :=
  match l with
  | [] => None
  | (k, v) :: rest => if String.eqb k name then Some v else getAttribute name rest
  end.

Definition attr (d : ElemData) (name : string) : option string :=
  getAttribute name (attrs d).

(** A value that is present and not the empty string ([if (value)]). *)
Definition nonempty (o : option string) : option string :=
  match o with
  | Some s => if String.eqb s "" then None else Some s
  | None => None
  end.

(** [siblings.indexOf(current) + 1] for the siblings of the same tag:
    the position of the element among the children of its parent that
    have its tag.  The root element is the first of its type. *)
Definition typeIndex (doc : Node) (p : Path) : nat :=
  match p with
  | [] => 1
  | i :: parent =>
      match descend doc (rev parent), element doc p with
      | Some pn, Some d =>
          S (length (List.filter (fun c => String.eqb (tag (data c)) (tag d))
                                 (firstn i (children pn))))
      | _, _ => 0
      end
  end.

(** ** Selectors *)

(** The selectors [buildSelector] writes, as the browser reads them back:
    [#id], [tag[attr="value"]], a chain [tag:nth-of-type(i) > ...]
    (outermost first), and a bare tag. *)
Inductive Selector :=
| SelId (id : string)
| SelAttr (tag attr value : string)
| SelPath (segments : list (string * nat))
| SelTag (tag : string).

(** Whether the element at [p] matches the chain whose compounds are
    [segments], innermost first. *)
Fixpoint matches_chain (doc : Node) (segments : list (string * nat)) (p : Path) : bool :=
  match segments with
  | [] => true
  | (t, i) :: outer =>
      match element doc p with
      | None => false
      | Some d =>
          String.eqb (tag d) t && Nat.eqb (typeIndex doc p) i &&
          match outer with
          | [] => true
          | _ :: _ =>
              match p with
              | [] => false
              | _ :: parent => matches_chain doc outer parent
              end
          end
      end
  end.

(** [element.matches(selector)] *)
Definition matches (doc : Node) (sel : Selector) (p : Path) : bool :=
  match element doc p with
  | None => false
  | Some d =>
      match sel with
      | SelId i => match attr d "id" with Some v => String.eqb v i | None => false end
      | SelAttr t a v =>
          String.eqb (tag d) t &&
          match attr d a with Some w => String.eqb w v | None => false end
      | SelPath segments =>
          match segments with
          | [] => false
          | _ => matches_chain doc (rev segments) p
          end
      | SelTag t => String.eqb (tag d) t
      end
  end.

(** A line break inside a quoted value makes the selector a syntax
    error: [attrEscape] escapes the backslash and the quote only. *)
Definition is_newline (c : ascii) : bool :=
  let n := nat_of_ascii c in ((n =? 10) || (n =? 12) || (n =? 13))%nat.

Fixpoint has_newline (s : string) : bool :=
  match s with
  | EmptyString => false
  | String c r => (is_newline c || has_newline r)%bool
  end.

Definition parses (sel : Selector) : bool :=
  match sel with
  | SelAttr _ _ v => negb (has_newline v)
  | _ => true
  end.

(** [document.querySelectorAll(selector)], for a selector that parses. *)
Definition querySelectorAll (doc : Node) (sel : Selector) : list Path :=
  List.filter (matches doc sel) (all_elements doc).

(** [isUniqueSelector(selector)] *)
Definition isUniqueSelector (doc : Node) (sel : Selector) : bool :=
  if parses sel then Nat.eqb (length (querySelectorAll doc sel)) 1 else false.

(** The loop of [buildSelector]: [segments] is outermost first, [fuel]
    is what is left of the cap of five. *)
Definition finish (segments : list (string * nat)) (t : string) : Selector :=
  match segments with
  | [] => SelTag t
  | _ => SelPath segments
  end.

Fixpoint climb (doc : Node) (t : string) (fuel : nat) (segments : list (string * nat))
    (current : Path) : Selector :=
  match fuel with
  | O => finish segments t
  | S k =>
      match parentElement current, element doc current with
      | Some parent, Some d =>
          let segments' := (tag d, typeIndex doc current) :: segments in
          if isUniqueSelector doc (SelPath segments') then SelPath segments'
          else climb doc t k segments' parent
      | _, _ => finish segments t
      end
  end.


(** One step of the chain of attributes: the selector, if the attribute
    is there and the selector is unique. *)
Definition attempt (doc : Node) (value : option string) (mk : string -> Selector)
  : option Selector :=
  match nonempty value with
  | Some v => if isUniqueSelector doc (mk v) then Some (mk v) else None
  | None => None
  end.

(** [buildSelector(element)] *)
Definition buildSelector (doc : Node) (p : Path) (d : ElemData) : Selector :=
  match attempt doc (attr d "id") SelId with
  | Some s => s
  | None =>
  let t := tag d in
  match attempt doc (attr d "name") (SelAttr t "name") with
  | Some s => s
  | None =>
  match attempt doc (attr d "aria-label") (SelAttr t "aria-label") with
  | Some s => s
  | None =>
  let testId := match nonempty (attr d "data-testid") with
                | Some v => Some v
                | None => attr d "data-test-id"
                end in
  match attempt doc testId (SelAttr t "data-testid") with
  | Some s => s
  | None =>
  match attempt doc (attr d "role") (SelAttr t "role") with
  | Some s => s
  | None => climb doc t 5 [] p
  end end end end end.

(** ** Ranking *)

(** [isVisible(element)] *)
Definition isVisible (d : ElemData) : bool :=
  (isHTMLElement d && rendered d)%bool.

Definition trimmed (o : option string) : option string :=
  match o with
  | Some s => if String.eqb (Js.trim s) "" then None else Some (Js.trim s)
  | None => None
  end.

(** [getElementLabel(element)] *)
Definition getElementLabel (d : ElemData) : string :=
  match trimmed (attr d "aria-label") with
  | Some aria => aria
  | None =>
  let t := Js.trim (text d) in
  if negb (String.eqb t "") then Js.slice0 120 (Js.collapse_ws t)
  else
  let inputValue :=
    if (isHTMLElement d && String.eqb (tag d) "input")%bool then value d else "" in
  match trimmed (Some inputValue) with
  | Some v => v
  | None =>
  match trimmed (attr d "placeholder") with
  | Some ph => ph
  | None =>
  match trimmed (attr d "name") with
  | Some n => n
  | None => tag d
  end end end end.

(** [normalizeText(value)] *)
Definition normalizeText (value : option string) : string :=
  Js.trim (Js.toLowerCase (default "" value)).

(** The points of the loop of [rankCandidate] for one token. *)
Definition token_score (label name placeholder role href token : string) : Z :=
  (if Js.includes token label then 15 else 0) +
  (if (Js.includes token name || Js.includes token placeholder)%bool then 10 else 0) +
  (if Js.includes token role then 5 else 0) +
  (if Js.includes token href then 5 else 0).

(** [rankCandidate(element, queryText)] *)
Definition rankCandidate (d : ElemData) (queryText : string) : Z :=
  let label := normalizeText (Some (getElementLabel d)) in
  let role := normalizeText (attr d "role") in
  let name := normalizeText (attr d "name") in
  let placeholder := normalizeText (attr d "placeholder") in
  let href := normalizeText (attr d "href") in
  let query := normalizeText (Some queryText) in
  if String.eqb query "" then 0
  else
    let tokens := Js.tokens query in
    (if Js.includes query label then 80 else 0) +
    (if (Js.includes query name || Js.includes query placeholder)%bool then 50 else 0) +
    (if Js.includes query role then 20 else 0) +
    (if Js.includes query href then 20 else 0) +
    fold_left (fun score token =>
                 score + token_score label name placeholder role href token) tokens 0 +
    (if isVisible d then 10 else 0).

(** The selector list of [findCandidates]. *)
Definition has_attr (d : ElemData) (name : string) : bool :=
  match attr d name with Some _ => true | None => false end.

Definition attr_is (d : ElemData) (name v : string) : bool :=
  match attr d name with Some w => String.eqb w v | None => false end.

Definition interactive (d : ElemData) : bool :=
  (String.eqb (tag d) "button"
   || (String.eqb (tag d) "a" && has_attr d "href")
   || (String.eqb (tag d) "a" && attr_is d "role" "button")
   || String.eqb (tag d) "input"
   || String.eqb (tag d) "textarea"
   || String.eqb (tag d) "select"
   || attr_is d "role" "button"
   || has_attr d "aria-label"
   || has_attr d "name"
   || has_attr d "placeholder"
   || attr_is d "contenteditable" "true")%bool.

(** [Array.prototype.sort] with [(a, b) => b.score - a.score]: stable,
    higher scores first.  [insert_ranked x l] puts [x], which stood
    before the items of [l], in front of the first item that does not
    score more than it. *)
Fixpoint insert_ranked {A} (x : A * Z) (l : list (A * Z)) : list (A * Z) :=
  match l with
  | [] => [x]
  | y :: rest => if snd y <=? snd x then x :: l else y :: insert_ranked x rest
  end.

Definition sort_ranked {A} (l : list (A * Z)) : list (A * Z) :=
  fold_right insert_ranked [] l.

(** The elements [findCandidates] ranks: of the selector list, HTML
    elements, visible. *)
Definition eligible (doc : Node) : list (Path * ElemData) :=
  List.filter (fun pd => isVisible (snd pd))
    (List.filter (fun pd => isHTMLElement (snd pd))
       (List.filter (fun pd => interactive (snd pd))
          (omap (fun p => (fun d => (p, d)) <$> element doc p) (all_elements doc)))).

(** The [ranked] array of [findCandidates]. *)
Definition ranked (doc : Node) (query : string) : list ((Path * ElemData) * Z) :=
  firstn 8
    (sort_ranked
       (List.filter (fun item => 0 <? snd item)
          (map (fun pd => (pd, rankCandidate (snd pd) query)) (eligible doc)))).

Record Candidate := mkCandidate {
  cand_id : string;
  cand_label : string;
  cand_selector : Selector
}.

(** [findCandidates(query)] *)
Definition findCandidates (doc : Node) (query : string) : list Candidate :=
  imap (fun index item =>
          let '(p, d, _) := item in
          mkCandidate ("cand-" +:+ pretty (index + 1)%nat) (getElementLabel d)
                      (buildSelector doc p d))
       (ranked doc query).

End Content.

(* ===================================================================== *)
(** * More of the backend: teardown and the frames of the extension *)
(* ===================================================================== *)

Module BackendMore.
Import Protocol Backend.

(** [teardownSession(state, reason)]: every pending call is rejected
    and forgotten, and the session leaves the registry.  The second
    component is the session object as it is left behind. *)
Definition teardownSession (st : SessionState) (srv : Server) : Server * SessionState :=
  (set_sessions (delete (sessionId st) (sessions srv)) srv, rejectAllPending st).

(** What [JSON.parse] gives the backend for a frame that the extension
    wrote with [JSON.stringify]: the members of the object literal, in
    the order of the source; a member that is [undefined] is left out. *)
Definition optional_member (key : string) (v : option JValue) : list (string * JValue) :=
  match v with
  | Some x => [(key, x)]
  | None => []
  end.

Definition encode (m : ExtensionToBackend) : JValue :=
  match m with
  | UserMessage sid tok text =>
      JObj [("type", JStr "user_message"); ("sessionId", JStr sid); ("token", JStr tok);
            ("text", JStr text)]
  | UserApproval sid tok actionId approved =>
      JObj [("type", JStr "user_approval"); ("sessionId", JStr sid); ("token", JStr tok);
            ("actionId", JStr actionId); ("approved", JBool approved)]
  | Cancel sid tok =>
      JObj [("type", JStr "cancel"); ("sessionId", JStr sid); ("token", JStr tok)]
  | ToolResult sid tok actionId ok data error =>
      JObj ([("type", JStr "tool_result"); ("sessionId", JStr sid); ("token", JStr tok);
             ("actionId", JStr actionId); ("ok", JBool ok)]
            ++ optional_member "data" data
            ++ optional_member "error" (JStr <$> error))
  end.

(** The answer of the content script to a find, as the backend gets it. *)
Definition encode_candidate (c : Candidate) : JValue :=
  JObj [("id", JStr (cand_id c)); ("label", JStr (cand_label c));
        ("selector", JStr (cand_selector c))].

Definition encode_find_result (cs : list Candidate) : JValue :=
  JObj [("candidates", JArr (encode_candidate <$> cs))].

(** The three members every frame carries. *)
Definition frame_type (m : ExtensionToBackend) : string :=
  match m with
  | UserMessage _ _ _ => "user_message"
  | UserApproval _ _ _ _ => "user_approval"
  | Cancel _ _ => "cancel"
  | ToolResult _ _ _ _ _ _ => "tool_result"
  end.

Definition frame_sessionId (m : ExtensionToBackend) : string :=
  match m with
  | UserMessage sid _ _ | UserApproval sid _ _ _ | Cancel sid _
  | ToolResult sid _ _ _ _ _ => sid
  end.

Definition frame_token (m : ExtensionToBackend) : string :=
  match m with
  | UserMessage _ tok _ | UserApproval _ tok _ _ | Cancel _ tok
  | ToolResult _ tok _ _ _ _ => tok
  end.


Definition sends_more (st st' : SessionState) : Prop :=
  wsOpen st' = wsOpen st /\
  exists l, sent st' = sent st ++ l /\ (wsOpen st = false -> l = []).

(** A run goes on from [r] to [r']: flags are not cleared, the step log
    only grows. *)
Definition run_goes_on (r r' : RunContext) : Prop :=
  (cancelled r = true -> cancelled r' = true) /\
  (finalSent r = true -> finalSent r' = true) /\
  exists l, steps r' = steps r ++ l.

End BackendMore.

(* ===================================================================== *)
(** * More of the service worker: stop, and the address of a navigation *)
(* ===================================================================== *)

Module ExtMore.
Import Protocol Ext.

#[local] Existing Instance Ext.M_ret.
#[local] Existing Instance Ext.M_bind.

(** The effects that go to the page or the tab, as opposed to the
    backend and the side panel. *)
Definition page_effect (e : Effect) : bool :=
  match e with
  | TabsSendMessage _ | ExecuteScript | TabsUpdate _ => true
  | _ => false
  end.

(** A computation that leaves the state of the worker alone and has
    none but page effects. *)
Definition quiet {A} (m : M A) : Prop :=
  forall st, exists out r, m st = (st, out, r) /\ Forall (fun e => page_effect e = true) out.

(** The error codes a tool exchange of the worker can end with. *)
Definition worker_code (e : string) : Prop :=
  e = "NO_ACTIVE_TAB" \/ e = "PERMISSION_DENIED" \/ e = "EXTENSION_NOT_READY" \/ e = "TIMEOUT".

(** The [finally] block of [executeToolRequest], as a function of the
    state. *)
Definition after_execute (request : ToolRequest) (st : State) : State :=
  let st1 := set_pendingToolRequests (delete (actionId request) (pendingToolRequests st)) st in
  match pendingAction st with
  | Some a => if String.eqb (pa_actionId a) (actionId request)
              then set_pendingAction None st1 else st1
  | None => st1
  end.

(** A message to the backend. *)
Definition sends_backend (e : Effect) : bool :=
  match e with
  | SendBackend _ => true
  | _ => false
  end.

Section Stop.
Variable browser : Browser.

(** [stopRun()] *)
Definition stopRun : M unit :=
  if negb (socketOpen browser) then ret tt
  else
    st ← get;
    sendToBackend browser (Cancel (sessionId st) (token st));;
    match pendingAction st with
    | Some a =>
        let id := pa_actionId a in
        sendToBackend browser (UserApproval (sessionId st) (token st) id false);;
        sendToBackend browser
          (ToolResult (sessionId st) (token st) id false None (Some "CANCELLED"));;
        modify (fun st => set_pendingToolRequests (delete id (pendingToolRequests st)) st);;
        modify (set_pendingAction None);;
        broadcastState
    | None => ret tt
    end;;
    updateHud browser "Failed: CANCELLED".

(** Where [handleApproval] stands at its first [await]. *)
Inductive ApprovalRest :=
| NothingLeft                        (* no such request: it has returned *)
| AfterDenial (id : string)          (* at [await updateHud("Failed: PERMISSION_DENIED")] *)
| Executes (request : ToolRequest).  (* in [executeToolRequest], at [await getActiveTab()] *)

(** [handleApproval(actionId, approved)] up to its first [await].  In
    the approved branch [executeToolRequest] is entered and suspends at
    the tab query before it has sent or changed anything, so what is
    left is the whole of it. *)
Definition handleApproval_start (id : string) (approved : bool) : M ApprovalRest :=
  st ← get;
  match pendingToolRequests st !! id with
  | None => ret NothingLeft
  | Some request =>
      sendToBackend browser (UserApproval (sessionId st) (token st) id approved);;
      modify (set_pendingAction None);;
      broadcastState;;
      if negb approved then
        modify (fun st =>
          set_pendingToolRequests (delete id (pendingToolRequests st)) st);;
        ret (AfterDenial id)
      else ret (Executes request)
  end.

(** [handleApproval] from its first [await] on, when nothing else runs
    in between its later ones. *)
Definition handleApproval_rest (rest : ApprovalRest) : M unit :=
  match rest with
  | NothingLeft => ret tt
  | AfterDenial id =>
      updateHud browser "Failed: PERMISSION_DENIED";;
      st ← get;
      sendToBackend browser
        (ToolResult (sessionId st) (token st) id false None (Some "PERMISSION_DENIED"))
  | Executes request => executeToolRequest browser request
  end.

End Stop.

(** ** [normalizeUrl] *)

Definition is_digit (c : ascii) : bool :=
  let n := nat_of_ascii c in ((48 <=? n) && (n <=? 57))%nat.

Definition is_letter (c : ascii) : bool :=
  let n := nat_of_ascii c in
  (((65 <=? n) && (n <=? 90)) || ((97 <=? n) && (n <=? 122)))%nat.

(** The class [[a-z0-9.-]] under the [i] flag. *)
Definition is_host_char (c : ascii) : bool :=
  (is_letter c || is_digit c || Ascii.eqb c "." || Ascii.eqb c "-")%bool.

Fixpoint all_chars (f : ascii -> bool) (s : string) : bool :=
  match s with
  | EmptyString => true
  | String c r => (f c && all_chars f r)%bool
  end.






(** What [.] does not match: line feed, carriage return, and the line
    and paragraph separators (U+2028 and U+2029, three bytes each). *)
Fixpoint has_line_terminator (s : string) : bool :=
  match s with
  | EmptyString => false
  | String c r =>
      (Nat.eqb (nat_of_ascii c) 10 || Nat.eqb (nat_of_ascii c) 13
       || Js.startsWith (String (ascii_of_nat 226) (String (ascii_of_nat 128)
                           (String (ascii_of_nat 168) EmptyString))) s
       || Js.startsWith (String (ascii_of_nat 226) (String (ascii_of_nat 128)
                           (String (ascii_of_nat 169) EmptyString))) s
       || has_line_terminator r)%bool
  end.

(** The text before the first [/], and the text after it if there is one. *)
Fixpoint split_slash (s : string) : string * option string :=
  match s with
  | EmptyString => (EmptyString, None)
  | String c r =>
      if Ascii.eqb c "/" then (EmptyString, Some r)
      else let '(host, rest) := split_slash r in (String c host, rest)
  end.

(** The text before and after the last dot. *)
Fixpoint split_last_dot (s : string) : option (string * string) :=
  match s with
  | EmptyString => None
  | String c r =>
      match split_last_dot r with
      | Some (a, t) => Some (String c a, t)
      | None => if Ascii.eqb c "." then Some (EmptyString, r) else None
      end
  end.

(** The second test of [normalizeUrl]: one or more host characters, a
    dot, two or more letters, then nothing or a slash and the rest of
    one line.  The letters hold no dot and no slash, so they start after
    the last dot before the first slash. *)
Definition looks_like_domain (raw : string) : bool :=
  let '(host, rest) := split_slash raw in
  match split_last_dot host with
  | Some (a, t) =>
      (negb (String.eqb a "") && all_chars is_host_char a
       && all_chars is_letter t && (2 <=? String.length t)%nat
       && match rest with
          | Some path => negb (has_line_terminator path)
          | None => true
          end)%bool
  | None => false
  end.

(** [/^https?:\/\//i.test(raw)] *)
Definition has_http_scheme (raw : string) : bool :=
  (Js.startsWith "http://" (Js.toLowerCase raw)
   || Js.startsWith "https://" (Js.toLowerCase raw))%bool.

(** [encodeURIComponent] on the bytes of the text: the unreserved
    characters stay, every other byte becomes [%XX]. *)
Definition is_unreserved (c : ascii) : bool :=
  (is_letter c || is_digit c
   || existsb (Ascii.eqb c) ["-"; "_"; "."; "!"; "~"; "*"; "'"; "("; ")"]%char)%bool.

Definition hex_digit (n : nat) : ascii :=
  if (n <? 10)%nat then ascii_of_nat (48 + n) else ascii_of_nat (55 + n).

Fixpoint encodeURIComponent (s : string) : string :=
  match s with
  | EmptyString => EmptyString
  | String c r =>
      if is_unreserved c then String c (encodeURIComponent r)
      else String "%" (String (hex_digit (nat_of_ascii c / 16))
                         (String (hex_digit (nat_of_ascii c mod 16))
                            (encodeURIComponent r)))
  end.

(** [normalizeUrl(rawValue)] *)
Definition normalizeUrl (rawValue : string) : string :=
  let raw := Js.trim rawValue in
  if String.eqb raw "" then ""
  else if has_http_scheme raw then raw
  else if looks_like_domain raw then "https://" +:+ raw
  else "https://www.google.com/search?q=" +:+ encodeURIComponent raw.

End ExtMore.

(* ===================================================================== *)
(** * More of the content script: the tool messages *)
(* ===================================================================== *)

Module ContentMore.
Import Content.

(** [getTarget(selector)]: the first match in document order; nothing
    for an empty text ([None]) and for a selector that does not parse. *)
Definition getTarget (doc : Node) (selector : option Selector) : option Path :=
  match selector with
  | None => None
  | Some sel => if parses sel then List.head (querySelectorAll doc sel) else None
  end.

(** What the script does to the page. *)
Inductive PageAction :=
| SetHud (message : string)
| ScrollIntoView (p : Path)
| Highlight (p : Path) (label : string)
| Click (p : Path)
| Focus (p : Path)
| SetValue (p : Path) (text : string)
| SetTextContent (p : Path) (text : string)
| DispatchEvent (p : Path) (event : string).

(** [highlightElement(element, labelText)] *)
Definition highlightElement (p : Path) (d : ElemData) (labelText : string) : PageAction :=
  Highlight p (if String.eqb labelText "" then getElementLabel d else labelText).

(** [typeIntoElement(element, text)]; [isContentEditable] is the
    property of that name, which the page derives from the attribute of
    the element and of its ancestors. *)
Definition typeIntoElement (isContentEditable : Path -> bool) (p : Path) (d : ElemData)
    (text : string) : list PageAction * bool :=
  if (isHTMLElement d && (String.eqb (tag d) "input" || String.eqb (tag d) "textarea"))%bool
  then ([Focus p; SetValue p text; DispatchEvent p "input"; DispatchEvent p "change"], true)
  else if (isHTMLElement d && isContentEditable p)%bool
  then ([Focus p; SetTextContent p text; DispatchEvent p "input"], true)
  else ([], false).

(** A message of kind [copilot_tool] by its action; [MsgOther] is any
    other message.  A selector is given as the browser reads it. *)
Inductive ToolMessage :=
| MsgHud (message : string)
| MsgFind (query : string)
| MsgHighlight (selector : option Selector) (label : string)
| MsgClick (selector : option Selector)
| MsgType (selector : option Selector) (text : string)
| MsgOther.

(** [{ ok: true, data: { ok: true } }], [{ ok: true, data: { candidates } }]
    and [{ ok: false, error }]. *)
Inductive Reply :=
| ReplyDone
| ReplyCandidates (candidates : list Candidate)
| ReplyError (code : string).

(** The [target] of an action when it passes
    [!target || !(target instanceof HTMLElement)]. *)
Definition htmlTarget (doc : Node) (selector : option Selector) : option (Path * ElemData) :=
  match getTarget doc selector with
  | Some p =>
      match element doc p with
      | Some d => if isHTMLElement d then Some (p, d) else None
      | None => None
      end
  | None => None
  end.

(** [handleToolMessage(message)] *)
Definition handleToolMessage (doc : Node) (isContentEditable : Path -> bool)
    (message : ToolMessage) : list PageAction * Reply :=
  match message with
  | MsgOther => ([], ReplyError "EXTENSION_NOT_READY")
  | MsgHud m => ([SetHud m], ReplyDone)
  | MsgFind query => ([], ReplyCandidates (findCandidates doc query))
  | MsgHighlight selector label =>
      match htmlTarget doc selector with
      | None => ([], ReplyError "NOT_FOUND")
      | Some (p, d) => ([ScrollIntoView p; highlightElement p d label], ReplyDone)
      end
  | MsgClick selector =>
      match htmlTarget doc selector with
      | None => ([], ReplyError "NOT_FOUND")
      | Some (p, d) =>
          if negb (isVisible d) then ([], ReplyError "NOT_FOUND")
          else ([ScrollIntoView p; highlightElement p d "click target"; Click p], ReplyDone)
      end
  | MsgType selector text =>
      match htmlTarget doc selector with
      | None => ([], ReplyError "NOT_FOUND")
      | Some (p, d) =>
          let '(typing, typed) := typeIntoElement isContentEditable p d text in
          ([ScrollIntoView p; highlightElement p d "type target"] ++ typing,
           if typed then ReplyDone else ReplyError "NOT_FOUND")
      end
  end.

(** An action that changes the page, as opposed to scrolling and
    drawing the highlight box. *)
Definition changes_page (a : PageAction) : bool :=
  match a with
  | Click _ | SetValue _ _ | SetTextContent _ _ | DispatchEvent _ _ => true
  | _ => false
  end.

(** The elements [findCandidates] scores, with their scores, before the
    sort and the cut. *)
Definition scored (doc : Node) (query : string) : list ((Path * ElemData) * Z) :=
  List.filter (fun item => 0 <? snd item)
    (map (fun pd => (pd, rankCandidate (snd pd) query)) (eligible doc)).

(** The order of the sort: the first item scores at least as much as
    the second. *)
Definition outranks {A} (x y : A * Z) : Prop := snd y <= snd x.

(** The element takes its test id from [data-testid] if it has one at
    all: [buildSelector] writes [data-testid] also for a value it read
    from [data-test-id]. *)
Definition plain_test_id (d : ElemData) : Prop :=
  nonempty (attr d "data-testid") = None -> nonempty (attr d "data-test-id") = None.


End ContentMore.

(* ===================================================================== *)
(** * Statements and sample inputs *)
(* ===================================================================== *)

Module Samples.

Section ExtSamples.
Import Protocol Ext.

(** The text the gate tests: label, one space, selector. *)
Definition gate_text (request : ToolRequest) : string :=
  ui_label request +:+ " " +:+ param request "selector".

(** The condition of the gate as the specification words it: the label
    or the selector matches the vocabulary. *)
Definition gate_as_specified (st : State) (request : ToolRequest) : Prop :=
  (tool request = "browser_click" \/ tool request = "browser_type") /\
  (autoRun st = false \/
   (tool request = "browser_click" /\
    (DANGEROUS_CLICK_RE_test (ui_label request) = true \/
     DANGEROUS_CLICK_RE_test (param request "selector") = true))).

(** The condition of the gate as the code computes it. *)
Definition gate_as_coded (st : State) (request : ToolRequest) : Prop :=
  (tool request = "browser_click" \/ tool request = "browser_type") /\
  (autoRun st = false \/
   (tool request = "browser_click" /\ DANGEROUS_CLICK_RE_test (gate_text request) = true)).

Definition autoRunState (b : bool) : State := mkState "s1" DEFAULT_TOKEN b None ∅.

(** A click on the last item of an [order-list]; the backend labels a
    click with the word "clicking" and the selector. *)
Definition straddling_click : ToolRequest :=
  mkToolRequest "a1" "browser_click"
    {[ "selector" := "order-list > li.place" ]}
    "clicking order-list > li.place" 60000.

(** The [tool_result] of a denied action. *)
Definition denial_result (st : State) (id : string) : ExtensionToBackend :=
  ToolResult (sessionId st) (token st) id false None (Some "PERMISSION_DENIED").

(** A page that answers every command, behind an open socket. *)
Definition friendly_browser : Browser :=
  mkBrowser true (Some (mkTab (Some 7) (Some "https://shop.example/cart")))
    (fun _ => Answered (Some (mkPageResponse true (Some (JObj [("ok", JBool true)])) None)))
    true
    (fun _ => Answered (Some (mkPageResponse true (Some (JObj [("ok", JBool true)])) None)))
    (fun _ => 12) (fun u => u) (fun _ => Some 300).

(** Scenario B: a click labelled "Submit Payment". *)
Definition submit_payment_click : ToolRequest :=
  mkToolRequest "call-7" "browser_click" {[ "selector" := "#go" ]}
    "clicking Submit Payment" 60000.

End ExtSamples.

Section BackendSamples.
Import Protocol Backend.

Definition args1 (key value : string) : JValue := JObj [(key, JStr value)].

(** A turn in which the driver has called [browser_find] and waits. *)
Definition find_in_flight : SessionState :=
  steps_from (createSessionState "s1" "tok")
    [EvUserTurn (Some (JStr "find the search box"));
     EvToolCall browser_find (args1 "query" "search box") "call-1"].

Definition candidate_json (i l sel : string) : JValue :=
  JObj [("id", JStr i); ("label", JStr l); ("selector", JStr sel)].

(** The character U+00A0 (no-break space) in UTF-8. *)
Definition no_break_space : string :=
  String (ascii_of_nat 194) (String (ascii_of_nat 160) EmptyString).

(** Scenario D: the find came back with two candidates. *)
Definition two_candidates : SessionState :=
  steps_from find_in_flight
    [EvToolResult "call-1" true
       (Some (JObj [("candidates",
                     JArr [candidate_json "cand-1" "Search" "#q";
                           candidate_json "cand-2" "Search" "button.go"])]))
       None;
     EvResume 0].

(** The driver chose one of them. *)
Definition one_candidate : SessionState :=
  steps_from two_candidates
    [EvToolCall browser_select_candidate (args1 "id" "cand-1") "call-2"].

(** Then asked for a navigation, which the extension answered. *)
Definition navigate_settled : SessionState :=
  steps_from one_candidate
    [EvToolCall browser_navigate (args1 "url" "example.com") "call-3";
     EvToolResult "call-3" true
       (Some (JObj [("ok", JBool true); ("url", JStr "https://example.com")])) None].

(** A frame without a token, and one with a wrong token. *)
Definition frame_without_token : JValue :=
  JObj [("type", JStr "cancel"); ("sessionId", JStr "s1")].

Definition frame_wrong_token : JValue :=
  JObj [("type", JStr "cancel"); ("sessionId", JStr "s1"); ("token", JStr "guess")].

Definition server1 : Server := mkServer "tok" {[ "s1" := find_in_flight ]} true.

(** The rejection of bad frames as the specification words it. *)
Definition rejects_and_closes (parsed : option JValue) (srv : Server) : Prop :=
  runs_handler (snd (onSocketMessage parsed srv)) = false /\
  closes_channel (snd (onSocketMessage parsed srv)) = true.

(** A frame the router has to reject: not an object with string members
    [type], [sessionId] and [token], or a token that is not the secret. *)
Definition bad_frame (parsed : option JValue) (srv : Server) : Prop :=
  match normalizeMessage parsed with
  | None => True
  | Some m => env_token m <> pairingToken srv
  end.

(** The cancel that races with the end of the turn: the driver call
    settles while [cancelRun] waits for [abort()]. *)
Definition cancel_race : list Event :=
  [EvCancel; EvDriverDone None; EvAbortSettled].

End BackendSamples.

Section ContentSamples.
Import Content.

(** An element without attributes that holds others; [txt] is the text
    of what it holds. *)
Definition box (t txt : string) (cs : list Node) : Node :=
  Elem (mkElem t [] true true txt "") cs.

Definition head : Node := Elem (mkElem "head" [] true false "" "") [].

Definition search_input : Node :=
  Elem (mkElem "input" [("name", "q"); ("placeholder", "Search")] true true "" "") [].

Definition go_button : Node :=
  Elem (mkElem "button" [] true true "Go" "") [].

(** Scenario A: the search input is the only control of the page. *)
Definition search_page : Node :=
  box "html" "" [head; box "body" "" [box "form" "" [search_input]]].

(** The same page with a button next to the input. *)
Definition search_page_with_button : Node :=
  box "html" "Go" [head; box "body" "Go" [box "form" "Go" [search_input; go_button]]].





End ContentSamples.

End Samples.
Import Samples.

Module MoreSamples.

Section ExtMoreSamples.
Import Protocol Ext.


(** A page whose content script answers NOT_FOUND, and keeps doing so
    after it is injected again. *)
Definition not_found_browser : Browser :=
  mkBrowser true (Some (mkTab (Some 7) (Some "https://shop.example/cart")))
    (fun _ => Answered (Some (mkPageResponse false None (Some "NOT_FOUND"))))
    true
    (fun _ => Answered (Some (mkPageResponse false None (Some "NOT_FOUND"))))
    (fun _ => 12) ExtMore.normalizeUrl (fun _ => Some 300).

(** The worker with the click of scenario B waiting for approval. *)
Definition awaiting_approval : State :=
  fst (fst (onToolRequest friendly_browser submit_payment_click (autoRunState true))).

Definition find_request : ToolRequest :=
  mkToolRequest "call-8" "browser_find" {[ "query" := "search box" ]}
    "finding search box" 5000.

End ExtMoreSamples.

Section BackendMoreSamples.
Import Protocol Backend.

(** While the find of [find_in_flight] (call-1) waits, the driver asks
    for a navigation (call-2); the extension answers the navigation
    first, and its handler goes on. *)
Definition navigated_during_find : SessionState :=
  steps_from find_in_flight
    [EvToolCall browser_navigate (args1 "url" "example.com") "call-2";
     EvToolResult "call-2" true
       (Some (JObj [("ok", JBool true); ("url", JStr "https://example.com")])) None;
     EvResume 1].

(** Then the answer to the find that was in flight arrives, and the
    handler of that find goes on. *)
Definition late_find_answer : list Event :=
  [EvToolResult "call-1" true
     (Some (JObj [("candidates", JArr [candidate_json "cand-1" "Search" "#q"])])) None;
   EvResume 0].

(** A call of [browser_find] by the driver: a new find. *)
Definition calls_find (ev : Event) : bool :=
  match ev with
  | EvToolCall browser_find _ _ => true
  | _ => false
  end.

(** C10 as stated, for what follows a navigation: as long as no new
    find is called, highlight, click and type fail the check. *)
Definition gated_until_new_find (st : SessionState) (evs : list Event) : Prop :=
  Forall (fun ev => calls_find ev = false) evs ->
  forall tool args toolCallId,
    targets_element tool = true ->
    snd (handler_start tool args toolCallId (steps_from st evs)) = Throws E_FIND_FIRST.

End BackendMoreSamples.

Section ContentMoreSamples.
Import Content.

(** Two buttons: the first spells its test id [data-test-id], the
    second [data-testid], with the same value. *)
Definition old_pay_button : Node :=
  Elem (mkElem "button" [("data-test-id", "pay")] true true "Pay" "") [].

Definition new_pay_button : Node :=
  Elem (mkElem "button" [("data-testid", "pay")] true true "Pay now" "") [].

Definition pay_page : Node :=
  box "html" "Pay Pay now" [head; box "body" "Pay Pay now" [old_pay_button; new_pay_button]].

End ContentMoreSamples.

End MoreSamples.
Import MoreSamples.

(* ===================================================================== *)
(** * Properties *)
(* ===================================================================== *)

(** ** Facts about the string primitives *)

Lemma toLowerCase_app (a b : string) :
  Js.toLowerCase (a +:+ b) = Js.toLowerCase a +:+ Js.toLowerCase b.
Proof. induction a as [|c a IH]; simpl; [reflexivity | now rewrite IH]. Qed.

Lemma startsWith_app_r (p s t : string) :
  Js.startsWith p s = true -> Js.startsWith p (s +:+ t) = true.
Proof.
  revert s; induction p as [|a p IH]; intros s H; [reflexivity|].
  destruct s as [|b s]; simpl in *; [discriminate|].
  destruct (Ascii.eqb a b); [now apply IH | discriminate].
Qed.

Lemma includes_unfold (w hay : string) :
  Js.includes w hay =
  if Js.startsWith w hay then true
  else match hay with
       | EmptyString => false
       | String _ r => Js.includes w r
       end.
Proof. destruct hay; reflexivity. Qed.

Lemma includes_app_l (w a b : string) :
  Js.includes w a = true -> Js.includes w (a +:+ b) = true.
Proof.
  induction a as [|c a IH]; intros H.
  - rewrite includes_unfold in H. rewrite includes_unfold.
    destruct (Js.startsWith w "") eqn:E; [|discriminate].
    now rewrite (startsWith_app_r _ _ b E).
  - rewrite includes_unfold in H. rewrite includes_unfold.
    destruct (Js.startsWith w (String c a)) eqn:E.
    + now rewrite (startsWith_app_r _ _ b E).
    + change (String c a +:+ b) with (String c (a +:+ b)).
      destruct (Js.startsWith w (String c (a +:+ b))); [reflexivity | now apply IH].
Qed.

Lemma includes_app_r (w a b : string) :
  Js.includes w b = true -> Js.includes w (a +:+ b) = true.
Proof.
  induction a as [|c a IH]; intros H; [exact H|].
  change (String c a +:+ b) with (String c (a +:+ b)).
  rewrite includes_unfold.
  destruct (Js.startsWith w (String c (a +:+ b))); [reflexivity | now apply IH].
Qed.

Lemma test_words_i_app_l (ws : list string) (a b : string) :
  Js.test_words_i ws a = true -> Js.test_words_i ws (a +:+ b) = true.
Proof.
  unfold Js.test_words_i. rewrite !existsb_exists.
  intros (w & Hin & Hw). exists w. split; [exact Hin|].
  rewrite toLowerCase_app. now apply includes_app_l.
Qed.

Lemma test_words_i_app_r (ws : list string) (a b : string) :
  Js.test_words_i ws b = true -> Js.test_words_i ws (a +:+ b) = true.
Proof.
  unfold Js.test_words_i. rewrite !existsb_exists.
  intros (w & Hin & Hw). exists w. split; [exact Hin|].
  rewrite toLowerCase_app. now apply includes_app_r.
Qed.

(** ** The approval gate of the extension *)

Section ApprovalGate.
Import Protocol Ext.

Lemma gate_text_dangerous_of_parts (request : ToolRequest) :
  DANGEROUS_CLICK_RE_test (ui_label request) = true \/
  DANGEROUS_CLICK_RE_test (param request "selector") = true ->
  DANGEROUS_CLICK_RE_test (gate_text request) = true.
Proof.
  unfold gate_text, DANGEROUS_CLICK_RE_test. intros [H|H].
  - now apply test_words_i_app_l.
  - apply test_words_i_app_r. now apply (test_words_i_app_r _ " ").
Qed.

Lemma requiresManualApproval_coded (st : State) (request : ToolRequest) :
  requiresManualApproval st request = true <-> gate_as_coded st request.
Proof.
  unfold requiresManualApproval, gate_as_coded. fold (gate_text request).
  destruct (String.eqb_spec (tool request) "browser_click") as [Hc|Hc];
  destruct (String.eqb_spec (tool request) "browser_type") as [Ht|Ht];
  destruct (autoRun st); simpl; split; intros H;
    try discriminate; try congruence; try tauto;
    try (destruct H as [[?|?] [?|[? ?]]]; congruence).
Qed.

End ApprovalGate.

(** C1, as stated, fails: with auto-run on, a click whose label ends in
    "place" and whose selector starts with "order" needs approval, as the
    tested text "... place order ..." holds the phrase "place order",
    though neither the label nor the selector matches the vocabulary. *)
Lemma C1_label_or_selector_counterexample :
  Ext.requiresManualApproval (autoRunState true) straddling_click = true /\
  ~ gate_as_specified (autoRunState true) straddling_click.
Proof.
  split; [vm_compute; reflexivity|].
  intros [_ [H|[_ [H|H]]]]; vm_compute in H; discriminate.
Qed.

(** C1 (amended): the gate answers true exactly for a click or a type
    when auto-run is off, or for a click when the text "label selector"
    (the label, a space, the selector) matches the dangerous vocabulary,
    letter case apart.  So other tools are never gated; with auto-run off
    every click and type is gated; with auto-run on a type is never gated,
    and a click whose label or whose selector matches is gated. *)
Theorem C1_approval_gate_policy (st : Ext.State) (request : Ext.ToolRequest) :
  (Ext.requiresManualApproval st request = true <-> gate_as_coded st request) /\
  (Ext.tool request <> "browser_click" -> Ext.tool request <> "browser_type" ->
   Ext.requiresManualApproval st request = false) /\
  (Ext.autoRun st = false ->
   Ext.tool request = "browser_click" \/ Ext.tool request = "browser_type" ->
   Ext.requiresManualApproval st request = true) /\
  (Ext.autoRun st = true -> Ext.tool request = "browser_type" ->
   Ext.requiresManualApproval st request = false) /\
  (Ext.tool request = "browser_click" ->
   Ext.DANGEROUS_CLICK_RE_test (Ext.ui_label request) = true \/
   Ext.DANGEROUS_CLICK_RE_test (Ext.param request "selector") = true ->
   Ext.requiresManualApproval st request = true).
Proof.
  split; [apply requiresManualApproval_coded|].
  repeat split.
  - intros Hc Ht. destruct (Ext.requiresManualApproval st request) eqn:E; [|reflexivity].
    apply requiresManualApproval_coded in E. destruct E as [[?|?] _]; congruence.
  - intros Ha Htool. apply requiresManualApproval_coded. split; [exact Htool | now left].
  - intros Ha Ht. destruct (Ext.requiresManualApproval st request) eqn:E; [|reflexivity].
    apply requiresManualApproval_coded in E.
    destruct E as [_ [?|[Hc _]]]; [congruence|]. rewrite Ht in Hc. discriminate.
  - intros Hc Hd. apply requiresManualApproval_coded. split; [now left|].
    destruct (Ext.autoRun st); [right|now left].
    split; [exact Hc | now apply gate_text_dangerous_of_parts].
Qed.

(** The policy at a dangerous click under auto-run. *)
Lemma C1_approval_gate_policy_witness :
  Ext.requiresManualApproval (autoRunState true)
    (Ext.mkToolRequest "a2" "browser_click" {[ "selector" := "#pay" ]} "clicking #pay" 60000)
  = true.
Proof.
  apply (C1_approval_gate_policy (autoRunState true)
           (Ext.mkToolRequest "a2" "browser_click" {[ "selector" := "#pay" ]}
              "clicking #pay" 60000)).
  - reflexivity.
  - left. vm_compute. reflexivity.
Defined.

(** ** The denied approval path of the extension *)

Section Denial.
Import Protocol Ext.
Variable browser : Browser.

(** The HUD line never changes the state, never throws, and sends the
    page nothing but the HUD command (and the script injection of the
    retry). *)
Lemma updateHud_spec (message : string) (st : State) :
  exists out,
    updateHud browser message st = (st, out, Ok tt) /\
    Forall (fun e => e = TabsSendMessage (CmdHud message) \/ e = ExecuteScript) out.
Proof.
  unfold updateHud, sendToolMessageToActiveTab.
  destruct (activeTab browser) as [tab|]; [|eexists; split; [reflexivity|constructor]].
  destruct (tab_id tab); [|eexists; split; [reflexivity|constructor]].
  destruct (isRestrictedUrl (tab_url tab)); [eexists; split; [reflexivity|constructor]|].
  unfold try_catch, mbind, M_bind, bind, emit, unwrapResponse, ret, throw.
  destruct (firstReply browser (CmdHud message)) as [[r|]|e];
    try destruct (resp_ok r); destruct (injectOk browser);
    destruct (retryReply browser (CmdHud message)) as [[r'|]|e'];
    try destruct (resp_ok r');
    try destruct (Js.includes "Cannot access" _);
    simpl; eexists; (split; [reflexivity|]);
    repeat (constructor; [first [left; reflexivity | right; reflexivity]|]);
    constructor.
Qed.

Lemma handleApproval_denied (st : State) (id : string) (request : ToolRequest) :
  socketOpen browser = true ->
  pendingToolRequests st !! id = Some request ->
  exists hud,
    handleApproval browser id false st =
      (set_pendingToolRequests (delete id (pendingToolRequests st))
         (set_pendingAction None st),
       [SendBackend (UserApproval (sessionId st) (token st) id false);
        BroadcastState None] ++ hud ++ [SendBackend (denial_result st id)],
       Ok tt) /\
    Forall (fun e => e = TabsSendMessage (CmdHud "Failed: PERMISSION_DENIED")
                     \/ e = ExecuteScript) hud.
Proof.
  intros Hopen Hreq.
  destruct (updateHud_spec "Failed: PERMISSION_DENIED"
              (set_pendingToolRequests (delete id (pendingToolRequests st))
                 (set_pendingAction None st))) as (hud & Hhud & Hall).
  exists hud. split; [|exact Hall].
  unfold handleApproval, mbind, M_bind, bind, get, sendToBackend, broadcastState,
    modify, emit.
  rewrite Hreq, Hopen. simpl. rewrite Hhud. reflexivity.
Qed.

Lemma onToolRequest_gated (st : State) (request : ToolRequest) :
  requiresManualApproval st request = true ->
  let action := mkPendingAction (actionId request) (tool request) (ui_label request) in
  exists hud,
    onToolRequest browser request st =
      (set_pendingAction (Some action)
         (set_pendingToolRequests
            (<[actionId request := request]> (pendingToolRequests st)) st),
       hud ++ [BroadcastState (Some action); BroadcastApprovalNeeded action],
       Ok tt) /\
    Forall (fun e => e = TabsSendMessage (CmdHud ("Copilot: " +:+ ui_label request +:+ "..."))
                     \/ e = ExecuteScript) hud.
Proof.
  intros Hgate action.
  destruct (updateHud_spec ("Copilot: " +:+ ui_label request +:+ "...")
              (set_pendingToolRequests
                 (<[actionId request := request]> (pendingToolRequests st)) st))
    as (hud & Hhud & Hall).
  exists hud. split; [|exact Hall].
  unfold onToolRequest, mbind, M_bind, bind, get, modify, broadcastState, emit.
  rewrite Hhud.
  replace (requiresManualApproval
             (set_pendingToolRequests
                (<[actionId request := request]> (pendingToolRequests st)) st) request)
    with true by (symmetry; exact Hgate).
  reflexivity.
Qed.

End Denial.

Lemma startsWith_refl (w : string) : Js.startsWith w w = true.
Proof. induction w as [|c w IH]; simpl; [reflexivity|]. now rewrite Ascii.eqb_refl. Qed.

Lemma includes_middle (w pre post : string) :
  Js.includes w (pre +:+ w +:+ post) = true.
Proof.
  apply includes_app_r. apply includes_app_l.
  rewrite includes_unfold. now rewrite startsWith_refl.
Qed.

Lemma submit_payment_dangerous (pre post rest : string) :
  Ext.DANGEROUS_CLICK_RE_test ((pre +:+ "Submit Payment" +:+ post) +:+ rest) = true.
Proof.
  apply test_words_i_app_l. unfold Js.test_words_i.
  apply existsb_exists. exists "submit payment". split.
  - unfold Ext.DANGEROUS_CLICK_WORDS. simpl. tauto.
  - rewrite !toLowerCase_app. apply includes_middle.
Qed.

(** C2, as stated, fails: on the denied path of scenario B the extension
    does send the page a command, the HUD line "Failed: PERMISSION_DENIED"
    (as it sent "Copilot: ..." when the request came in). *)
Lemma C2_hud_command_counterexample :
  let st0 := autoRunState true in
  let '(st1, out1, _) := Ext.onToolRequest friendly_browser submit_payment_click st0 in
  let '(_, out2, _) := Ext.handleApproval friendly_browser "call-7" false st1 in
  Ext.requiresManualApproval st0 submit_payment_click = true /\
  In (Ext.TabsSendMessage (Ext.CmdHud "Failed: PERMISSION_DENIED")) out2 /\
  existsb Ext.is_page_message (out1 ++ out2) = true.
Proof. vm_compute. intuition. Qed.

(** C2 (amended): a click whose label contains "Submit Payment" is gated
    whatever auto-run says; and while the socket to the backend is open,
    a gated request that is then denied ends both handlers normally,
    sends the backend exactly one [tool_result] for that action id, with
    ok=false and error PERMISSION_DENIED, and no effect of either handler
    runs a tool against the page or navigates the tab: the only messages
    to the page are HUD status lines. *)
Theorem C2_denied_approval_path :
  (forall (st : Ext.State) (request : Ext.ToolRequest) (pre post : string),
     Ext.tool request = "browser_click" ->
     Ext.ui_label request = pre +:+ "Submit Payment" +:+ post ->
     Ext.requiresManualApproval st request = true) /\
  (forall (browser : Ext.Browser) (st : Ext.State) (request : Ext.ToolRequest),
     Ext.socketOpen browser = true ->
     Ext.requiresManualApproval st request = true ->
     exists st1 out1 st2 out2,
       Ext.onToolRequest browser request st = (st1, out1, Ext.Ok tt) /\
       Ext.handleApproval browser (Ext.actionId request) false st1 = (st2, out2, Ext.Ok tt) /\
       Forall (fun e => Ext.acts_on_page e = false) (out1 ++ out2) /\
       Forall (fun e => forall cmd, e = Ext.TabsSendMessage cmd -> exists m, cmd = Ext.CmdHud m)
              (out1 ++ out2) /\
       List.filter Ext.sends_tool_result (out1 ++ out2)
         = [Ext.SendBackend (denial_result st (Ext.actionId request))] /\
       Ext.pendingToolRequests st2 !! Ext.actionId request = None /\
       Ext.pendingAction st2 = None).
Proof.
  split.
  - intros st request pre post Htool Hlabel.
    apply requiresManualApproval_coded. split; [now left|].
    destruct (Ext.autoRun st); [right | now left]. split; [exact Htool|].
    unfold gate_text. rewrite Hlabel. apply submit_payment_dangerous.
  - intros browser st request Hopen Hgate.
    destruct (onToolRequest_gated browser st request Hgate) as (hud1 & H1 & Hall1).
    set (st1 := Ext.set_pendingAction _ _) in H1.
    assert (Hlook : Ext.pendingToolRequests st1 !! Ext.actionId request = Some request)
      by (subst st1; simpl; apply lookup_insert_eq).
    destruct (handleApproval_denied browser st1 (Ext.actionId request) request Hopen Hlook)
      as (hud2 & H2 & Hall2).
    eexists _, _, _, _. split; [exact H1|]. split; [exact H2|].
    assert (Hhud : forall msg hud,
      Forall (fun e => e = Ext.TabsSendMessage (Ext.CmdHud msg) \/ e = Ext.ExecuteScript) hud ->
      Forall (fun e => Ext.acts_on_page e = false) hud /\
      Forall (fun e => forall cmd, e = Ext.TabsSendMessage cmd -> exists m, cmd = Ext.CmdHud m) hud /\
      List.filter Ext.sends_tool_result hud = []).
    { intros msg hud Hall. induction Hall as [|e hud [->| ->] _ (IH1 & IH2 & IH3)].
      - repeat split; constructor.
      - repeat split; [constructor; [reflexivity|exact IH1] | constructor; [|exact IH2] | ].
        + intros cmd [= <-]. now eexists.
        + exact IH3.
      - repeat split; [constructor; [reflexivity|exact IH1] | constructor; [|exact IH2] | ].
        + intros cmd [=].
        + exact IH3. }
    destruct (Hhud _ _ Hall1) as (A1 & B1 & C1).
    destruct (Hhud _ _ Hall2) as (A2 & B2 & C2).
    repeat split.
    + repeat (apply Forall_app; split); try assumption;
        repeat (constructor; try reflexivity).
    + repeat (apply Forall_app; split); try assumption;
        repeat (constructor; try (intros cmd [=])).
    + rewrite !List.filter_app, C1, C2. reflexivity.
    + subst st1. simpl. apply lookup_delete_eq.
Qed.

(** Scenario B, run on a page that answers every command. *)
Lemma C2_denied_approval_path_witness :
  exists st1 out1 st2 out2,
    Ext.onToolRequest friendly_browser submit_payment_click (autoRunState true)
      = (st1, out1, Ext.Ok tt) /\
    Ext.handleApproval friendly_browser "call-7" false st1 = (st2, out2, Ext.Ok tt) /\
    Forall (fun e => Ext.acts_on_page e = false) (out1 ++ out2).
Proof.
  destruct C2_denied_approval_path as [Hgate Hpath].
  destruct (Hpath friendly_browser (autoRunState true) submit_payment_click)
    as (st1 & out1 & st2 & out2 & H1 & H2 & H3 & _).
  - reflexivity.
  - apply (Hgate _ _ "clicking " ""); reflexivity.
  - exists st1, out1, st2, out2. auto.
Defined.

(** ** The broker keeps its invariant *)

Section BrokerInvariant.
Import Protocol Backend.

Lemma settle_count_app (h : nat) (l1 l2 : list (nat * Outcome)) :
  settle_count h (l1 ++ l2) = (settle_count h l1 + settle_count h l2)%nat.
Proof. unfold settle_count. now rewrite List.filter_app, length_app. Qed.

Lemma settle_count_one (h h' : nat) (o : Outcome) :
  settle_count h [(h', o)] = if Nat.eqb h' h then 1%nat else 0%nat.
Proof. unfold settle_count. simpl. now destruct (Nat.eqb h' h). Qed.

Lemma outcome_of_app_unsettled (h : nat) (l1 l2 : list (nat * Outcome)) :
  settle_count h l1 = 0%nat -> outcome_of h (l1 ++ l2) = outcome_of h l2.
Proof.
  unfold outcome_of, settle_count. induction l1 as [|[h' o] l1 IH]; simpl; [reflexivity|].
  destruct (Nat.eqb h' h); simpl; [discriminate | exact IH].
Qed.

Lemma outcome_of_app_settled (h : nat) (l1 l2 : list (nat * Outcome)) (o : Outcome) :
  outcome_of h l1 = Some o -> outcome_of h (l1 ++ l2) = Some o.
Proof.
  unfold outcome_of. induction l1 as [|[h' o'] l1 IH]; simpl; [discriminate|].
  destruct (Nat.eqb h' h); simpl; [trivial | exact IH].
Qed.

Lemma Inv_ext (st st' : SessionState) : core st = core st' -> Inv st -> Inv st'.
Proof. unfold core, Inv. intros [= <- <- <- <-]. trivial. Qed.

Lemma Inv_create (sid tok : string) : Inv (createSessionState sid tok).
Proof.
  unfold Inv, createSessionState; simpl. repeat split; intros;
    try (rewrite lookup_empty in *; discriminate); auto.
Qed.

(** *** What leaves the broker alone *)

Lemma core_send m st : core (send m st) = core st.
Proof. unfold send. now destruct (wsOpen st). Qed.

Lemma core_appendStep text st : core (appendStep text st) = core st.
Proof. unfold appendStep, sendStep. destruct (run st); [now rewrite core_send | reflexivity]. Qed.

Lemma core_queuedTurn text st : core (queuedTurn text st) = core st.
Proof.
  unfold queuedTurn, handleUserMessage_start, sendFinal.
  destruct (hasCopilotSession st); simpl; [|now rewrite core_send].
  destruct (text_error text); rewrite ?core_send; now rewrite core_appendStep.
Qed.

Lemma core_done content st : core (handleUserMessage_done content st) = core st.
Proof.
  unfold handleUserMessage_done, sendFinal. destruct (run st) as [r|]; [|reflexivity].
  destruct (cancelled r || finalSent r)%bool; [reflexivity|].
  unfold core; simpl. apply core_send.
Qed.

Lemma core_failed message st : core (handleUserMessage_failed message st) = core st.
Proof.
  unfold handleUserMessage_failed, sendFinal. destruct (run st) as [r|];
    [destruct (cancelled r); [reflexivity|] |]; unfold core; simpl; apply core_send.
Qed.

Lemma core_keepAlive st : core (keepAlive st) = core st.
Proof.
  unfold keepAlive, sendDelta. destruct (run st) as [r|]; [|reflexivity].
  destruct (cancelled r); [reflexivity | apply core_send].
Qed.

Lemma core_onMessageDelta delta st : core (onMessageDelta delta st) = core st.
Proof.
  unfold onMessageDelta, sendDelta. destruct (run st) as [r|]; [|reflexivity].
  destruct (cancelled r); [reflexivity|].
  destruct (String.eqb delta ""); [reflexivity | apply core_send].
Qed.

Lemma core_onToolEvent s st : core (onToolEvent s st) = core st.
Proof.
  unfold onToolEvent. destruct (run st) as [r|]; [|reflexivity].
  destruct (cancelled r); [reflexivity | apply core_appendStep].
Qed.

Lemma core_resumeHandler h st : core (fst (resumeHandler h st)) = core st.
Proof.
  unfold resumeHandler. destruct (awaiting st !! h) as [su|]; [|reflexivity].
  destruct (outcome_of h (settled st)) as [o|]; [|reflexivity].
  unfold handler_resume. destruct o; [|reflexivity].
  destruct (su_tool su); simpl; try reflexivity.
  now rewrite core_appendStep.
Qed.

Lemma core_cancelRun_resume st : core (fst (cancelRun_resume st)) = core st.
Proof.
  unfold cancelRun_resume, sendFinal. destruct (run st) as [r|]; [|reflexivity].
  destruct (finalSent r); [reflexivity|]. unfold core; simpl. apply core_send.
Qed.

(** *** The four operations of the broker *)

Lemma Inv_requestToolRoundTrip st actionId tool params uiLabel :
  Inv st -> Inv (fst (requestToolRoundTrip st actionId tool params uiLabel)).
Proof.
  intros HI. pose proof HI as (Hp & Ht & Hl & Hn). unfold requestToolRoundTrip.
  destruct (wsOpen st); simpl; [|exact HI].
  apply (Inv_ext (set_pendingTools (<[actionId := mkPending (nextHandle st) tool]> (pendingTools st))
           (set_timers (<[nextHandle st := mkTimer actionId (toolTimeoutMs tool)]> (timers st))
              (set_nextHandle (S (nextHandle st)) st)))).
  { now rewrite core_send. }
  unfold Inv; simpl. repeat split.
  - intros id pc. rewrite lookup_insert. case_decide as E.
    + intros [= <-]. subst. simpl. now rewrite lookup_insert_eq.
    + intros Hpc. specialize (Hp _ _ Hpc).
      rewrite lookup_insert_ne; [exact Hp|].
      intros Heq. apply Ht in Hp. lia.
  - revert H. rewrite lookup_insert. case_decide as E.
    + intros _. subst. lia.
    + intros Htm. apply Ht in Htm. lia.
  - revert H. rewrite lookup_insert. case_decide as E.
    + intros _. subst. apply Hn. lia.
    + intros Htm. now apply Ht in Htm.
  - exact Hl.
  - intros h Hh. apply Hn. lia.
Qed.

Lemma Inv_timerFires h st : Inv st -> Inv (timerFires h st).
Proof.
  intros HI. pose proof HI as (Hp & Ht & Hl & Hn). unfold timerFires.
  destruct (timers st !! h) as [tm|] eqn:Htm; [|exact HI].
  destruct (Ht _ _ Htm) as [Hlt H0].
  unfold Inv; simpl. repeat split.
  - intros id pc. rewrite lookup_delete. case_decide as E; [discriminate|].
    intros Hpc. specialize (Hp _ _ Hpc).
    rewrite lookup_delete_ne; [exact Hp|].
    intros ->. rewrite Htm in Hp. injection Hp as ->. now simpl in E.
  - apply lookup_delete_Some in H as [_ H]. now apply Ht in H.
  - apply lookup_delete_Some in H as [Hne H]. apply Ht in H as [_ H].
    rewrite settle_count_app, settle_count_one, H.
    destruct (Nat.eqb_spec h h0); [congruence | reflexivity].
  - intros h'. rewrite settle_count_app, settle_count_one.
    destruct (Nat.eqb_spec h h'); [subst; rewrite H0; lia | specialize (Hl h'); lia].
  - intros h' Hh'. rewrite settle_count_app, settle_count_one, (Hn _ Hh').
    destruct (Nat.eqb_spec h h'); [lia | reflexivity].
Qed.

Lemma Inv_settle actionId ok data error st : Inv st -> Inv (settle actionId ok data error st).
Proof.
  intros HI. pose proof HI as (Hp & Ht & Hl & Hn). unfold settle.
  destruct (pendingTools st !! actionId) as [pc|] eqn:Hpc; [|exact HI].
  pose proof (Hp _ _ Hpc) as Htm. destruct (Ht _ _ Htm) as [Hlt H0].
  set (o := if ok then _ else _). clearbody o.
  unfold Inv; simpl. repeat split.
  - intros id pc'. rewrite lookup_delete. case_decide as E; [discriminate|].
    intros Hpc'. specialize (Hp _ _ Hpc').
    rewrite lookup_delete_ne; [exact Hp|].
    intros Heq. rewrite Heq, Hp in Htm. injection Htm as -> _. congruence.
  - apply lookup_delete_Some in H as [_ H]. now apply Ht in H.
  - apply lookup_delete_Some in H as [Hne H]. apply Ht in H as [_ H].
    rewrite settle_count_app, settle_count_one, H.
    destruct (Nat.eqb_spec (pt_handle pc) h); [congruence | reflexivity].
  - intros h'. rewrite settle_count_app, settle_count_one.
    destruct (Nat.eqb_spec (pt_handle pc) h'); [subst; rewrite H0; lia | specialize (Hl h'); lia].
  - intros h' Hh'. rewrite settle_count_app, settle_count_one, (Hn _ Hh').
    destruct (Nat.eqb_spec (pt_handle pc) h'); [lia | reflexivity].
Qed.

Lemma elem_of_pending_handles h st :
  h ∈ pending_handles st <-> exists id pc, pendingTools st !! id = Some pc /\ pt_handle pc = h.
Proof.
  unfold pending_handles. rewrite list_elem_of_fmap. split.
  - intros (pc & -> & Hin). apply list_elem_of_fmap in Hin as ([id pc'] & -> & Hin).
    apply elem_of_map_to_list in Hin. now exists id, pc'.
  - intros (id & pc & Hpc & <-). exists pc. split; [reflexivity|].
    apply list_elem_of_fmap. exists (id, pc). split; [reflexivity|].
    now apply elem_of_map_to_list.
Qed.

Lemma NoDup_pending_handles st : Inv st -> NoDup (pending_handles st).
Proof.
  intros (Hp & _). unfold pending_handles. rewrite <- list_fmap_compose.
  apply NoDup_fmap_2_strong; [|apply NoDup_map_to_list].
  intros [id1 pc1] [id2 pc2] H1 H2. simpl. intros Heq.
  apply elem_of_map_to_list in H1, H2.
  pose proof (Hp _ _ H1) as T1. pose proof (Hp _ _ H2) as T2.
  rewrite Heq, T2 in T1. injection T1 as <- _. congruence.
Qed.

Lemma settle_count_rejected_notin h (hs : list nat) (o : Outcome) :
  h ∉ hs -> settle_count h ((fun h' => (h', o)) <$> hs) = 0%nat.
Proof.
  induction hs as [|a hs IH]; [reflexivity|].
  rewrite not_elem_of_cons. intros [Hne Hnin].
  change ((fun h' => (h', o)) <$> a :: hs) with ([(a, o)] ++ ((fun h' => (h', o)) <$> hs)).
  rewrite settle_count_app, settle_count_one, (IH Hnin).
  destruct (Nat.eqb_spec a h); [congruence | reflexivity].
Qed.

Lemma settle_count_rejected_in h (hs : list nat) (o : Outcome) :
  NoDup hs -> h ∈ hs -> settle_count h ((fun h' => (h', o)) <$> hs) = 1%nat.
Proof.
  induction 1 as [|a hs Hnin Hnd IH]; [intros H; inversion H|].
  change ((fun h' => (h', o)) <$> a :: hs) with ([(a, o)] ++ ((fun h' => (h', o)) <$> hs)).
  rewrite settle_count_app, settle_count_one, elem_of_cons.
  destruct (Nat.eqb_spec a h) as [->|Hne].
  - intros _. now rewrite settle_count_rejected_notin.
  - intros [->|Hin]; [congruence | now rewrite IH].
Qed.

Lemma Inv_rejectAllPending st : Inv st -> Inv (rejectAllPending st).
Proof.
  intros HI. pose proof (NoDup_pending_handles st HI) as Hnd.
  destruct HI as (Hp & Ht & Hl & Hn).
  unfold rejectAllPending, Inv; simpl. repeat split.
  - intros id pc. rewrite lookup_empty. discriminate.
  - apply lookup_foldr_delete_Some in H as [_ H]. now apply Ht in H.
  - apply lookup_foldr_delete_Some in H as [Hnin H]. apply Ht in H as [_ H].
    now rewrite settle_count_app, H, settle_count_rejected_notin.
  - intros h. rewrite settle_count_app.
    destruct (decide (h ∈ pending_handles st)) as [Hin|Hnin].
    + rewrite (settle_count_rejected_in _ _ _ Hnd Hin).
      apply elem_of_pending_handles in Hin as (id & pc & Hpc & <-).
      apply Hp, Ht in Hpc as [_ ->]. lia.
    + rewrite (settle_count_rejected_notin _ _ _ Hnin). specialize (Hl h). lia.
  - intros h Hh. rewrite settle_count_app, (Hn _ Hh).
    rewrite settle_count_rejected_notin; [reflexivity|].
    intros Hin. apply elem_of_pending_handles in Hin as (id & pc & Hpc & <-).
    apply Hp, Ht in Hpc as [Hlt _]. lia.
Qed.

Lemma Inv_cancelRun st : Inv st -> Inv (fst (cancelRun st)).
Proof.
  intros HI. unfold cancelRun. destruct (run st) as [r|]; [|exact HI].
  set (st1 := set_run _ st).
  assert (H1 : Inv (rejectAllPending st1)) by (apply Inv_rejectAllPending; exact HI).
  destruct (hasCopilotSession (rejectAllPending st1)); [exact H1|].
  eapply Inv_ext; [|exact H1]. symmetry. apply core_cancelRun_resume.
Qed.

Lemma Inv_dispatch st toolCallId tool stepText params uiLabel url :
  Inv st -> Inv (fst (dispatch st toolCallId tool stepText params uiLabel url)).
Proof.
  intros HI. unfold dispatch.
  assert (H1 : Inv (appendStep stepText st))
    by (eapply Inv_ext; [symmetry; apply core_appendStep | exact HI]).
  pose proof (Inv_requestToolRoundTrip _ toolCallId tool params uiLabel H1) as H2.
  destruct (requestToolRoundTrip _ _ _ _ _) as [st1 [e|h]]; exact H2.
Qed.

Lemma Inv_handler_start tool args toolCallId st :
  Inv st -> Inv (fst (handler_start tool args toolCallId st)).
Proof.
  intros HI. unfold handler_start. destruct tool.
  - destruct (String.eqb _ ""); [exact HI | now apply Inv_dispatch].
  - destruct (ensureSingleCandidateBeforeAction _ _); [exact HI|].
    destruct (String.eqb _ ""); [exact HI | now apply Inv_dispatch].
  - destruct (ensureSingleCandidateBeforeAction _ _); [exact HI|].
    destruct (String.eqb _ ""); [exact HI | now apply Inv_dispatch].
  - destruct (ensureSingleCandidateBeforeAction _ _); [exact HI|].
    destruct (String.eqb _ ""); [exact HI | now apply Inv_dispatch].
  - destruct (String.eqb _ ""); [exact HI | now apply Inv_dispatch].
  - destruct (List.find _ _); [|exact HI].
    eapply Inv_ext; [|exact HI]. simpl. now rewrite core_appendStep.
Qed.

Lemma Inv_step st ev : Inv st -> Inv (step st ev).
Proof.
  intros HI. destruct ev; simpl.
  - eapply Inv_ext; [symmetry; apply core_queuedTurn | exact HI].
  - eapply Inv_ext; [symmetry; apply core_appendStep | exact HI].
  - eapply Inv_ext; [symmetry; apply core_done | exact HI].
  - eapply Inv_ext; [symmetry; apply core_failed | exact HI].
  - eapply Inv_ext; [symmetry; apply core_keepAlive | exact HI].
  - eapply Inv_ext; [symmetry; apply core_onMessageDelta | exact HI].
  - eapply Inv_ext; [symmetry; apply core_onToolEvent | exact HI].
  - now apply Inv_handler_start.
  - eapply Inv_ext; [symmetry; apply core_resumeHandler | exact HI].
  - now apply Inv_settle.
  - now apply Inv_timerFires.
  - now apply Inv_cancelRun.
  - eapply Inv_ext; [symmetry; apply core_cancelRun_resume | exact HI].
  - exact HI.
Qed.

Lemma Inv_steps st evs : Inv st -> Inv (steps_from st evs).
Proof.
  unfold steps_from. revert st. induction evs as [|ev evs IH]; intros st HI; [exact HI|].
  simpl. apply IH. now apply Inv_step.
Qed.

Lemma reachable_Inv st : reachable st -> Inv st.
Proof. intros (sid & tok & evs & ->). apply Inv_steps, Inv_create. Qed.

Lemma reachable_step st ev : reachable st -> reachable (step st ev).
Proof.
  intros (sid & tok & evs & ->). exists sid, tok, (evs ++ [ev]).
  unfold steps_from. now rewrite fold_left_app.
Qed.

End BrokerInvariant.

(** ** Settling a tool call *)

Section Settle.
Import Protocol Backend.

Lemma settle_absent actionId ok data error st :
  pendingTools st !! actionId = None -> settle actionId ok data error st = st.
Proof. unfold settle. now intros ->. Qed.

Lemma settle_present actionId (ok : bool) data error st pc :
  Inv st -> pendingTools st !! actionId = Some pc ->
  let o := if ok then Resolved data else Rejected (error_string (toErrorCode error)) in
  let st' := settle actionId ok data error st in
  timers st' !! pt_handle pc = None /\
  pendingTools st' !! actionId = None /\
  settled st' = settled st ++ [(pt_handle pc, o)] /\
  settle_count (pt_handle pc) (settled st) = 0%nat /\
  settle_count (pt_handle pc) (settled st') = 1%nat /\
  outcome_of (pt_handle pc) (settled st') = Some o.
Proof.
  intros (Hp & Ht & _) Hpc o st'. subst st'. unfold settle. rewrite Hpc. simpl.
  fold o. destruct (Ht _ _ (Hp _ _ Hpc)) as [_ H0].
  repeat split.
  - apply lookup_delete_eq.
  - apply lookup_delete_eq.
  - exact H0.
  - rewrite settle_count_app, settle_count_one, H0. now rewrite Nat.eqb_refl.
  - rewrite outcome_of_app_unsettled by exact H0.
    unfold outcome_of. simpl. now rewrite Nat.eqb_refl.
Qed.

Lemma toErrorCode_vocabulary (e : ToolResultError) :
  toErrorCode (Some (error_string e)) = e.
Proof. now destruct e. Qed.

Lemma set_sessions_same srv : set_sessions (sessions srv) srv = srv.
Proof. now destruct srv. Qed.

End Settle.

(** C4: in every state a session can reach, a [tool_result] for an action
    id of the pending map clears the timer of the call, removes the entry
    and settles the awaited promise, which was not settled before, exactly
    once: resolved with the data when ok, rejected with the error code
    otherwise (a code of the vocabulary is kept as given); the same result
    a second time changes nothing.  A [tool_result] for an id that is not
    pending, or for a session that does not exist, changes nothing. *)
Theorem C4_tool_result_settles_once
    (st : Backend.SessionState) (actionId : string) (ok : bool)
    (data : option Protocol.JValue) (error : option string) :
  Backend.reachable st ->
  (forall pc, Backend.pendingTools st !! actionId = Some pc ->
     let o := if ok then Backend.Resolved data
              else Backend.Rejected (Protocol.error_string (Backend.toErrorCode error)) in
     let st' := Backend.settle actionId ok data error st in
     Backend.timers st' !! Backend.pt_handle pc = None /\
     Backend.pendingTools st' !! actionId = None /\
     Backend.settled st' = Backend.settled st ++ [(Backend.pt_handle pc, o)] /\
     Backend.settle_count (Backend.pt_handle pc) (Backend.settled st) = 0%nat /\
     Backend.settle_count (Backend.pt_handle pc) (Backend.settled st') = 1%nat /\
     Backend.outcome_of (Backend.pt_handle pc) (Backend.settled st') = Some o /\
     (forall ok2 data2 error2, Backend.settle actionId ok2 data2 error2 st' = st')) /\
  (Backend.pendingTools st !! actionId = None ->
     Backend.settle actionId ok data error st = st) /\
  (forall e, Backend.toErrorCode (Some (Protocol.error_string e)) = e) /\
  (forall srv sid,
     Backend.sessions srv !! sid = None ->
     Backend.onToolResult sid actionId ok data error srv = srv) /\
  (forall srv sid,
     Backend.sessions srv !! sid = Some st ->
     Backend.sessions (Backend.onToolResult sid actionId ok data error srv) !! sid
       = Some (Backend.settle actionId ok data error st) /\
     (Backend.pendingTools st !! actionId = None ->
      Backend.onToolResult sid actionId ok data error srv = srv)).
Proof.
  intros Hreach. pose proof (reachable_Inv _ Hreach) as HI.
  split; [|split; [|split; [|split]]].
  - intros pc Hpc o st'.
    destruct (settle_present actionId ok data error st pc HI Hpc)
      as (H1 & H2 & H3 & H4 & H5 & H6).
    repeat split; try assumption.
    intros ok2 data2 error2. now apply settle_absent.
  - apply settle_absent.
  - apply toErrorCode_vocabulary.
  - intros srv sid Hs. unfold Backend.onToolResult. now rewrite Hs.
  - intros srv sid Hs. unfold Backend.onToolResult. rewrite Hs. split.
    + simpl. apply lookup_insert_eq.
    + intros Hnone. rewrite settle_absent by exact Hnone.
      rewrite insert_id by exact Hs. apply set_sessions_same.
Qed.

(** The result of the find of [find_in_flight] arrives. *)
Lemma C4_tool_result_settles_once_witness :
  Backend.pendingTools
    (Backend.settle "call-1" false None (Some "NOT_FOUND") find_in_flight) !! "call-1" = None /\
  Backend.outcome_of 0
    (Backend.settled (Backend.settle "call-1" false None (Some "NOT_FOUND") find_in_flight))
  = Some (Backend.Rejected "NOT_FOUND").
Proof.
  assert (Hr : Backend.reachable find_in_flight) by (eexists _, _, _; reflexivity).
  destruct (C4_tool_result_settles_once find_in_flight "call-1" false None
              (Some "NOT_FOUND") Hr) as (H & _).
  destruct (H (Backend.mkPending 0 Protocol.browser_find)) as (_ & H2 & _ & _ & _ & H6 & _).
  - vm_compute. reflexivity.
  - split; [exact H2 | exact H6].
Defined.

(** ** Deadlines *)

Section Deadline.
Import Protocol Backend.

Lemma timerFires_armed h tm st :
  Inv st -> timers st !! h = Some tm ->
  let st' := timerFires h st in
  pendingTools st' !! tm_actionId tm = None /\
  timers st' !! h = None /\
  settled st' = settled st ++ [(h, Rejected "TIMEOUT")] /\
  settle_count h (settled st') = 1%nat /\
  outcome_of h (settled st') = Some (Rejected "TIMEOUT").
Proof.
  intros (_ & Ht & _) Htm st'. subst st'. unfold timerFires. rewrite Htm. simpl.
  destruct (Ht _ _ Htm) as [_ H0]. repeat split.
  - apply lookup_delete_eq.
  - apply lookup_delete_eq.
  - rewrite settle_count_app, settle_count_one, H0. now rewrite Nat.eqb_refl.
  - rewrite outcome_of_app_unsettled by exact H0.
    unfold outcome_of. simpl. now rewrite Nat.eqb_refl.
Qed.

Lemma requestToolRoundTrip_open st actionId tool params uiLabel :
  wsOpen st = true ->
  exists st1,
    requestToolRoundTrip st actionId tool params uiLabel = (st1, inr (nextHandle st)) /\
    pendingTools st1 !! actionId = Some (mkPending (nextHandle st) tool) /\
    timers st1 !! nextHandle st = Some (mkTimer actionId (toolTimeoutMs tool)) /\
    sent st1 = sent st ++ [ToolRequestMsg (sessionId st) (token st) actionId tool params
                             uiLabel (toolTimeoutMs tool)].
Proof.
  intros Hopen. unfold requestToolRoundTrip, send. rewrite Hopen. simpl. rewrite Hopen.
  eexists. split; [reflexivity|]. simpl. repeat split; apply lookup_insert_eq.
Qed.

End Deadline.

(** C5: a round trip started on an open socket records the call under
    its action id and arms a timer with the deadline of the tool, which
    is 5s for find and highlight, 30s for navigate and 60s for click and
    type.  In every state a session can reach, each pending call has its
    timer armed with that deadline, and when the timer fires (no result
    has settled the call by then) the entry is removed and the awaited
    promise, not settled before, is rejected with TIMEOUT, once; a result
    that comes later changes nothing. *)
Theorem C5_deadline_expiry (st : Backend.SessionState) :
  Backend.reachable st ->
  (forall actionId tool params uiLabel,
     Backend.wsOpen st = true ->
     exists st1,
       Backend.requestToolRoundTrip st actionId tool params uiLabel
         = (st1, inr (Backend.nextHandle st)) /\
       Backend.pendingTools st1 !! actionId
         = Some (Backend.mkPending (Backend.nextHandle st) tool) /\
       Backend.timers st1 !! Backend.nextHandle st
         = Some (Backend.mkTimer actionId (Backend.toolTimeoutMs tool))) /\
  (forall actionId pc,
     Backend.pendingTools st !! actionId = Some pc ->
     let h := Backend.pt_handle pc in
     let st' := Backend.timerFires h st in
     Backend.timers st !! h
       = Some (Backend.mkTimer actionId (Backend.toolTimeoutMs (Backend.pt_tool pc))) /\
     Backend.settle_count h (Backend.settled st) = 0%nat /\
     Backend.pendingTools st' !! actionId = None /\
     Backend.timers st' !! h = None /\
     Backend.settled st' = Backend.settled st ++ [(h, Backend.Rejected "TIMEOUT")] /\
     Backend.settle_count h (Backend.settled st') = 1%nat /\
     Backend.outcome_of h (Backend.settled st') = Some (Backend.Rejected "TIMEOUT") /\
     (forall ok data error, Backend.settle actionId ok data error st' = st')) /\
  (forall h tm,
     Backend.timers st !! h = Some tm ->
     let st' := Backend.timerFires h st in
     Backend.settle_count h (Backend.settled st) = 0%nat /\
     Backend.pendingTools st' !! Backend.tm_actionId tm = None /\
     Backend.settle_count h (Backend.settled st') = 1%nat /\
     Backend.outcome_of h (Backend.settled st') = Some (Backend.Rejected "TIMEOUT")) /\
  Backend.toolTimeoutMs Protocol.browser_find = 5000 /\
  Backend.toolTimeoutMs Protocol.browser_highlight = 5000 /\
  Backend.toolTimeoutMs Protocol.browser_navigate = 30000 /\
  Backend.toolTimeoutMs Protocol.browser_click = 60000 /\
  Backend.toolTimeoutMs Protocol.browser_type = 60000.
Proof.
  intros Hreach. pose proof (reachable_Inv _ Hreach) as HI.
  split; [|split; [|split; [|repeat split]]].
  - intros actionId tool params uiLabel Hopen.
    destruct (requestToolRoundTrip_open st actionId tool params uiLabel Hopen)
      as (st1 & H1 & H2 & H3 & _).
    exists st1. auto.
  - intros actionId pc Hpc h st'.
    pose proof HI as (Hp & Ht & _).
    pose proof (Hp _ _ Hpc) as Htm.
    destruct (timerFires_armed _ _ _ HI Htm) as (H1 & H2 & H3 & H4 & H5).
    simpl in H1. repeat split; try assumption.
    + now apply Ht in Htm.
    + intros ok data error. now apply settle_absent.
  - intros h tm Htm st'.
    pose proof HI as (_ & Ht & _).
    destruct (timerFires_armed _ _ _ HI Htm) as (H1 & _ & _ & H4 & H5).
    repeat split; try assumption. now apply Ht in Htm.
Qed.

(** Scenario C: the find of [find_in_flight] gets no result. *)
Lemma C5_deadline_expiry_witness :
  Backend.timers find_in_flight !! 0%nat = Some (Backend.mkTimer "call-1" 5000) /\
  Backend.pendingTools (Backend.timerFires 0 find_in_flight) !! "call-1" = None /\
  Backend.outcome_of 0 (Backend.settled (Backend.timerFires 0 find_in_flight))
    = Some (Backend.Rejected "TIMEOUT").
Proof.
  assert (Hr : Backend.reachable find_in_flight) by (eexists _, _, _; reflexivity).
  destruct (C5_deadline_expiry find_in_flight Hr) as (_ & H & _).
  destruct (H "call-1" (Backend.mkPending 0 Protocol.browser_find))
    as (H1 & _ & H3 & _ & _ & _ & H7 & _).
  - vm_compute. reflexivity.
  - split; [exact H1 | split; [exact H3 | exact H7]].
Defined.

(** ** The single-candidate gate *)

Section CandidateGate.
Import Protocol Backend.

Lemma ensureSingle_spec st tool :
  targets_element tool = true ->
  ensureSingleCandidateBeforeAction st tool =
    match lastFindCandidates st with
    | [] => Some E_FIND_FIRST
    | [_] => None
    | _ :: _ :: _ => Some E_DISAMBIGUATE
    end.
Proof. destruct tool; simpl; intros H; try discriminate; reflexivity. Qed.

Lemma handler_start_gate st tool args toolCallId :
  targets_element tool = true ->
  forall e, ensureSingleCandidateBeforeAction st tool = Some e ->
  handler_start tool args toolCallId st = (st, Throws e).
Proof.
  destruct tool; simpl; intros H; try discriminate;
    destruct (lastFindCandidates st) as [|c [|c' l]]; intros e [= <-]; reflexivity.
Qed.

Lemma sent_appendStep text st :
  tool_requests (sent (appendStep text st)) = tool_requests (sent st).
Proof.
  unfold appendStep, sendStep, send. destruct (run st); [|reflexivity]. simpl.
  destruct (wsOpen st); [|reflexivity]. simpl.
  unfold tool_requests. rewrite omap_app. simpl. apply app_nil_r.
Qed.

Lemma wsOpen_appendStep text st : wsOpen (appendStep text st) = wsOpen st.
Proof.
  unfold appendStep, sendStep, send. destruct (run st); [|reflexivity]. simpl.
  destruct (wsOpen st) eqn:E; simpl; now rewrite ?E.
Qed.

Lemma nextHandle_appendStep text st : nextHandle (appendStep text st) = nextHandle st.
Proof.
  unfold appendStep, sendStep, send. destruct (run st); [|reflexivity]. simpl.
  now destruct (wsOpen st).
Qed.

Lemma lastFind_appendStep text st :
  lastFindCandidates (appendStep text st) = lastFindCandidates st.
Proof.
  unfold appendStep, sendStep, send. destruct (run st); [|reflexivity]. simpl.
  now destruct (wsOpen st).
Qed.

Lemma dispatch_open st toolCallId tool stepText params uiLabel url :
  wsOpen st = true ->
  exists st',
    dispatch st toolCallId tool stepText params uiLabel url = (st', Await (nextHandle st)) /\
    tool_requests (sent st') = tool_requests (sent st) ++ [(toolCallId, tool)] /\
    pendingTools st' !! toolCallId = Some (mkPending (nextHandle st) tool).
Proof.
  intros Hopen. unfold dispatch.
  destruct (requestToolRoundTrip_open (appendStep stepText st) toolCallId tool params uiLabel)
    as (st1 & H1 & H2 & _ & H4); [now rewrite wsOpen_appendStep|].
  rewrite H1, nextHandle_appendStep. eexists. split; [reflexivity|]. simpl. split.
  - rewrite H4. unfold tool_requests at 1. rewrite omap_app.
    fold (tool_requests (sent (appendStep stepText st))). now rewrite sent_appendStep.
  - now rewrite nextHandle_appendStep in H2.
Qed.

Lemma lastFind_dispatch st toolCallId tool stepText params uiLabel url :
  lastFindCandidates (fst (dispatch st toolCallId tool stepText params uiLabel url))
  = lastFindCandidates st.
Proof.
  unfold dispatch, requestToolRoundTrip, send.
  rewrite wsOpen_appendStep. destruct (wsOpen st) eqn:E; simpl.
  - rewrite wsOpen_appendStep, E. simpl. apply lastFind_appendStep.
  - apply lastFind_appendStep.
Qed.

End CandidateGate.

(** C6: a highlight, click or type handler first looks at the candidate
    list of the session.  With an empty list it throws the "call
    browser.find first" error, with more than one candidate the "must
    disambiguate" error, and in both cases the session is left as it was:
    no step is logged, no request is sent, nothing is pending.  So a
    handler that suspends on a round trip, or that sends a request, had
    exactly one candidate; and with exactly one candidate, a selector and
    an open socket the request does go out. *)
Theorem C6_single_candidate_gate
    (st : Backend.SessionState) (tool : Protocol.ToolName)
    (args : Protocol.JValue) (toolCallId : string) :
  Backend.targets_element tool = true ->
  (Backend.lastFindCandidates st = [] ->
   Backend.handler_start tool args toolCallId st
     = (st, Backend.Throws Backend.E_FIND_FIRST)) /\
  ((1 < length (Backend.lastFindCandidates st))%nat ->
   Backend.handler_start tool args toolCallId st
     = (st, Backend.Throws Backend.E_DISAMBIGUATE)) /\
  (forall st' h,
     Backend.handler_start tool args toolCallId st = (st', Backend.Await h) ->
     length (Backend.lastFindCandidates st) = 1%nat) /\
  (Backend.tool_requests (Backend.sent (fst (Backend.handler_start tool args toolCallId st)))
     <> Backend.tool_requests (Backend.sent st) ->
   length (Backend.lastFindCandidates st) = 1%nat) /\
  (length (Backend.lastFindCandidates st) = 1%nat ->
   Backend.wsOpen st = true ->
   Js.trim (Backend.getStringArg args "selector") <> "" ->
   exists st',
     Backend.handler_start tool args toolCallId st
       = (st', Backend.Await (Backend.nextHandle st)) /\
     Backend.tool_requests (Backend.sent st')
       = Backend.tool_requests (Backend.sent st) ++ [(toolCallId, tool)]).
Proof.
  intros Htool.
  pose proof (ensureSingle_spec st tool Htool) as Hens.
  pose proof (handler_start_gate st tool args toolCallId Htool) as Hgate.
  split; [|split; [|split; [|split]]].
  - intros Hnil. apply Hgate. now rewrite Hens, Hnil.
  - intros Hlen. apply Hgate. rewrite Hens.
    destruct (Backend.lastFindCandidates st) as [|c [|c' l]]; simpl in Hlen; [lia|lia|reflexivity].
  - intros st' h Hstart.
    destruct (Backend.lastFindCandidates st) as [|c [|c' l]] eqn:E; [| reflexivity |];
      rewrite (Hgate _ Hens) in Hstart; discriminate.
  - intros Hsent.
    destruct (Backend.lastFindCandidates st) as [|c [|c' l]] eqn:E; [| reflexivity |];
      rewrite (Hgate _ Hens) in Hsent; now contradiction Hsent.
  - intros Hlen Hopen Hsel.
    destruct (Backend.lastFindCandidates st) as [|c [|c' l]] eqn:E; try discriminate.
    apply String.eqb_neq in Hsel.
    destruct tool; try discriminate; simpl; rewrite E, Hsel;
      match goal with
      | |- context [Backend.dispatch ?s ?i ?t ?a ?b ?c ?d] =>
          destruct (dispatch_open s i t a b c d Hopen) as (st' & H1 & H2 & _)
      end; exists st'; auto.
Qed.

(** Scenario D: a click right after a find that gave two candidates. *)
Lemma C6_single_candidate_gate_witness :
  Backend.handler_start Protocol.browser_click (args1 "selector" "#q") "call-2" two_candidates
  = (two_candidates, Backend.Throws Backend.E_DISAMBIGUATE).
Proof.
  apply (C6_single_candidate_gate two_candidates Protocol.browser_click
           (args1 "selector" "#q") "call-2").
  - reflexivity.
  - vm_compute. lia.
Defined.

(** A selector that is a no-break space is blank to [trim]: with one
    candidate the click is refused as NOT_FOUND, and the session is left
    as it was. *)
Lemma no_break_space_selector_is_blank :
  Js.trim (" " +:+ no_break_space) = "" /\
  Backend.handler_start Protocol.browser_click (args1 "selector" no_break_space) "call-3"
    one_candidate
  = (one_candidate, Backend.Throws "NOT_FOUND").
Proof. split; vm_compute; reflexivity. Qed.

(** ** Navigation empties the candidate list *)

Section Navigation.
Import Protocol Backend.

Lemma lastFind_send m st : lastFindCandidates (send m st) = lastFindCandidates st.
Proof. unfold send. now destruct (wsOpen st). Qed.

Lemma lastFind_settle actionId ok data error st :
  lastFindCandidates (settle actionId ok data error st) = lastFindCandidates st.
Proof. unfold settle. now destruct (pendingTools st !! actionId). Qed.

Lemma lastFind_timerFires h st :
  lastFindCandidates (timerFires h st) = lastFindCandidates st.
Proof. unfold timerFires. now destruct (timers st !! h). Qed.

Lemma lastFind_cancelRun_resume st :
  lastFindCandidates (fst (cancelRun_resume st)) = lastFindCandidates st.
Proof.
  unfold cancelRun_resume, sendFinal. destruct (run st) as [r|]; [|reflexivity].
  destruct (finalSent r); [reflexivity|]. simpl. apply lastFind_send.
Qed.

Lemma lastFind_cancelRun st :
  lastFindCandidates (fst (cancelRun st)) = lastFindCandidates st.
Proof.
  unfold cancelRun. destruct (run st) as [r|]; [|reflexivity].
  match goal with |- context [hasCopilotSession ?s] => destruct (hasCopilotSession s) end;
    [reflexivity|].
  now rewrite lastFind_cancelRun_resume.
Qed.

Lemma step_keeps_empty st ev :
  lastFindCandidates st = [] -> resumes_find st ev = false ->
  lastFindCandidates (step st ev) = [].
Proof.
  intros Hnil Hres. destruct ev; simpl.
  - unfold queuedTurn, handleUserMessage_start, sendFinal.
    destruct (hasCopilotSession st); simpl; [|now rewrite lastFind_send].
    destruct (text_error text); rewrite ?lastFind_send; now rewrite lastFind_appendStep.
  - unfold handleUserMessage_retry. now rewrite lastFind_appendStep.
  - unfold handleUserMessage_done, sendFinal. destruct (run st) as [r|]; [|exact Hnil].
    destruct (cancelled r || finalSent r)%bool; [exact Hnil|]. simpl.
    now rewrite lastFind_send.
  - unfold handleUserMessage_failed, sendFinal.
    destruct (run st) as [r|]; [destruct (cancelled r); [exact Hnil|] |]; simpl;
      now rewrite lastFind_send.
  - unfold keepAlive, sendDelta. destruct (run st) as [r|]; [|exact Hnil].
    destruct (cancelled r); [exact Hnil | now rewrite lastFind_send].
  - unfold onMessageDelta, sendDelta. destruct (run st) as [r|]; [|exact Hnil].
    destruct (cancelled r); [exact Hnil|].
    destruct (String.eqb delta ""); [exact Hnil | now rewrite lastFind_send].
  - unfold onToolEvent. destruct (run st) as [r|]; [|exact Hnil].
    destruct (cancelled r); [exact Hnil | now rewrite lastFind_appendStep].
  - unfold handler_start. destruct tool; simpl; rewrite ?Hnil; simpl; try exact Hnil;
      (destruct (String.eqb _ ""); [exact Hnil | now rewrite lastFind_dispatch]).
  - unfold resumes_find in Hres. unfold resumeHandler.
    destruct (awaiting st !! h) as [su|]; [|exact Hnil].
    destruct (outcome_of h (settled st)) as [o|]; [|exact Hnil].
    unfold handler_resume. destruct o; [|exact Hnil].
    destruct (su_tool su); try discriminate; simpl; try exact Hnil; reflexivity.
  - now rewrite lastFind_settle.
  - now rewrite lastFind_timerFires.
  - now rewrite lastFind_cancelRun.
  - now rewrite lastFind_cancelRun_resume.
  - exact Hnil.
Qed.

Lemma steps_keep_empty st evs :
  lastFindCandidates st = [] -> no_find_resumes st evs ->
  lastFindCandidates (steps_from st evs) = [].
Proof.
  unfold steps_from. revert st. induction evs as [|ev evs IH]; intros st Hnil Hno; [exact Hnil|].
  destruct Hno as [Hres Hno]. simpl. apply IH; [|exact Hno].
  now apply step_keeps_empty.
Qed.

End Navigation.

(** C10, as stated, fails: a find that was in flight when the
    navigation succeeded stores its candidates when its answer arrives,
    without any new find, and a click then passes the check and is sent
    to the extension. *)
Lemma C10_stale_find_counterexample :
  Backend.lastFindCandidates navigated_during_find = [] /\
  Forall (fun ev => calls_find ev = false) late_find_answer /\
  Backend.lastFindCandidates (Backend.steps_from navigated_during_find late_find_answer)
  = [Protocol.mkCandidate "cand-1" "Search" "#q"] /\
  snd (Backend.handler_start Protocol.browser_click (args1 "selector" "#q") "call-3"
         (Backend.steps_from navigated_during_find late_find_answer))
  = Backend.Await 2 /\
  ~ gated_until_new_find navigated_during_find late_find_answer.
Proof.
  assert (Hnew : Forall (fun ev => calls_find ev = false) late_find_answer)
    by (repeat constructor).
  split; [vm_compute; reflexivity|]. split; [exact Hnew|].
  split; [vm_compute; reflexivity|]. split; [vm_compute; reflexivity|].
  intros H.
  specialize (H Hnew Protocol.browser_click (args1 "selector" "#q") "call-3" eq_refl).
  vm_compute in H. discriminate H.
Qed.

(** C10 (amended): when the handler of [browser_navigate] goes on after
    a resolved round trip, it returns normally and leaves the candidate
    list of the session empty.  From a session whose list is empty,
    whatever happens next short of the continuation of a [browser_find]
    handler (of a new find, or of one that was in flight) leaves the
    list empty, and every highlight, click or type called then throws the
    "call browser.find first" error and changes nothing. *)
Theorem C10_navigate_empties_candidates :
  (forall (st : Backend.SessionState) (h : nat) (su : Backend.Suspended)
          (v : option Protocol.JValue),
     Backend.awaiting st !! h = Some su ->
     Backend.su_tool su = Protocol.browser_navigate ->
     Backend.outcome_of h (Backend.settled st) = Some (Backend.Resolved v) ->
     exists st' r,
       Backend.resumeHandler h st = (st', Some (Backend.Return r)) /\
       Backend.lastFindCandidates st' = []) /\
  (forall (st : Backend.SessionState) (evs : list Backend.Event),
     Backend.lastFindCandidates st = [] ->
     Backend.no_find_resumes st evs ->
     let st' := Backend.steps_from st evs in
     Backend.lastFindCandidates st' = [] /\
     forall tool args toolCallId,
       Backend.targets_element tool = true ->
       Backend.handler_start tool args toolCallId st'
         = (st', Backend.Throws Backend.E_FIND_FIRST)).
Proof.
  split.
  - intros st h su v Haw Htool Hout. unfold Backend.resumeHandler.
    rewrite Haw, Hout. unfold Backend.handler_resume. rewrite Htool.
    eexists _, _. split; reflexivity.
  - intros st evs Hnil Hno st'.
    assert (Hnil' : Backend.lastFindCandidates st' = []) by now apply steps_keep_empty.
    split; [exact Hnil'|].
    intros tool args toolCallId Htool.
    apply handler_start_gate; [exact Htool|]. rewrite (ensureSingle_spec _ _ Htool). now rewrite Hnil'.
Qed.

(** After the navigation of [navigate_settled] has resumed, a selection
    and a click later. *)
Lemma C10_navigate_empties_candidates_witness :
  Backend.lastFindCandidates one_candidate <> [] /\
  exists st',
    fst (Backend.resumeHandler 1 navigate_settled) = st' /\
    Backend.lastFindCandidates st' = [] /\
    Backend.lastFindCandidates
      (Backend.steps_from st'
         [Backend.EvToolCall Protocol.browser_select_candidate (args1 "id" "cand-1") "call-4";
          Backend.EvKeepAlive]) = [].
Proof.
  split; [vm_compute; discriminate|].
  destruct C10_navigate_empties_candidates as [Hnav Hkeep].
  destruct (Hnav navigate_settled 1%nat (Backend.mkSuspended Protocol.browser_navigate "example.com")
              (Some (Protocol.JObj [("ok", Protocol.JBool true);
                                    ("url", Protocol.JStr "https://example.com")])))
    as (st' & r & Hres & Hnil).
  - vm_compute. reflexivity.
  - reflexivity.
  - vm_compute. reflexivity.
  - exists st'. rewrite Hres. split; [reflexivity|]. split; [exact Hnil|].
    apply (Hkeep st'); [exact Hnil|].
    simpl. repeat split.
Defined.

(** ** The router *)

Section Router.
Import Protocol Backend.

Lemma normalizeMessage_Some parsed m :
  normalizeMessage parsed = Some m <->
  exists members,
    parsed = Some (JObj members) /\
    jlookup "sessionId" members = Some (JStr (env_sessionId m)) /\
    jlookup "token" members = Some (JStr (env_token m)) /\
    jlookup "type" members = Some (JStr (env_type m)) /\
    env_body m = JObj members.
Proof.
  unfold normalizeMessage. split.
  - destruct parsed as [[| | | | |members]|]; try discriminate.
    destruct (jlookup "sessionId" members) as [[| | |sid| |]|] eqn:Hs; try discriminate.
    destruct (jlookup "token" members) as [[| | |tok| |]|] eqn:Ht; try discriminate.
    destruct (jlookup "type" members) as [[| | |ty| |]|] eqn:Hy; try discriminate.
    intros [= <-]. exists members. auto.
  - intros (members & -> & -> & -> & -> & Hb). destruct m; simpl in *. now subst.
Qed.

Lemma routeMessage_closes m srv :
  closes_channel (snd (routeMessage m srv)) = true -> env_token m <> pairingToken srv.
Proof.
  unfold routeMessage.
  destruct (String.eqb_spec (env_token m) (pairingToken srv)) as [E|E]; [|auto]. simpl.
  repeat match goal with
         | |- context [if ?b then _ else _] => destruct b
         | |- context [match ?x with _ => _ end] => destruct x
         end; simpl; discriminate.
Qed.

End Router.

(** C9, as stated, fails: a frame that lacks the token is dropped, no
    handler runs for it, but the channel is not closed. *)
Lemma C9_dropped_frame_counterexample :
  bad_frame (Some frame_without_token) server1 /\
  ~ rejects_and_closes (Some frame_without_token) server1.
Proof.
  split; [exact I|]. intros [_ H]. vm_compute in H. discriminate.
Qed.

(** C9 (amended): a frame that is not JSON, or not an object with string
    members [sessionId], [token] and [type], is dropped: nothing changes,
    no handler runs, and the channel stays open.  A well-formed frame
    whose token is not the shared secret is rejected: nothing changes, no
    handler runs, and the channel is closed. The channel is closed for
    no other frame. *)
Theorem C9_router_rejection (parsed : option Protocol.JValue) (srv : Backend.Server) :
  (Backend.normalizeMessage parsed = None <->
   ~ exists members sid tok ty,
       parsed = Some (Protocol.JObj members) /\
       Protocol.jlookup "sessionId" members = Some (Protocol.JStr sid) /\
       Protocol.jlookup "token" members = Some (Protocol.JStr tok) /\
       Protocol.jlookup "type" members = Some (Protocol.JStr ty)) /\
  (Backend.normalizeMessage parsed = None ->
   Backend.onSocketMessage parsed srv = (srv, Backend.Dropped)) /\
  (forall m, Backend.normalizeMessage parsed = Some m ->
   Backend.env_token m <> Backend.pairingToken srv ->
   Backend.onSocketMessage parsed srv = (srv, Backend.ClosedInvalidToken)) /\
  (bad_frame parsed srv ->
   fst (Backend.onSocketMessage parsed srv) = srv /\
   Backend.runs_handler (snd (Backend.onSocketMessage parsed srv)) = false) /\
  (Backend.closes_channel (snd (Backend.onSocketMessage parsed srv)) = true <->
   exists m, Backend.normalizeMessage parsed = Some m /\
             Backend.env_token m <> Backend.pairingToken srv).
Proof.
  assert (Hbad : forall m, Backend.normalizeMessage parsed = Some m ->
            Backend.env_token m <> Backend.pairingToken srv ->
            Backend.onSocketMessage parsed srv = (srv, Backend.ClosedInvalidToken)).
  { intros m Hm Htok. unfold Backend.onSocketMessage, Backend.routeMessage. rewrite Hm.
    apply String.eqb_neq in Htok. now rewrite Htok. }
  split; [|split; [|split; [|split]]].
  - split.
    + intros Hnone (members & sid & tok & ty & -> & Hs & Ht & Hy).
      unfold Backend.normalizeMessage in Hnone. rewrite Hs, Ht, Hy in Hnone. discriminate.
    + intros Hno. destruct (Backend.normalizeMessage parsed) as [m|] eqn:E; [|reflexivity].
      exfalso. apply Hno. apply normalizeMessage_Some in E as (members & H1 & H2 & H3 & H4 & _).
      now exists members, (Backend.env_sessionId m), (Backend.env_token m), (Backend.env_type m).
  - intros Hnone. unfold Backend.onSocketMessage. now rewrite Hnone.
  - exact Hbad.
  - unfold bad_frame. destruct (Backend.normalizeMessage parsed) as [m|] eqn:E.
    + intros Htok. now rewrite (Hbad m eq_refl Htok).
    + intros _. unfold Backend.onSocketMessage. now rewrite E.
  - split.
    + unfold Backend.onSocketMessage.
      destruct (Backend.normalizeMessage parsed) as [m|] eqn:E; [|discriminate].
      intros Hc. exists m. split; [reflexivity|]. now apply routeMessage_closes in Hc.
    + intros (m & Hm & Htok). now rewrite (Hbad m Hm Htok).
Qed.

(** The two kinds of bad frame, sent to [server1]. *)
Lemma C9_router_rejection_witness :
  Backend.onSocketMessage (Some frame_without_token) server1 = (server1, Backend.Dropped) /\
  Backend.onSocketMessage (Some frame_wrong_token) server1
    = (server1, Backend.ClosedInvalidToken).
Proof.
  split.
  - apply (C9_router_rejection (Some frame_without_token) server1). reflexivity.
  - destruct (C9_router_rejection (Some frame_wrong_token) server1) as (_ & _ & H & _).
    apply (H (Backend.mkEnvelope "cancel" "s1" "guess" frame_wrong_token)).
    + reflexivity.
    + vm_compute. discriminate.
Defined.

(** ** Cancellation *)

Section Cancellation.
Import Protocol Backend.

(** The first half of [cancelRun]: the flag is set, and every call that
    was pending is rejected with CANCELLED, once, its timer cleared, the
    map emptied. *)
Lemma cancelRun_rejects_pending st r :
  Inv st -> run st = Some r ->
  let st1 := fst (cancelRun st) in
  (exists r1, run st1 = Some r1 /\ cancelled r1 = true) /\
  pendingTools st1 = ∅ /\
  forall id pc, pendingTools st !! id = Some pc ->
    settle_count (pt_handle pc) (settled st) = 0%nat /\
    settle_count (pt_handle pc) (settled st1) = 1%nat /\
    outcome_of (pt_handle pc) (settled st1) = Some (Rejected "CANCELLED") /\
    timers st1 !! pt_handle pc = None.
Proof.
  intros HI Hrun st1. subst st1. unfold cancelRun. rewrite Hrun.
  set (st0 := set_run _ st).
  assert (Hcore : forall s, core s = core (rejectAllPending st0) ->
            (exists r1, run s = Some r1 /\ cancelled r1 = true) ->
            (exists r1, run s = Some r1 /\ cancelled r1 = true) /\
            pendingTools s = ∅ /\
            forall id pc, pendingTools st !! id = Some pc ->
              settle_count (pt_handle pc) (settled st) = 0%nat /\
              settle_count (pt_handle pc) (settled s) = 1%nat /\
              outcome_of (pt_handle pc) (settled s) = Some (Rejected "CANCELLED") /\
              timers s !! pt_handle pc = None).
  { intros s Hc Hr. unfold core in Hc. injection Hc as Hpt Htm Hst _.
    split; [exact Hr|]. split; [rewrite Hpt; reflexivity|].
    intros id pc Hpc. rewrite Hst, Htm. simpl.
    pose proof HI as (Hp & Ht & _).
    destruct (Ht _ _ (Hp _ _ Hpc)) as [_ H0].
    assert (Hin : pt_handle pc ∈ pending_handles st)
      by (apply elem_of_pending_handles; eauto).
    change (pending_handles st0) with (pending_handles st).
    pose proof (NoDup_pending_handles st HI) as Hnd.
    repeat split.
    - exact H0.
    - now rewrite settle_count_app, H0, settle_count_rejected_in.
    - rewrite outcome_of_app_unsettled by exact H0.
      clear -Hin. unfold outcome_of. induction (pending_handles st) as [|a l IH];
        [inversion Hin|]. simpl. destruct (Nat.eqb_spec a (pt_handle pc)); [reflexivity|].
      apply IH. apply elem_of_cons in Hin as [?|?]; [congruence | assumption].
    - now apply lookup_foldr_delete. }
  destruct (hasCopilotSession (rejectAllPending st0)) eqn:Hcop.
  - apply Hcore; [reflexivity | eexists; split; reflexivity].
  - apply Hcore; [apply core_cancelRun_resume|].
    unfold cancelRun_resume, sendFinal, send. simpl.
    destruct (finalSent r); simpl; [eexists; split; reflexivity|].
    destruct (wsOpen st); simpl; eexists; split; reflexivity.
Qed.

(** When nothing runs between the two halves of [cancelRun], the
    cancelled answer is sent unless a final answer had been sent. *)
Lemma cancelRun_uninterrupted st r :
  run st = Some r -> wsOpen st = true -> hasCopilotSession st = true ->
  let st1 := fst (cancelRun st) in
  let st2 := fst (cancelRun_resume st1) in
  snd (cancelRun st) = CancelAwaitsAbort /\
  snd (cancelRun_resume st1) = CancelReturned /\
  finals (sent st2)
  = finals (sent st) ++ (if finalSent r then [] else ["Cancelled by user."]).
Proof.
  intros Hrun Hopen Hcop. unfold cancelRun. rewrite Hrun. simpl. rewrite Hcop. simpl.
  split; [reflexivity|].
  unfold cancelRun_resume, sendFinal, send. simpl. rewrite Hopen.
  destruct (finalSent r); simpl.
  - now rewrite app_nil_r.
  - split; [reflexivity|]. unfold finals. now rewrite omap_app.
Qed.

Lemma run_send m st : run (send m st) = run st.
Proof. unfold send. now destruct (wsOpen st). Qed.

Lemma run_flag_appendStep text st : run_flag (appendStep text st) = run_flag st.
Proof.
  unfold run_flag, appendStep, sendStep. destruct (run st) as [r|] eqn:E; simpl.
  - now rewrite run_send.
  - now rewrite E.
Qed.

Lemma run_flag_dispatch st toolCallId tool stepText params uiLabel url :
  run_flag (fst (dispatch st toolCallId tool stepText params uiLabel url)) = run_flag st.
Proof.
  unfold dispatch, requestToolRoundTrip.
  destruct (wsOpen (appendStep stepText st)); simpl.
  - unfold run_flag at 1. simpl. rewrite run_send. simpl. apply run_flag_appendStep.
  - apply run_flag_appendStep.
Qed.

(** The flag of a run is never cleared: whatever happens to a session
    whose run is cancelled, short of the start of the next turn, the run
    is still cancelled or is over. *)
Lemma cancelled_is_kept st ev :
  run_flag st = Some true ->
  (forall text, ev <> EvUserTurn text) ->
  run (step st ev) = None \/ run_flag (step st ev) = Some true.
Proof.
  intros Hflag Hev. destruct ev; simpl.
  - now contradiction (Hev text).
  - right. unfold handleUserMessage_retry. now rewrite run_flag_appendStep.
  - left. unfold handleUserMessage_done. destruct (run st) as [r|]; [|reflexivity].
    now destruct (cancelled r || finalSent r)%bool.
  - left. unfold handleUserMessage_failed. destruct (run st) as [r|]; [|reflexivity].
    now destruct (cancelled r).
  - right. unfold keepAlive, sendDelta. destruct (run st) as [r|] eqn:E; [|exact Hflag].
    destruct (cancelled r); [exact Hflag|]. unfold run_flag. now rewrite run_send.
  - right. unfold onMessageDelta, sendDelta. destruct (run st) as [r|] eqn:E; [|exact Hflag].
    destruct (cancelled r); [exact Hflag|].
    destruct (String.eqb delta ""); [exact Hflag|]. unfold run_flag. now rewrite run_send.
  - right. unfold onToolEvent. destruct (run st) as [r|] eqn:E; [|exact Hflag].
    destruct (cancelled r); [exact Hflag | now rewrite run_flag_appendStep].
  - right. unfold handler_start.
    destruct tool; simpl;
      try destruct (lastFindCandidates st) as [|c [|c' l]]; simpl;
      repeat match goal with
             | |- context [if String.eqb ?a ?b then _ else _] => destruct (String.eqb a b)
             | |- context [List.find ?f ?l] => destruct (List.find f l)
             end; simpl;
      rewrite ?run_flag_dispatch, ?run_flag_appendStep; exact Hflag.
  - right. unfold resumeHandler.
    destruct (awaiting st !! h) as [su|]; [|exact Hflag].
    destruct (outcome_of h (settled st)) as [o|]; [|exact Hflag].
    unfold handler_resume. destruct o; [|exact Hflag].
    destruct (su_tool su); simpl; rewrite ?run_flag_appendStep; exact Hflag.
  - right. unfold settle. now destruct (pendingTools st !! actionId).
  - right. unfold timerFires. now destruct (timers st !! h).
  - right. unfold cancelRun. unfold run_flag in Hflag.
    destruct (run st) as [r|]; [|discriminate].
    match goal with |- context [hasCopilotSession ?s] => destruct (hasCopilotSession s) end;
      [reflexivity|].
    unfold cancelRun_resume, sendFinal, send. simpl.
    destruct (finalSent r); simpl; [reflexivity|]. now destruct (wsOpen st).
  - right. unfold cancelRun_resume, sendFinal. unfold run_flag in *.
    destruct (run st) as [r|] eqn:E; [|discriminate].
    destruct (finalSent r); simpl; [now rewrite E|]. exact Hflag.
  - right. exact Hflag.
Qed.

End Cancellation.

(** C3 at the failing run: a turn is in flight with one pending find
    when the cancel arrives.  [cancelRun] sets the flag, rejects the find
    with CANCELLED and waits for [abort()]; the driver call settles
    meanwhile, so the turn ends without an answer (the run is cancelled)
    and clears [state.run]; [cancelRun] then reads [state.run.finalSent]
    of no run and throws.  No final answer is ever sent for the turn. *)
Lemma C3_cancel_race_sends_no_final :
  let st1 := fst (Backend.cancelRun find_in_flight) in
  let st2 := Backend.handleUserMessage_done None st1 in
  Backend.wsOpen find_in_flight = true /\
  Backend.finals (Backend.sent find_in_flight) = [] /\
  Backend.cancelRun find_in_flight = (st1, Backend.CancelAwaitsAbort) /\
  Backend.cancelled <$> Backend.run st1 = Some true /\
  Backend.settled st1 = [(0%nat, Backend.Rejected "CANCELLED")] /\
  Backend.run st2 = None /\
  Backend.cancelRun_resume st2 = (st2, Backend.CancelThrew Backend.E_RUN_NULL) /\
  Backend.finals (Backend.sent (Backend.steps_from find_in_flight cancel_race)) = [].
Proof. vm_compute. repeat split. Qed.

(** ** Selector synthesis *)

Section Synthesis.
Import Content.






End Synthesis.




(** ** Resolution *)

Section Resolution.
Import Content.

Lemma token_score_nonneg label name placeholder role href token :
  0 <= token_score label name placeholder role href token.
Proof.
  unfold token_score.
  repeat match goal with |- context [if ?b then _ else _] => destruct b end; lia.
Qed.

Lemma fold_token_score_nonneg label name placeholder role href tokens acc :
  0 <= acc ->
  0 <= fold_left (fun score token =>
                    score + token_score label name placeholder role href token) tokens acc.
Proof.
  revert acc. induction tokens as [|t ts IH]; intros acc Hacc; simpl; [exact Hacc|].
  apply IH. pose proof (token_score_nonneg label name placeholder role href t). lia.
Qed.

(** The flat bonus: a visible element never scores less than 10 against
    a query that is not blank. *)
Lemma visible_scores_at_least_10 d query :
  isVisible d = true -> normalizeText (Some query) <> "" ->
  10 <= rankCandidate d query.
Proof.
  intros Hvis Hq. unfold rankCandidate. apply String.eqb_neq in Hq. rewrite Hq, Hvis.
  match goal with |- context [fold_left ?f ?l 0] =>
    pose proof (fold_token_score_nonneg
                  (normalizeText (Some (getElementLabel d))) (normalizeText (attr d "name"))
                  (normalizeText (attr d "placeholder")) (normalizeText (attr d "role"))
                  (normalizeText (attr d "href")) l 0 (Z.le_refl 0)) as Hfold
  end.
  repeat match goal with |- context [if ?b then _ else _] => destruct b end; lia.
Qed.

Lemma filter_all {A} (f : A -> bool) (l : list A) :
  (forall x, In x l -> f x = true) -> List.filter f l = l.
Proof.
  induction l as [|a l IH]; intros H; simpl; [reflexivity|].
  rewrite (H a (or_introl eq_refl)). f_equal. apply IH. intros x Hx. apply H. now right.
Qed.

Lemma length_insert_ranked {A} (x : A * Z) l : length (insert_ranked x l) = S (length l).
Proof.
  induction l as [|y l IH]; simpl; [reflexivity|].
  destruct (snd y <=? snd x); simpl; [reflexivity | now rewrite IH].
Qed.

Lemma length_sort_ranked {A} (l : list (A * Z)) : length (sort_ranked l) = length l.
Proof.
  induction l as [|x l IH]; simpl; [reflexivity|].
  now rewrite length_insert_ranked, IH.
Qed.

Lemma eligible_visible doc pd : In pd (eligible doc) -> isVisible (snd pd) = true.
Proof. unfold eligible. intros H. now apply List.filter_In in H as [_ H]. Qed.

(** So the test [score > 0] lets every eligible element through: the
    candidates are the eligible elements, up to eight of them. *)
Lemma findCandidates_length doc query :
  normalizeText (Some query) <> "" ->
  length (findCandidates doc query) = Nat.min 8 (length (eligible doc)).
Proof.
  intros Hq. unfold findCandidates, ranked.
  rewrite length_imap, length_firstn, length_sort_ranked, filter_all.
  - now rewrite length_map.
  - intros [pd z] Hin. apply in_map_iff in Hin as (pd' & [= <- <-] & Hin).
    simpl. apply Z.ltb_lt.
    pose proof (visible_scores_at_least_10 _ query (eligible_visible _ _ Hin) Hq). lia.
Qed.

End Resolution.

(** C8 where it holds: on the page of scenario A with the search input
    as its only control, the query "search box" gives one candidate,
    whose selector matches the input and nothing else. *)
Lemma C8_scenario_A_input_alone :
  Content.findCandidates search_page "search box"
  = [Content.mkCandidate "cand-1" "Search" (Content.SelAttr "input" "name" "q")] /\
  Content.querySelectorAll search_page (Content.SelAttr "input" "name" "q")
  = [[0; 0; 1]%nat].
Proof. vm_compute. split; reflexivity. Qed.

(** C8 at the failing page: a visible button labelled "Go" stands next
    to the search input.  Nothing of the button matches "search box", yet
    it scores the 10 points of the visibility bonus, passes the test
    [score > 0] and comes back as a second candidate.  In general a query
    that is not blank discards no eligible element at all. *)
Theorem C8_unrelated_button_is_a_candidate :
  Content.rankCandidate (Content.data search_input) "search box" = 35 /\
  Content.rankCandidate (Content.data go_button) "search box" = 10 /\
  Content.findCandidates search_page_with_button "search box"
  = [Content.mkCandidate "cand-1" "Search" (Content.SelAttr "input" "name" "q");
     Content.mkCandidate "cand-2" "Go" (Content.SelPath [("button", 1%nat)])] /\
  (forall doc query,
     Content.normalizeText (Some query) <> "" ->
     length (Content.findCandidates doc query)
     = Nat.min 8 (length (Content.eligible doc))).
Proof.
  split; [vm_compute; reflexivity|]. split; [vm_compute; reflexivity|].
  split; [vm_compute; reflexivity|]. apply findCandidates_length.
Qed.

(** The general count, on the page with the button. *)
Lemma C8_unrelated_button_is_a_candidate_witness :
  length (Content.findCandidates search_page_with_button "search box") = 2%nat.
Proof.
  destruct C8_unrelated_button_is_a_candidate as (_ & _ & _ & H).
  rewrite H; [reflexivity|]. vm_compute. discriminate.
Defined.

(* ===================================================================== *)
(** * More properties of the backend *)
(* ===================================================================== *)

Section BrokerMore.
Import Protocol Backend BackendMore.

Lemma timerFires_unarmed h st : timers st !! h = None -> timerFires h st = st.
Proof. unfold timerFires. now intros ->. Qed.

Lemma pendingTools_cancelRun st r :
  run st = Some r -> pendingTools (fst (cancelRun st)) = ∅.
Proof.
  intros Hrun. unfold cancelRun. rewrite Hrun.
  match goal with |- context [hasCopilotSession ?s] => destruct (hasCopilotSession s) end;
    [reflexivity|].
  unfold cancelRun_resume, sendFinal, send. simpl.
  destruct (finalSent r); simpl; [reflexivity|]. now destruct (wsOpen st).
Qed.

Lemma timers_cancelRun st r :
  run st = Some r ->
  timers (fst (cancelRun st)) = foldr delete (timers st) (pending_handles st).
Proof.
  intros Hrun. unfold cancelRun. rewrite Hrun.
  match goal with |- context [hasCopilotSession ?s] => destruct (hasCopilotSession s) end;
    [reflexivity|].
  unfold cancelRun_resume, sendFinal, send. simpl.
  destruct (finalSent r); simpl; [reflexivity|]. now destruct (wsOpen st).
Qed.

End BrokerMore.

(** X1: in every state a session can reach, no promise of a round trip
    has been settled more than once, every pending call has its timer
    armed under its own action id with the deadline of its tool, and the
    promise of every pending call is still unsettled. *)
Theorem X1_no_promise_settled_twice (st : Backend.SessionState) :
  Backend.reachable st ->
  (forall h, (Backend.settle_count h (Backend.settled st) <= 1)%nat) /\
  (forall id pc, Backend.pendingTools st !! id = Some pc ->
     Backend.timers st !! Backend.pt_handle pc
       = Some (Backend.mkTimer id (Backend.toolTimeoutMs (Backend.pt_tool pc))) /\
     Backend.outcome_of (Backend.pt_handle pc) (Backend.settled st) = None) /\
  (forall id1 id2 pc1 pc2,
     Backend.pendingTools st !! id1 = Some pc1 ->
     Backend.pendingTools st !! id2 = Some pc2 ->
     Backend.pt_handle pc1 = Backend.pt_handle pc2 -> id1 = id2).
Proof.
  intros Hr. pose proof (reachable_Inv _ Hr) as (Hp & Ht & Hl & Hn).
  split; [exact Hl|]. split.
  - intros id pc Hpc. split; [now apply Hp|].
    destruct (Ht _ _ (Hp _ _ Hpc)) as [_ H0].
    rewrite <- (app_nil_r (Backend.settled st)).
    now rewrite outcome_of_app_unsettled.
  - intros id1 id2 pc1 pc2 H1 H2 Heq.
    pose proof (Hp _ _ H1) as T1. pose proof (Hp _ _ H2) as T2.
    rewrite Heq, T2 in T1. now injection T1.
Qed.

Lemma X1_no_promise_settled_twice_witness :
  Backend.outcome_of 0 (Backend.settled find_in_flight) = None.
Proof.
  assert (Hr : Backend.reachable find_in_flight) by (eexists _, _, _; reflexivity).
  destruct (X1_no_promise_settled_twice find_in_flight Hr) as (_ & H & _).
  apply (H "call-1" (Backend.mkPending 0 Protocol.browser_find)).
  vm_compute. reflexivity.
Defined.

(** X2: the first settlement wins.  In a reachable state, once a
    [tool_result] has settled a pending call, the timer of that call no
    longer does anything when its deadline passes; and once [cancelRun]
    has rejected the pending calls of a run, neither a late [tool_result]
    for one of them nor the deadline of one of them changes the session. *)
Theorem X2_first_settlement_wins (st : Backend.SessionState) (id : string)
    (pc : Backend.PendingToolCall) :
  Backend.reachable st ->
  Backend.pendingTools st !! id = Some pc ->
  (forall ok data error,
     let st' := Backend.settle id ok data error st in
     Backend.timerFires (Backend.pt_handle pc) st' = st') /\
  (forall r ok data error,
     Backend.run st = Some r ->
     let st' := fst (Backend.cancelRun st) in
     Backend.settle id ok data error st' = st' /\
     Backend.timerFires (Backend.pt_handle pc) st' = st').
Proof.
  intros Hr Hpc. pose proof (reachable_Inv _ Hr) as HI. split.
  - intros ok data error st'. apply timerFires_unarmed.
    now destruct (settle_present id ok data error st pc HI Hpc) as (H1 & _).
  - intros r ok data error Hrun st'. split.
    + apply settle_absent. subst st'. now rewrite (pendingTools_cancelRun st r Hrun).
    + apply timerFires_unarmed. subst st'. rewrite (timers_cancelRun st r Hrun).
      apply lookup_foldr_delete, elem_of_pending_handles. eauto.
Qed.

Lemma X2_first_settlement_wins_witness :
  Backend.timerFires 0 (Backend.settle "call-1" true None None find_in_flight)
  = Backend.settle "call-1" true None None find_in_flight.
Proof.
  assert (Hr : Backend.reachable find_in_flight) by (eexists _, _, _; reflexivity).
  destruct (X2_first_settlement_wins find_in_flight "call-1"
              (Backend.mkPending 0 Protocol.browser_find) Hr) as (H & _).
  - vm_compute. reflexivity.
  - apply (H true None None).
Defined.

Section Sending.
Import Protocol Backend BackendMore.

Lemma sm_refl st : sends_more st st.
Proof. split; [reflexivity|]. exists []. split; [now rewrite app_nil_r | reflexivity]. Qed.

Lemma sm_trans st1 st2 st3 : sends_more st1 st2 -> sends_more st2 st3 -> sends_more st1 st3.
Proof.
  intros (Hw1 & l1 & Hs1 & Hc1) (Hw2 & l2 & Hs2 & Hc2). split; [congruence|].
  exists (l1 ++ l2). split; [now rewrite Hs2, Hs1, app_assoc|].
  intros Hclosed. rewrite Hc1 by exact Hclosed. rewrite Hc2 by congruence. reflexivity.
Qed.

Lemma sm_eq st st' : wsOpen st' = wsOpen st -> sent st' = sent st -> sends_more st st'.
Proof.
  intros Hw Hs. split; [exact Hw|]. exists []. split; [now rewrite app_nil_r | reflexivity].
Qed.

Lemma sm_send m st : sends_more st (send m st).
Proof.
  unfold send. destruct (wsOpen st) eqn:E; [|apply sm_refl].
  split; [simpl; now rewrite E|]. exists [m]. split; [reflexivity | congruence].
Qed.

Lemma sm_appendStep text st : sends_more st (appendStep text st).
Proof.
  unfold appendStep, sendStep. destruct (run st); [|apply sm_refl].
  eapply sm_trans; [|apply sm_send]. now apply sm_eq.
Qed.

Lemma sm_queuedTurn text st : sends_more st (queuedTurn text st).
Proof.
  unfold queuedTurn, handleUserMessage_start, sendFinal.
  destruct (hasCopilotSession st); simpl; [|apply sm_send].
  assert (H : sends_more st
                (appendStep "Started run"
                   (set_lastFindCandidates [] (set_run (Some (mkRun false false [])) st)))).
  { eapply sm_trans; [|apply sm_appendStep]. now apply sm_eq. }
  destruct (text_error text); [|exact H].
  eapply sm_trans; [exact H | apply sm_send].
Qed.

Lemma sm_done content st : sends_more st (handleUserMessage_done content st).
Proof.
  unfold handleUserMessage_done, sendFinal. destruct (run st) as [r|]; [|now apply sm_eq].
  destruct (cancelled r || finalSent r)%bool; [now apply sm_eq|].
  eapply sm_trans; [apply sm_send | now apply sm_eq].
Qed.

Lemma sm_failed message st : sends_more st (handleUserMessage_failed message st).
Proof.
  unfold handleUserMessage_failed, sendFinal.
  destruct (run st) as [r|]; [destruct (cancelled r); [now apply sm_eq|] |];
    (eapply sm_trans; [apply sm_send | now apply sm_eq]).
Qed.

Lemma sm_keepAlive st : sends_more st (keepAlive st).
Proof.
  unfold keepAlive, sendDelta. destruct (run st) as [r|]; [|apply sm_refl].
  destruct (cancelled r); [apply sm_refl | apply sm_send].
Qed.

Lemma sm_onMessageDelta delta st : sends_more st (onMessageDelta delta st).
Proof.
  unfold onMessageDelta, sendDelta. destruct (run st) as [r|]; [|apply sm_refl].
  destruct (cancelled r); [apply sm_refl|].
  destruct (String.eqb delta ""); [apply sm_refl | apply sm_send].
Qed.

Lemma sm_onToolEvent s st : sends_more st (onToolEvent s st).
Proof.
  unfold onToolEvent. destruct (run st) as [r|]; [|apply sm_refl].
  destruct (cancelled r); [apply sm_refl | apply sm_appendStep].
Qed.

Lemma sm_requestToolRoundTrip st actionId tool params uiLabel :
  sends_more st (fst (requestToolRoundTrip st actionId tool params uiLabel)).
Proof.
  unfold requestToolRoundTrip. destruct (wsOpen st) eqn:E; simpl; [|apply sm_refl].
  eapply sm_trans; [|apply sm_send]. now apply sm_eq.
Qed.

Lemma sm_dispatch st toolCallId tool stepText params uiLabel url :
  sends_more st (fst (dispatch st toolCallId tool stepText params uiLabel url)).
Proof.
  unfold dispatch.
  pose proof (sm_requestToolRoundTrip (appendStep stepText st) toolCallId tool params uiLabel)
    as H.
  destruct (requestToolRoundTrip _ _ _ _ _) as [st1 [e|h]]; simpl in *.
  - eapply sm_trans; [apply sm_appendStep | exact H].
  - eapply sm_trans; [apply sm_appendStep|]. eapply sm_trans; [exact H | now apply sm_eq].
Qed.

Lemma sm_handler_start tool args toolCallId st :
  sends_more st (fst (handler_start tool args toolCallId st)).
Proof.
  unfold handler_start. destruct tool;
    repeat match goal with
           | |- context [ensureSingleCandidateBeforeAction ?s ?t] =>
               destruct (ensureSingleCandidateBeforeAction s t)
           | |- context [if String.eqb ?a ?b then _ else _] => destruct (String.eqb a b)
           | |- context [List.find ?f ?l] => destruct (List.find f l)
           end; try apply sm_refl; try apply sm_dispatch.
  simpl. eapply sm_trans; [|apply sm_appendStep]. now apply sm_eq.
Qed.

Lemma sm_resumeHandler h st : sends_more st (fst (resumeHandler h st)).
Proof.
  unfold resumeHandler. destruct (awaiting st !! h) as [su|]; [|apply sm_refl].
  destruct (outcome_of h (settled st)) as [o|]; [|apply sm_refl].
  unfold handler_resume. destruct o; [|now apply sm_eq].
  destruct (su_tool su); simpl; try (now apply sm_eq).
  eapply sm_trans; [|apply sm_appendStep]. now apply sm_eq.
Qed.

Lemma sm_settle actionId ok data error st : sends_more st (settle actionId ok data error st).
Proof. unfold settle. destruct (pendingTools st !! actionId); [now apply sm_eq | apply sm_refl]. Qed.

Lemma sm_timerFires h st : sends_more st (timerFires h st).
Proof. unfold timerFires. destruct (timers st !! h); [now apply sm_eq | apply sm_refl]. Qed.

Lemma sm_cancelRun_resume st : sends_more st (fst (cancelRun_resume st)).
Proof.
  unfold cancelRun_resume, sendFinal. destruct (run st) as [r|]; [|apply sm_refl].
  destruct (finalSent r); [apply sm_refl|]. simpl.
  eapply sm_trans; [apply sm_send | now apply sm_eq].
Qed.

Lemma sm_cancelRun st : sends_more st (fst (cancelRun st)).
Proof.
  unfold cancelRun. destruct (run st) as [r|]; [|apply sm_refl].
  match goal with |- context [hasCopilotSession ?s] => destruct (hasCopilotSession s) end.
  - now apply sm_eq.
  - eapply sm_trans; [|apply sm_cancelRun_resume]. now apply sm_eq.
Qed.

(** *** The run of a session *)

Lemma run_appendStep text st :
  run (appendStep text st)
  = (fun r => mkRun (cancelled r) (finalSent r) (steps r ++ [text])) <$> run st.
Proof.
  unfold appendStep, sendStep. destruct (run st) as [r|] eqn:E; simpl.
  - now rewrite run_send.
  - exact E.
Qed.

Lemma run_dispatch st toolCallId tool stepText params uiLabel url :
  run (fst (dispatch st toolCallId tool stepText params uiLabel url))
  = run (appendStep stepText st).
Proof.
  unfold dispatch, requestToolRoundTrip.
  destruct (wsOpen (appendStep stepText st)); simpl; [|reflexivity].
  now rewrite run_send.
Qed.

Lemma run_goes_on_refl r : run_goes_on r r.
Proof. repeat split; auto. exists []. now rewrite app_nil_r. Qed.

Lemma run_goes_on_step r text :
  run_goes_on r (mkRun (cancelled r) (finalSent r) (steps r ++ [text])).
Proof. repeat split; auto. now exists [text]. Qed.

End Sending.

(** X3: messages to the extension are only ever added at the end of
    what was sent, and a session whose socket is not open sends nothing:
    whatever one event does to a session, what was sent before is a
    prefix of what is sent after, and with the socket closed the two are
    equal. *)
Theorem X3_sent_only_grows (st : Backend.SessionState) (ev : Backend.Event) :
  (exists l, Backend.sent (Backend.step st ev) = Backend.sent st ++ l) /\
  (Backend.wsOpen st = false ->
   Backend.sent (Backend.step st ev) = Backend.sent st).
Proof.
  assert (H : BackendMore.sends_more st (Backend.step st ev) \/
              Backend.sent (Backend.step st ev) = Backend.sent st).
  { destruct ev; simpl;
      [ left; apply sm_queuedTurn | left; apply sm_appendStep | left; apply sm_done
      | left; apply sm_failed | left; apply sm_keepAlive | left; apply sm_onMessageDelta
      | left; apply sm_onToolEvent | left; apply sm_handler_start
      | left; apply sm_resumeHandler | left; apply sm_settle | left; apply sm_timerFires
      | left; apply sm_cancelRun | left; apply sm_cancelRun_resume | now right ]. }
  destruct H as [(_ & l & Hs & Hc)|Heq].
  - split; [now exists l|]. intros Hclosed. now rewrite Hs, (Hc Hclosed), app_nil_r.
  - split; [exists []; now rewrite app_nil_r | now intros _].
Qed.

Lemma X3_sent_only_grows_witness :
  Backend.sent (Backend.step (Backend.set_wsOpen false find_in_flight) Backend.EvCancel)
  = Backend.sent find_in_flight.
Proof.
  apply (X3_sent_only_grows (Backend.set_wsOpen false find_in_flight) Backend.EvCancel).
  reflexivity.
Defined.

(** X10: within a turn the run only moves forward.  If a session has a
    run before and after an event other than the start of a turn, the
    cancelled flag and the final-sent flag have not been cleared and the
    step log of before is a prefix of the step log of after. *)
Theorem X10_run_only_moves_forward
    (st : Backend.SessionState) (ev : Backend.Event) (r r' : Backend.RunContext) :
  (forall text, ev <> Backend.EvUserTurn text) ->
  Backend.run st = Some r ->
  Backend.run (Backend.step st ev) = Some r' ->
  BackendMore.run_goes_on r r'.
Proof.
  intros Hev Hrun. destruct ev; simpl.
  - now contradiction (Hev text).
  - unfold Backend.handleUserMessage_retry. rewrite run_appendStep, Hrun. simpl.
    intros [= <-]. apply run_goes_on_step.
  - unfold Backend.handleUserMessage_done. rewrite Hrun.
    now destruct (Backend.cancelled r || Backend.finalSent r)%bool.
  - unfold Backend.handleUserMessage_failed. rewrite Hrun. now destruct (Backend.cancelled r).
  - unfold Backend.keepAlive, Backend.sendDelta. rewrite Hrun.
    destruct (Backend.cancelled r); rewrite ?run_send, Hrun; intros [= <-];
      apply run_goes_on_refl.
  - unfold Backend.onMessageDelta, Backend.sendDelta. rewrite Hrun.
    destruct (Backend.cancelled r); [|destruct (String.eqb delta "")];
      rewrite ?run_send, Hrun; intros [= <-]; apply run_goes_on_refl.
  - unfold Backend.onToolEvent. rewrite Hrun.
    destruct (Backend.cancelled r); rewrite ?run_appendStep, Hrun; simpl; intros [= <-];
      [apply run_goes_on_refl | apply run_goes_on_step].
  - unfold Backend.handler_start.
    destruct tool;
      repeat match goal with
             | |- context [Backend.ensureSingleCandidateBeforeAction ?s ?t] =>
                 destruct (Backend.ensureSingleCandidateBeforeAction s t)
             | |- context [if String.eqb ?a ?b then _ else _] => destruct (String.eqb a b)
             | |- context [List.find ?f ?l] => destruct (List.find f l)
             end; simpl;
      rewrite ?run_dispatch, ?run_appendStep; simpl; rewrite Hrun; simpl; intros [= <-];
      first [apply run_goes_on_refl | apply run_goes_on_step].
  - unfold Backend.resumeHandler.
    destruct (Backend.awaiting st !! h) as [su|];
      [|simpl; rewrite Hrun; intros [= <-]; apply run_goes_on_refl].
    destruct (Backend.outcome_of h (Backend.settled st)) as [o|];
      [|simpl; rewrite Hrun; intros [= <-]; apply run_goes_on_refl].
    unfold Backend.handler_resume. destruct o;
      [|simpl; rewrite Hrun; intros [= <-]; apply run_goes_on_refl].
    destruct (Backend.su_tool su); simpl; rewrite ?run_appendStep; simpl; rewrite Hrun;
      simpl; intros [= <-]; first [apply run_goes_on_refl | apply run_goes_on_step].
  - unfold Backend.settle. destruct (Backend.pendingTools st !! actionId); simpl;
      rewrite Hrun; intros [= <-]; apply run_goes_on_refl.
  - unfold Backend.timerFires. destruct (Backend.timers st !! h); simpl;
      rewrite Hrun; intros [= <-]; apply run_goes_on_refl.
  - unfold Backend.cancelRun. rewrite Hrun.
    match goal with
    | |- context [Backend.hasCopilotSession ?s] => destruct (Backend.hasCopilotSession s)
    end.
    + simpl. intros [= <-]. repeat split; auto. exists []. now rewrite app_nil_r.
    + unfold Backend.cancelRun_resume, Backend.sendFinal, Backend.send. simpl.
      destruct (Backend.finalSent r) eqn:Ef; simpl.
      * intros [= <-]. repeat split; auto. exists []. now rewrite app_nil_r.
      * destruct (Backend.wsOpen st); simpl; intros [= <-]; repeat split; auto;
          exists []; now rewrite app_nil_r.
  - unfold Backend.cancelRun_resume, Backend.sendFinal. rewrite Hrun.
    destruct (Backend.finalSent r) eqn:Ef; simpl.
    + rewrite Hrun. intros [= <-]. apply run_goes_on_refl.
    + intros [= <-]. repeat split; auto. exists []. now rewrite app_nil_r.
  - rewrite Hrun. intros [= <-]. apply run_goes_on_refl.
Qed.

Lemma X10_run_only_moves_forward_witness :
  BackendMore.run_goes_on
    (Backend.mkRun false false
       ["Started run"; "Finding elements for " +:+ Backend.dquote +:+ "search box"
                       +:+ Backend.dquote])
    (Backend.mkRun true false
       ["Started run"; "Finding elements for " +:+ Backend.dquote +:+ "search box"
                       +:+ Backend.dquote]).
Proof.
  apply (X10_run_only_moves_forward find_in_flight Backend.EvCancel).
  - intros text. discriminate.
  - vm_compute. reflexivity.
  - vm_compute. reflexivity.
Defined.

Section HandlersMore.
Import Protocol Backend BackendMore.

Lemma awaiting_send m st : awaiting (send m st) = awaiting st.
Proof. unfold send. now destruct (wsOpen st). Qed.

Lemma awaiting_appendStep text st : awaiting (appendStep text st) = awaiting st.
Proof.
  unfold appendStep, sendStep. destruct (run st); [|reflexivity]. now rewrite awaiting_send.
Qed.

Lemma pendingTools_send m st : pendingTools (send m st) = pendingTools st.
Proof. unfold send. now destruct (wsOpen st). Qed.

Lemma pendingTools_appendStep text st : pendingTools (appendStep text st) = pendingTools st.
Proof.
  unfold appendStep, sendStep. destruct (run st); [|reflexivity].
  now rewrite pendingTools_send.
Qed.

Lemma dispatch_open_full st toolCallId tool stepText params uiLabel url :
  wsOpen st = true ->
  exists st',
    dispatch st toolCallId tool stepText params uiLabel url = (st', Await (nextHandle st)) /\
    pendingTools st' !! toolCallId = Some (mkPending (nextHandle st) tool) /\
    awaiting st' !! nextHandle st = Some (mkSuspended tool url) /\
    lastFindCandidates st' = lastFindCandidates st.
Proof.
  intros Hopen.
  destruct (dispatch_open st toolCallId tool stepText params uiLabel url Hopen)
    as (st' & H1 & _ & H3).
  exists st'. split; [exact H1|]. split; [exact H3|].
  pose proof (lastFind_dispatch st toolCallId tool stepText params uiLabel url) as HL.
  rewrite H1 in HL. simpl in HL. split; [|exact HL].
  unfold dispatch in H1.
  destruct (requestToolRoundTrip _ _ _ _ _) as [st1 [e|h]]; [discriminate|].
  injection H1 as <- ->. simpl. apply lookup_insert_eq.
Qed.

Lemma handler_resume_awaiting su o st :
  awaiting (fst (handler_resume su o st)) = awaiting st.
Proof.
  unfold handler_resume. destruct o; [|reflexivity].
  destruct (su_tool su); simpl; try reflexivity. now rewrite awaiting_appendStep.
Qed.

Lemma rejectAllPending_spec st id pc :
  Inv st -> pendingTools st !! id = Some pc ->
  let st' := rejectAllPending st in
  settle_count (pt_handle pc) (settled st) = 0%nat /\
  settle_count (pt_handle pc) (settled st') = 1%nat /\
  outcome_of (pt_handle pc) (settled st') = Some (Rejected "CANCELLED") /\
  timers st' !! pt_handle pc = None.
Proof.
  intros HI Hpc st'. subst st'. unfold rejectAllPending. simpl.
  pose proof HI as (Hp & Ht & _).
  destruct (Ht _ _ (Hp _ _ Hpc)) as [_ H0].
  assert (Hin : pt_handle pc ∈ pending_handles st)
    by (apply elem_of_pending_handles; eauto).
  pose proof (NoDup_pending_handles st HI) as Hnd.
  repeat split.
  - exact H0.
  - now rewrite settle_count_app, H0, settle_count_rejected_in.
  - rewrite outcome_of_app_unsettled by exact H0.
    clear -Hin. unfold outcome_of. induction (pending_handles st) as [|a l IH];
      [inversion Hin|]. simpl. destruct (Nat.eqb_spec a (pt_handle pc)); [reflexivity|].
    apply IH. apply elem_of_cons in Hin as [?|?]; [congruence | assumption].
  - now apply lookup_foldr_delete.
Qed.

Lemma find_in l id (c : Candidate) :
  List.find (fun c => String.eqb (cand_id c) id) l = Some c -> In c l /\ cand_id c = id.
Proof. intros H. apply List.find_some in H as [Hin Heq]. now apply String.eqb_eq in Heq. Qed.

Lemma find_none l id :
  (forall c : Candidate, In c l -> cand_id c <> id) ->
  List.find (fun c => String.eqb (cand_id c) id) l = None.
Proof.
  induction l as [|a l IH]; intros H; simpl; [reflexivity|].
  destruct (String.eqb_spec (cand_id a) id) as [E|E].
  - now contradiction (H a (or_introl eq_refl)).
  - apply IH. intros c Hc. apply H. now right.
Qed.

End HandlersMore.

(** X4: [browser_select_candidate] narrows the candidate list or leaves
    everything as it was.  When the list holds a candidate with the
    (trimmed) id asked for, the first such candidate becomes the whole
    list, it is returned, nothing is sent to the extension, and the
    single-candidate check passes from then on; when no candidate has
    that id the handler throws NOT_FOUND and the session is unchanged. *)
Theorem X4_select_candidate_narrows
    (st : Backend.SessionState) (args : Protocol.JValue) (toolCallId : string) :
  let id := Js.trim (Backend.getStringArg args "id") in
  (forall c,
     List.find (fun c => String.eqb (Protocol.cand_id c) id) (Backend.lastFindCandidates st)
       = Some c ->
     exists st',
       Backend.handler_start Protocol.browser_select_candidate args toolCallId st
         = (st', Backend.Return (Backend.RetSelected c)) /\
       Backend.lastFindCandidates st' = [c] /\
       In c (Backend.lastFindCandidates st) /\ Protocol.cand_id c = id /\
       Backend.tool_requests (Backend.sent st') = Backend.tool_requests (Backend.sent st) /\
       Backend.pendingTools st' = Backend.pendingTools st /\
       forall tool, Backend.targets_element tool = true ->
                    Backend.ensureSingleCandidateBeforeAction st' tool = None) /\
  ((forall c, In c (Backend.lastFindCandidates st) -> Protocol.cand_id c <> id) ->
   Backend.handler_start Protocol.browser_select_candidate args toolCallId st
     = (st, Backend.Throws "NOT_FOUND")).
Proof.
  intros id. split.
  - intros c Hfind. destruct (find_in _ _ _ Hfind) as [Hin Hid].
    unfold Backend.handler_start. fold id. rewrite Hfind.
    eexists. split; [reflexivity|].
    assert (HL : Backend.lastFindCandidates
                   (Backend.appendStep ("Selected candidate " +:+ id +:+ ": "
                                        +:+ Protocol.cand_label c)
                      (Backend.set_lastFindCandidates [c] st)) = [c])
      by now rewrite lastFind_appendStep.
    split; [exact HL|]. split; [exact Hin|]. split; [exact Hid|].
    split; [now rewrite sent_appendStep|]. split; [now rewrite pendingTools_appendStep|].
    intros tool Htool. rewrite (ensureSingle_spec _ _ Htool). now rewrite HL.
  - intros Hnone. unfold Backend.handler_start. fold id. now rewrite (find_none _ _ Hnone).
Qed.

Lemma X4_select_candidate_narrows_witness :
  (exists st',
     Backend.handler_start Protocol.browser_select_candidate (args1 "id" " cand-1 ") "call-2"
       two_candidates
     = (st', Backend.Return (Backend.RetSelected
                               (Protocol.mkCandidate "cand-1" "Search" "#q"))) /\
     Backend.lastFindCandidates st' = [Protocol.mkCandidate "cand-1" "Search" "#q"]) /\
  Backend.handler_start Protocol.browser_select_candidate (args1 "id" "cand-9") "call-5"
    two_candidates = (two_candidates, Backend.Throws "NOT_FOUND").
Proof.
  split.
  - destruct (X4_select_candidate_narrows two_candidates (args1 "id" " cand-1 ") "call-2")
      as [Hok _].
    destruct (Hok (Protocol.mkCandidate "cand-1" "Search" "#q")) as (st' & H1 & H2 & _).
    + vm_compute. reflexivity.
    + exists st'. split; assumption.
  - apply (X4_select_candidate_narrows two_candidates (args1 "id" "cand-9") "call-5").
    intros c Hc. vm_compute in Hc. destruct Hc as [<-|[<-|[]]]; vm_compute; discriminate.
Defined.

(** X5: a find brings back what the extension answered.  From a
    reachable session with an open socket, a [browser_find] with a query
    that is not blank suspends on a round trip; when the [tool_result]
    for it says ok, the handler goes on, stores exactly the well-formed
    candidates of the answer as the candidate list and returns them; when
    it says not ok, the handler throws the error code and the list stays
    as it was.  A blank query sends nothing, returns no candidates and
    leaves the session, its old candidate list included, unchanged. *)
Theorem X5_find_round_trip
    (st : Backend.SessionState) (args : Protocol.JValue) (toolCallId : string) :
  (Js.trim (Backend.getStringArg args "query") = "" ->
   Backend.handler_start Protocol.browser_find args toolCallId st
     = (st, Backend.Return (Backend.RetFind []))) /\
  (Backend.reachable st -> Backend.wsOpen st = true ->
   Js.trim (Backend.getStringArg args "query") <> "" ->
   exists st1,
     Backend.handler_start Protocol.browser_find args toolCallId st
       = (st1, Backend.Await (Backend.nextHandle st)) /\
     (forall data,
        exists st3,
          Backend.resumeHandler (Backend.nextHandle st)
            (Backend.settle toolCallId true data None st1)
          = (st3, Some (Backend.Return (Backend.RetFind (Backend.parseFindResult data)))) /\
          Backend.lastFindCandidates st3 = Backend.parseFindResult data) /\
     (forall data error,
        exists st3,
          Backend.resumeHandler (Backend.nextHandle st)
            (Backend.settle toolCallId false data error st1)
          = (st3, Some (Backend.Throws
                          (Protocol.error_string (Backend.toErrorCode error)))) /\
          Backend.lastFindCandidates st3 = Backend.lastFindCandidates st)).
Proof.
  split.
  - intros Hblank. unfold Backend.handler_start. now rewrite Hblank.
  - intros Hr Hopen Hq. apply String.eqb_neq in Hq.
    unfold Backend.handler_start. rewrite Hq.
    match goal with
    | |- context [Backend.dispatch ?s ?i ?t ?a ?b ?c ?d] =>
        destruct (dispatch_open_full s i t a b c d Hopen) as (st1 & H1 & Hp & Ha & HL);
        pose proof (Inv_dispatch s i t a b c d (reachable_Inv _ Hr)) as HI
    end.
    rewrite H1 in HI. simpl in HI. exists st1. split; [exact H1|].
    assert (Hres : forall (ok : bool) data error,
      let o := if ok then Backend.Resolved data
               else Backend.Rejected (Protocol.error_string (Backend.toErrorCode error)) in
      Backend.resumeHandler (Backend.nextHandle st) (Backend.settle toolCallId ok data error st1)
      = (let '(s, r) := Backend.handler_resume (Backend.mkSuspended Protocol.browser_find "") o
                          (Backend.set_awaiting
                             (delete (Backend.nextHandle st)
                                (Backend.awaiting (Backend.settle toolCallId ok data error st1)))
                             (Backend.settle toolCallId ok data error st1)) in (s, Some r))).
    { intros ok data error o.
      destruct (settle_present toolCallId ok data error st1 _ HI Hp)
        as (_ & _ & _ & _ & _ & Hout).
      simpl in Hout. unfold Backend.resumeHandler. rewrite Hout.
      assert (Haw : Backend.awaiting (Backend.settle toolCallId ok data error st1)
                    = Backend.awaiting st1)
        by (unfold Backend.settle; now destruct (Backend.pendingTools st1 !! toolCallId)).
      rewrite Haw, Ha. reflexivity. }
    split.
    + intros data. rewrite (Hres true data None). simpl.
      eexists. split; [reflexivity|]. now rewrite lastFind_appendStep.
    + intros data error. rewrite (Hres false data error). simpl.
      eexists. split; [reflexivity|]. simpl. now rewrite lastFind_settle.
Qed.

Lemma X5_find_round_trip_witness :
  exists st1 st3,
    Backend.handler_start Protocol.browser_find (args1 "query" "search box") "call-1"
      (Backend.steps_from (Backend.createSessionState "s1" "tok")
         [Backend.EvUserTurn (Some (Protocol.JStr "find the search box"))])
    = (st1, Backend.Await 0) /\
    fst (Backend.resumeHandler 0
           (Backend.settle "call-1" true
              (Some (BackendMore.encode_find_result
                       [Protocol.mkCandidate "cand-1" "Search" "#q"])) None st1)) = st3 /\
    Backend.lastFindCandidates st3 = [Protocol.mkCandidate "cand-1" "Search" "#q"].
Proof.
  destruct (X5_find_round_trip
              (Backend.steps_from (Backend.createSessionState "s1" "tok")
                 [Backend.EvUserTurn (Some (Protocol.JStr "find the search box"))])
              (args1 "query" "search box") "call-1") as (_ & H).
  destruct H as (st1 & H1 & Hok & _).
  - eexists _, _, _; reflexivity.
  - reflexivity.
  - vm_compute. discriminate.
  - destruct (Hok (Some (BackendMore.encode_find_result
                           [Protocol.mkCandidate "cand-1" "Search" "#q"])))
      as (st3 & H3 & HL).
    exists st1, st3. split; [exact H1|]. split; [exact (f_equal fst H3) | exact HL].
Defined.

Section FramesMore.
Import Protocol Backend BackendMore.

Lemma candidateFromUnknown_encode c : candidateFromUnknown (encode_candidate c) = Some c.
Proof. now destruct c. Qed.

Lemma omap_encode_candidates (cs : list Candidate) :
  omap candidateFromUnknown (encode_candidate <$> cs) = cs.
Proof.
  induction cs as [|[i l sl] cs IH]; [reflexivity|].
  simpl. f_equal. exact IH.
Qed.

Lemma length_omap_le {A B} (f : A -> option B) (l : list A) :
  (length (omap f l) <= length l)%nat.
Proof.
  induction l as [|a l IH]; simpl; [reflexivity|].
  destruct (f a); simpl; [apply le_n_S, IH | apply le_S, IH].
Qed.

Lemma run_flag_cancelRun st r :
  run st = Some r -> run_flag (fst (cancelRun st)) = Some true.
Proof.
  intros Hrun. unfold cancelRun. rewrite Hrun.
  match goal with |- context [hasCopilotSession ?s] => destruct (hasCopilotSession s) end;
    [reflexivity|].
  unfold cancelRun_resume, sendFinal, send, run_flag. simpl.
  destruct (finalSent r); simpl; [reflexivity|]. now destruct (wsOpen st).
Qed.

Lemma cancel_completed st r :
  run st = Some r -> wsOpen st = true -> hasCopilotSession st = true ->
  let st2 := fst (cancelRun_resume (fst (cancelRun st))) in
  run st2 = Some (mkRun true true (steps r)) /\
  hasCopilotSession st2 = true /\ wsOpen st2 = true.
Proof.
  intros Hrun Hopen Hcop. unfold cancelRun. rewrite Hrun. simpl. rewrite Hcop. simpl.
  unfold cancelRun_resume, sendFinal, send. simpl. rewrite Hopen.
  destruct (finalSent r) eqn:Ef; simpl; rewrite ?Ef; auto.
Qed.

Lemma set_sessions_insert_same srv sid st :
  sessions srv !! sid = Some st -> set_sessions (<[sid := st]> (sessions srv)) srv = srv.
Proof. intros H. rewrite insert_id by exact H. now destruct srv. Qed.

End FramesMore.

(** X7: the answer of a find survives the parse.  [parseFindResult]
    gives back, in order, exactly the candidates of an answer written as
    [{ candidates: [{ id, label, selector }, ...] }]; an item that is not
    such an object is left out and the others kept; the result never has
    more candidates than the answer has items; and data that is no object
    at all gives no candidates. *)
Theorem X7_parseFindResult_round_trip :
  (forall cs,
     Backend.parseFindResult (Some (BackendMore.encode_find_result cs)) = cs) /\
  (forall cs1 junk cs2,
     Backend.candidateFromUnknown junk = None ->
     Backend.parseFindResult
       (Some (Protocol.JObj
                [("candidates",
                  Protocol.JArr ((BackendMore.encode_candidate <$> cs1)
                                 ++ junk :: (BackendMore.encode_candidate <$> cs2)))]))
     = cs1 ++ cs2) /\
  (forall items,
     (length (Backend.parseFindResult
                (Some (Protocol.JObj [("candidates", Protocol.JArr items)])))
      <= length items)%nat) /\
  (forall data,
     (forall members, data <> Some (Protocol.JObj members)) ->
     Backend.parseFindResult data = []).
Proof.
  split; [|split; [|split]].
  - intros cs. unfold Backend.parseFindResult, BackendMore.encode_find_result. simpl.
    apply omap_encode_candidates.
  - intros cs1 junk cs2 Hjunk. unfold Backend.parseFindResult. simpl.
    rewrite omap_app. simpl. rewrite Hjunk. now rewrite !omap_encode_candidates.
  - intros items. unfold Backend.parseFindResult. simpl. apply length_omap_le.
  - intros data Hno. unfold Backend.parseFindResult.
    destruct data as [[| | | | |members]|]; try reflexivity.
    now contradiction (Hno members).
Qed.

Lemma X7_parseFindResult_round_trip_witness :
  Backend.parseFindResult
    (Some (Protocol.JObj
             [("candidates",
               Protocol.JArr [candidate_json "cand-1" "Search" "#q";
                              Protocol.JStr "noise";
                              candidate_json "cand-2" "Go" "button.go"])]))
  = [Protocol.mkCandidate "cand-1" "Search" "#q";
     Protocol.mkCandidate "cand-2" "Go" "button.go"].
Proof.
  destruct X7_parseFindResult_round_trip as (_ & H & _).
  apply (H [Protocol.mkCandidate "cand-1" "Search" "#q"] (Protocol.JStr "noise")
           [Protocol.mkCandidate "cand-2" "Go" "button.go"]).
  reflexivity.
Defined.

(** X8: after a cancel nothing more of the turn is shown.  Once
    [cancelRun] has run on a session with a run, the run is cancelled,
    and from that state the keep-alive tick, a text delta of the driver,
    and a tool event of the driver all leave the session untouched; a
    [user_approval] frame for the session is dropped by the router
    without a step being logged. *)
Theorem X8_cancel_silences_the_turn (st : Backend.SessionState) (r : Backend.RunContext) :
  Backend.run st = Some r ->
  let st' := fst (Backend.cancelRun st) in
  Backend.run_flag st' = Some true /\
  Backend.keepAlive st' = st' /\
  (forall delta, Backend.onMessageDelta delta st' = st') /\
  (forall s, Backend.onToolEvent s st' = st') /\
  (forall srv sid body,
     Backend.sessions srv !! sid = Some st' ->
     Backend.routeMessage
       (Backend.mkEnvelope "user_approval" sid (Backend.pairingToken srv) body) srv
     = (srv, Backend.NoSuchSession sid)).
Proof.
  intros Hrun st'. pose proof (run_flag_cancelRun st r Hrun) as Hflag. fold st' in Hflag.
  split; [exact Hflag|]. unfold Backend.run_flag in Hflag.
  destruct (Backend.run st') as [r'|] eqn:Er; [|discriminate].
  injection Hflag as Hc.
  split; [|split; [|split]].
  - unfold Backend.keepAlive. now rewrite Er, Hc.
  - intros delta. unfold Backend.onMessageDelta. now rewrite Er, Hc.
  - intros s. unfold Backend.onToolEvent. now rewrite Er, Hc.
  - intros srv sid body Hs. unfold Backend.routeMessage. simpl.
    rewrite String.eqb_refl. simpl. now rewrite Hs, Er, Hc.
Qed.

Lemma X8_cancel_silences_the_turn_witness :
  Backend.keepAlive (fst (Backend.cancelRun find_in_flight))
  = fst (Backend.cancelRun find_in_flight).
Proof.
  apply (X8_cancel_silences_the_turn find_in_flight
           (Backend.mkRun false false
              ["Started run"; "Finding elements for " +:+ Backend.dquote +:+ "search box"
                              +:+ Backend.dquote])).
  vm_compute. reflexivity.
Defined.

(** X9: a cancel that ran to its end leaves exactly one final answer
    for the turn, whatever comes after.  On an open socket, when
    [cancelRun] and its continuation have run with nothing in between,
    the final answers sent are those of before plus "Cancelled by user."
    (nothing more if a final answer had been sent); and from then on the
    end of the driver call, with or without an error, and a second cancel
    with its continuation send nothing at all. *)
Theorem X9_one_final_after_cancel (st : Backend.SessionState) (r : Backend.RunContext) :
  Backend.run st = Some r ->
  Backend.wsOpen st = true ->
  Backend.hasCopilotSession st = true ->
  let st2 := fst (Backend.cancelRun_resume (fst (Backend.cancelRun st))) in
  Backend.finals (Backend.sent st2)
  = Backend.finals (Backend.sent st)
    ++ (if Backend.finalSent r then [] else ["Cancelled by user."]) /\
  (forall content, Backend.sent (Backend.handleUserMessage_done content st2)
                   = Backend.sent st2) /\
  (forall message, Backend.sent (Backend.handleUserMessage_failed message st2)
                   = Backend.sent st2) /\
  Backend.sent (fst (Backend.cancelRun_resume (fst (Backend.cancelRun st2))))
  = Backend.sent st2.
Proof.
  intros Hrun Hopen Hcop st2.
  destruct (cancelRun_uninterrupted st r Hrun Hopen Hcop) as (_ & _ & Hfin).
  destruct (cancel_completed st r Hrun Hopen Hcop) as (Hrun2 & Hcop2 & Hopen2).
  fold st2 in Hfin, Hrun2, Hcop2, Hopen2.
  split; [exact Hfin|]. split; [|split].
  - intros content. unfold Backend.handleUserMessage_done. now rewrite Hrun2.
  - intros message. unfold Backend.handleUserMessage_failed. now rewrite Hrun2.
  - unfold Backend.cancelRun. rewrite Hrun2. simpl. rewrite Hcop2. simpl.
    unfold Backend.cancelRun_resume. simpl. reflexivity.
Qed.

Lemma X9_one_final_after_cancel_witness :
  Backend.finals
    (Backend.sent (fst (Backend.cancelRun_resume (fst (Backend.cancelRun find_in_flight)))))
  = ["Cancelled by user."].
Proof.
  apply (X9_one_final_after_cancel find_in_flight
           (Backend.mkRun false false
              ["Started run"; "Finding elements for " +:+ Backend.dquote +:+ "search box"
                              +:+ Backend.dquote])); reflexivity.
Defined.

(** X11: tearing a session down settles what it left open and makes it
    unreachable.  After [teardownSession] on a reachable session, the
    registry has no session under its id while every other session is
    kept; the pending map is empty and every call that was pending is
    rejected with CANCELLED, once, its timer cleared; a [tool_result] for
    the id of the session changes nothing, and a cancel frame for it
    finds no session. *)
Theorem X11_teardown_settles_and_forgets
    (st : Backend.SessionState) (srv : Backend.Server) :
  Backend.reachable st ->
  let srv' := fst (BackendMore.teardownSession st srv) in
  let st' := snd (BackendMore.teardownSession st srv) in
  Backend.sessions srv' !! Backend.sessionId st = None /\
  (forall sid, sid <> Backend.sessionId st ->
     Backend.sessions srv' !! sid = Backend.sessions srv !! sid) /\
  Backend.pendingTools st' = ∅ /\
  (forall id pc, Backend.pendingTools st !! id = Some pc ->
     Backend.settle_count (Backend.pt_handle pc) (Backend.settled st) = 0%nat /\
     Backend.settle_count (Backend.pt_handle pc) (Backend.settled st') = 1%nat /\
     Backend.outcome_of (Backend.pt_handle pc) (Backend.settled st')
       = Some (Backend.Rejected "CANCELLED") /\
     Backend.timers st' !! Backend.pt_handle pc = None) /\
  (forall id ok data error,
     Backend.onToolResult (Backend.sessionId st) id ok data error srv' = srv') /\
  (forall body,
     Backend.routeMessage
       (Backend.mkEnvelope "cancel" (Backend.sessionId st) (Backend.pairingToken srv') body)
       srv'
     = (srv', Backend.NoSuchSession (Backend.sessionId st))).
Proof.
  intros Hr srv' st'. pose proof (reachable_Inv _ Hr) as HI.
  assert (Hgone : Backend.sessions srv' !! Backend.sessionId st = None)
    by (subst srv'; simpl; apply lookup_delete_eq).
  split; [exact Hgone|]. split; [|split; [|split; [|split]]].
  - intros sid Hne. subst srv'. simpl. now apply lookup_delete_ne.
  - reflexivity.
  - intros id pc Hpc. apply (rejectAllPending_spec st id pc HI Hpc).
  - intros id ok data error. unfold Backend.onToolResult. now rewrite Hgone.
  - intros body. clearbody srv'. unfold Backend.routeMessage. simpl.
    rewrite String.eqb_refl. simpl. now rewrite Hgone.
Qed.

Lemma X11_teardown_settles_and_forgets_witness :
  Backend.sessions (fst (BackendMore.teardownSession find_in_flight server1)) !! "s1" = None /\
  Backend.outcome_of 0
    (Backend.settled (snd (BackendMore.teardownSession find_in_flight server1)))
  = Some (Backend.Rejected "CANCELLED").
Proof.
  assert (Hr : Backend.reachable find_in_flight) by (eexists _, _, _; reflexivity).
  destruct (X11_teardown_settles_and_forgets find_in_flight server1 Hr)
    as (H1 & _ & _ & H4 & _).
  split; [exact H1|].
  destruct (H4 "call-1" (Backend.mkPending 0 Protocol.browser_find)) as (_ & _ & H & _).
  - vm_compute. reflexivity.
  - exact H.
Defined.

(** X12: the backend understands every frame the extension writes.  A
    frame built by the extension is accepted by [normalizeMessage] with
    its own type, session id and token.  With the pairing token, a
    [tool_result] frame does to the registry exactly what [onToolResult]
    does with its action id, ok flag, data and error; a cancel frame runs
    [cancelRun] on the session of its id; a [user_approval] frame logs
    the step "User approved (or rejected) action <id>" in a session whose
    run is not cancelled and is dropped otherwise; a [user_message] frame
    finds the session of its id, or creates it, binds it to the socket
    and the token of the frame and queues the turn with its text (and
    does nothing when the session cannot be created).  With any other
    token the frame closes the channel and changes nothing. *)
Theorem X12_extension_frames_are_routed
    (m : Protocol.ExtensionToBackend) (srv : Backend.Server) :
  Backend.normalizeMessage (Some (BackendMore.encode m))
  = Some (Backend.mkEnvelope (BackendMore.frame_type m) (BackendMore.frame_sessionId m)
            (BackendMore.frame_token m) (BackendMore.encode m)) /\
  (BackendMore.frame_token m <> Backend.pairingToken srv ->
   Backend.onSocketMessage (Some (BackendMore.encode m)) srv
   = (srv, Backend.ClosedInvalidToken)) /\
  (BackendMore.frame_token m = Backend.pairingToken srv ->
   match m with
   | Protocol.ToolResult sid _ actionId ok data error =>
       Backend.onSocketMessage (Some (BackendMore.encode m)) srv
       = (Backend.onToolResult sid actionId ok data error srv, Backend.ToToolResult sid)
   | Protocol.Cancel sid _ =>
       Backend.onSocketMessage (Some (BackendMore.encode m)) srv
       = match Backend.sessions srv !! sid with
         | None => (srv, Backend.NoSuchSession sid)
         | Some st =>
             (Backend.set_sessions
                (<[sid := fst (Backend.cancelRun st)]> (Backend.sessions srv)) srv,
              Backend.ToCancel sid (snd (Backend.cancelRun st)))
         end
   | Protocol.UserMessage sid tok text =>
       Backend.onSocketMessage (Some (BackendMore.encode m)) srv
       = match Backend.getSessionState sid tok srv with
         | Some st =>
             (Backend.set_sessions (<[sid := st]> (Backend.sessions srv)) srv,
              Backend.ToUserMessage sid (Some (Protocol.JStr text)))
         | None => (srv, Backend.CreateSessionFailed sid)
         end
   | Protocol.UserApproval sid _ actionId approved =>
       Backend.onSocketMessage (Some (BackendMore.encode m)) srv
       = match Backend.sessions srv !! sid with
         | None => (srv, Backend.NoSuchSession sid)
         | Some st =>
             match Backend.run st with
             | None => (srv, Backend.NoSuchSession sid)
             | Some r =>
                 if Backend.cancelled r then (srv, Backend.NoSuchSession sid)
                 else
                   (Backend.set_sessions
                      (<[sid := Backend.appendStep
                                  ("User " +:+ (if approved then "approved" else "rejected")
                                   +:+ " action " +:+ actionId) st]>
                         (Backend.sessions srv)) srv,
                    Backend.ToUserApproval sid)
             end
         end
   end).
Proof.
  split; [now destruct m|]. split.
  - intros Htok. apply String.eqb_neq in Htok.
    unfold Backend.onSocketMessage, Backend.routeMessage.
    destruct m; simpl in *; now rewrite Htok.
  - intros Htok. unfold Backend.onSocketMessage, Backend.routeMessage.
    destruct m as [sid tok text|sid tok actionId approved|sid tok|sid tok actionId ok data error];
      simpl in *; subst tok; rewrite String.eqb_refl; simpl.
    + reflexivity.
    + destruct (Backend.sessions srv !! sid) as [st|]; [|reflexivity].
      destruct (Backend.run st) as [r|]; [|reflexivity].
      destruct (Backend.cancelled r); [reflexivity|]. now destruct approved.
    + destruct (Backend.sessions srv !! sid) as [st|]; [|reflexivity].
      now destruct (Backend.cancelRun st).
    + destruct data as [d|], error as [e|], ok; reflexivity.
Qed.

(** The denial of the extension, sent to a backend where the call is
    pending. *)
Lemma X12_extension_frames_are_routed_witness :
  Backend.onSocketMessage
    (Some (BackendMore.encode
             (Protocol.ToolResult "s1" "tok" "call-1" false None (Some "PERMISSION_DENIED"))))
    server1
  = (Backend.onToolResult "s1" "call-1" false None (Some "PERMISSION_DENIED") server1,
     Backend.ToToolResult "s1").
Proof.
  destruct (X12_extension_frames_are_routed
              (Protocol.ToolResult "s1" "tok" "call-1" false None (Some "PERMISSION_DENIED"))
              server1) as (_ & _ & H).
  apply H. reflexivity.
Defined.



Section RoundTrips.
Import Protocol Backend BackendMore.

Lemma handler_start_await tool args toolCallId st st1 h :
  handler_start tool args toolCallId st = (st1, Await h) ->
  exists stepText params uiLabel url,
    dispatch st toolCallId tool stepText params uiLabel url = (st1, Await h).
Proof.
  unfold handler_start. destruct tool; cbv zeta;
    repeat match goal with
           | |- context [ensureSingleCandidateBeforeAction st ?t] =>
               destruct (ensureSingleCandidateBeforeAction st t)
           | |- context [if String.eqb ?x "" then (_, _) else _] =>
               destruct (String.eqb x "")
           | |- context [List.find ?f ?l] => destruct (List.find f l)
           end; try discriminate; eauto.
Qed.

Lemma dispatch_await st toolCallId tool stepText params uiLabel url st1 h :
  dispatch st toolCallId tool stepText params uiLabel url = (st1, Await h) ->
  wsOpen st = true.
Proof.
  unfold dispatch, requestToolRoundTrip. rewrite wsOpen_appendStep.
  destruct (wsOpen st); [reflexivity | discriminate].
Qed.

Lemma awaiting_settle actionId ok data error st :
  awaiting (settle actionId ok data error st) = awaiting st.
Proof. unfold settle. now destruct (pendingTools st !! actionId). Qed.

Lemma awaiting_timerFires h st : awaiting (timerFires h st) = awaiting st.
Proof. unfold timerFires. now destruct (timers st !! h). Qed.

End RoundTrips.

(** X14: what a round trip gives back to the driver.  When a tool
    handler, called in a reachable session, suspends on a round trip,
    the socket was open, one [tool_request] for its call id was sent and
    the candidate list is as before.  If the extension then answers with
    a failure, the handler throws the (normalized) error code, and if the
    deadline passes first it throws TIMEOUT; either way the candidate
    list is as it was before the call, also for a navigation.  If the
    extension answers ok, the handler returns: highlight, click and type
    return [{ ok: true }] whatever the data and leave the list, a
    navigation empties the list, a find stores what [parseFindResult]
    reads from the data. *)
Theorem X14_round_trip_outcomes
    (st st1 : Backend.SessionState) (tool : Protocol.ToolName) (args : Protocol.JValue)
    (toolCallId : string) (h : nat) :
  Backend.reachable st ->
  Backend.handler_start tool args toolCallId st = (st1, Backend.Await h) ->
  h = Backend.nextHandle st /\ Backend.wsOpen st = true /\
  Backend.tool_requests (Backend.sent st1)
  = Backend.tool_requests (Backend.sent st) ++ [(toolCallId, tool)] /\
  Backend.lastFindCandidates st1 = Backend.lastFindCandidates st /\
  (forall data error,
     exists st3,
       Backend.resumeHandler h (Backend.settle toolCallId false data error st1)
       = (st3, Some (Backend.Throws (Protocol.error_string (Backend.toErrorCode error)))) /\
       Backend.lastFindCandidates st3 = Backend.lastFindCandidates st) /\
  (exists st3,
     Backend.resumeHandler h (Backend.timerFires h st1)
     = (st3, Some (Backend.Throws "TIMEOUT")) /\
     Backend.lastFindCandidates st3 = Backend.lastFindCandidates st /\
     Backend.pendingTools st3 !! toolCallId = None) /\
  (forall data,
     exists st3 r,
       Backend.resumeHandler h (Backend.settle toolCallId true data None st1)
       = (st3, Some (Backend.Return r)) /\
       Backend.lastFindCandidates st3
       = match tool with
         | Protocol.browser_navigate => []
         | Protocol.browser_find => Backend.parseFindResult data
         | _ => Backend.lastFindCandidates st
         end /\
       (Backend.targets_element tool = true -> r = Backend.RetOk)).
Proof.
  intros Hr Hstart.
  destruct (handler_start_await _ _ _ _ _ _ Hstart) as (stepText & params & uiLabel & url & Hd).
  pose proof (dispatch_await _ _ _ _ _ _ _ _ _ Hd) as Hopen.
  destruct (dispatch_open_full st toolCallId tool stepText params uiLabel url Hopen)
    as (st' & H1 & Hp & Ha & HL).
  destruct (dispatch_open st toolCallId tool stepText params uiLabel url Hopen)
    as (st'' & H1' & Hreq & _).
  pose proof (Inv_dispatch st toolCallId tool stepText params uiLabel url
                (reachable_Inv _ Hr)) as HI.
  rewrite Hd in H1, H1', HI. injection H1 as <- ->. injection H1' as <-.
  cbn [fst] in HI.
  split; [reflexivity|]. split; [exact Hopen|]. split; [exact Hreq|]. split; [exact HL|].
  assert (Hres : forall (ok : bool) data error,
    let o := if ok then Backend.Resolved data
             else Backend.Rejected (Protocol.error_string (Backend.toErrorCode error)) in
    Backend.resumeHandler (Backend.nextHandle st)
      (Backend.settle toolCallId ok data error st1)
    = (let '(s, r) := Backend.handler_resume (Backend.mkSuspended tool url) o
                        (Backend.set_awaiting
                           (delete (Backend.nextHandle st) (Backend.awaiting st1))
                           (Backend.settle toolCallId ok data error st1)) in (s, Some r))).
  { intros ok data error o.
    destruct (settle_present toolCallId ok data error st1 _ HI Hp)
      as (_ & _ & _ & _ & _ & Hout).
    cbn [Backend.pt_handle] in Hout. unfold Backend.resumeHandler.
    rewrite Hout, awaiting_settle, Ha. reflexivity. }
  split; [|split].
  - intros data error. rewrite (Hres false data error). cbn.
    eexists. split; [reflexivity|]. cbn. now rewrite lastFind_settle.
  - destruct HI as (Hpend & Htim & Hrest).
    pose proof (Hpend _ _ Hp) as Htm. cbn [Backend.pt_handle Backend.pt_tool] in Htm.
    destruct (timerFires_armed _ _ st1 (conj Hpend (conj Htim Hrest)) Htm)
      as (Hgone & _ & _ & _ & Hout).
    cbn [Backend.tm_actionId] in Hgone.
    unfold Backend.resumeHandler. rewrite Hout, awaiting_timerFires, Ha. cbn.
    eexists. split; [reflexivity|]. cbn.
    split; [now rewrite lastFind_timerFires | exact Hgone].
  - intros data. rewrite (Hres true data None).
    unfold Backend.handler_resume. cbn [Backend.su_tool Backend.su_url].
    destruct tool; cbn; eexists _, _; (split; [reflexivity|]);
      (split; [rewrite ?lastFind_appendStep; cbn; rewrite ?lastFind_settle;
               first [reflexivity | exact HL]
              | first [discriminate | reflexivity]]).
Qed.

(** The click of scenario D after the selection: answered NOT_FOUND by
    the extension, the handler throws NOT_FOUND and the one candidate
    stays. *)
Lemma X14_round_trip_outcomes_witness :
  exists st1 st3,
    Backend.handler_start Protocol.browser_click (args1 "selector" "#q") "call-3"
      one_candidate = (st1, Backend.Await 1) /\
    Backend.resumeHandler 1
      (Backend.settle "call-3" false None (Some "NOT_FOUND") st1)
    = (st3, Some (Backend.Throws "NOT_FOUND")) /\
    Backend.lastFindCandidates st3 = [Protocol.mkCandidate "cand-1" "Search" "#q"].
Proof.
  destruct (Backend.handler_start Protocol.browser_click (args1 "selector" "#q") "call-3"
              one_candidate) as [st1 r] eqn:Hs.
  assert (Hr : r = Backend.Await 1) by (apply (f_equal snd) in Hs; vm_compute in Hs; congruence).
  subst r.
  destruct (X14_round_trip_outcomes one_candidate st1 Protocol.browser_click
              (args1 "selector" "#q") "call-3" 1) as (_ & _ & _ & _ & Hfail & _).
  - exists "s1", "tok",
      [Backend.EvUserTurn (Some (Protocol.JStr "find the search box"));
       Backend.EvToolCall Protocol.browser_find (args1 "query" "search box") "call-1";
       Backend.EvToolResult "call-1" true
         (Some (Protocol.JObj
                  [("candidates",
                    Protocol.JArr [candidate_json "cand-1" "Search" "#q";
                                   candidate_json "cand-2" "Search" "button.go"])]))
         None;
       Backend.EvResume 0;
       Backend.EvToolCall Protocol.browser_select_candidate (args1 "id" "cand-1") "call-2"].
    vm_compute. reflexivity.
  - exact Hs.
  - destruct (Hfail None (Some "NOT_FOUND")) as (st3 & H3 & HL).
    exists st1, st3. split; [reflexivity|]. split; [exact H3|].
    rewrite HL. vm_compute. reflexivity.
Defined.

(* ===================================================================== *)
(** * More properties of the service worker *)
(* ===================================================================== *)

Section WorkerMore.
Import Protocol Ext.
Variable browser : Browser.

Lemma sendTool_spec (payload : PageCommand) (st : State) :
  exists out r,
    sendToolMessageToActiveTab browser payload st = (st, out, r) /\
    Forall (fun e => e = TabsSendMessage payload \/ e = ExecuteScript) out /\
    (length (List.filter is_page_message out) <= 2)%nat /\
    (forall e, r = Throw e ->
       e = "NO_ACTIVE_TAB" \/ e = "PERMISSION_DENIED" \/ e = "EXTENSION_NOT_READY") /\
    (r = Throw "NO_ACTIVE_TAB" -> out = []).
Proof.
  unfold sendToolMessageToActiveTab.
  destruct (activeTab browser) as [tab|];
    [|do 2 eexists; split; [reflexivity|];
      repeat split; [constructor | simpl; lia | intros e [= <-]; tauto]].
  destruct (tab_id tab);
    [|do 2 eexists; split; [reflexivity|];
      repeat split; [constructor | simpl; lia | intros e [= <-]; tauto]].
  destruct (isRestrictedUrl (tab_url tab));
    [do 2 eexists; split; [reflexivity|];
      repeat split; [constructor | simpl; lia | intros e [= <-]; tauto]|].
  unfold try_catch, mbind, M_bind, bind, emit, unwrapResponse, ret, throw.
  destruct (firstReply browser payload) as [[r|]|e];
    try destruct (resp_ok r); destruct (injectOk browser);
    destruct (retryReply browser payload) as [[r'|]|e'];
    try destruct (resp_ok r');
    try destruct (Js.includes "Cannot access" _);
    simpl; do 2 eexists; (split; [reflexivity|]);
    (repeat split;
     [ repeat (constructor; [first [left; reflexivity | right; reflexivity]|]); constructor
     | simpl; lia
     | intros e0 [=]; subst; tauto
     | intros [=] ]).
Qed.

Lemma page_effect_hud (message : string) (out : list Effect) :
  Forall (fun e => e = TabsSendMessage (CmdHud message) \/ e = ExecuteScript) out ->
  Forall (fun e => ExtMore.page_effect e = true) out /\
  List.filter acts_on_page out = [] /\
  List.filter sends_tool_result out = [].
Proof.
  induction 1 as [|e out [-> | ->] _ (IH1 & IH2 & IH3)]; simpl;
    repeat split; try constructor; auto.
Qed.

Lemma page_effect_quiet (out : list Effect) :
  Forall (fun e => ExtMore.page_effect e = true) out ->
  List.filter sends_tool_result out = [] /\
  Forall (fun e => forall a, e <> BroadcastApprovalNeeded a) out /\
  Forall (fun e => forall m, e <> SendBackend m) out.
Proof.
  induction 1 as [|e out He _ (IH1 & IH2 & IH3)]; simpl; [repeat split; constructor|].
  destruct e; simpl in *; try discriminate;
    (repeat split; [exact IH1 | constructor; [congruence | exact IH2]
                   | constructor; [congruence | exact IH3]]).
Qed.

Lemma withTimeout_spec {A} (elapsed timeout : Z) (promise : M A) st out r :
  promise st = (st, out, r) ->
  withTimeout elapsed promise timeout st
  = (st, out, if timeout <=? elapsed then Throw "TIMEOUT" else r).
Proof.
  intros H. unfold withTimeout, try_catch, mbind, M_bind, bind, ret, throw.
  rewrite H. destruct r; simpl; destruct (timeout <=? elapsed);
    now rewrite ?app_nil_r.
Qed.

Lemma navigateActiveTab_spec (url : string) (timeout : Z) (st : State) :
  exists out r,
    navigateActiveTab browser url timeout st = (st, out, r) /\
    Forall (fun e => ExtMore.page_effect e = true) out /\
    (forall e, r = Throw e -> ExtMore.worker_code e).
Proof.
  unfold navigateActiveTab, ExtMore.worker_code.
  destruct (activeTab browser) as [tab|];
    [|do 2 eexists; split; [reflexivity|]; split; [constructor | intros e [= <-]; tauto]].
  destruct (tab_id tab);
    [|do 2 eexists; split; [reflexivity|]; split; [constructor | intros e [= <-]; tauto]].
  destruct (_ || _)%bool;
    [do 2 eexists; split; [reflexivity|]; split; [constructor | intros e [= <-]; tauto]|].
  unfold mbind, M_bind, bind, emit, ret, throw.
  destruct (tabLoadMs browser _) as [t|]; [destruct (t <? timeout)|];
    do 2 eexists; (split; [reflexivity|]); (split; [repeat constructor|]);
    intros e [=]; subst; tauto.
Qed.

Lemma runTool_spec (request : ToolRequest) (timeout : Z) (st : State) :
  exists out r,
    runTool browser request timeout st = (st, out, r) /\
    Forall (fun e => ExtMore.page_effect e = true) out /\
    (forall e, r = Throw e -> ExtMore.worker_code e).
Proof.
  assert (Hsend : forall cmd,
    exists out r,
      withTimeout (elapsedMs browser cmd) (sendToolMessageToActiveTab browser cmd) timeout st
      = (st, out, r) /\
      Forall (fun e => ExtMore.page_effect e = true) out /\
      (forall e, r = Throw e -> ExtMore.worker_code e)).
  { intros cmd.
    destruct (sendTool_spec cmd st) as (out & r & H & Hall & _ & Herr & _).
    do 2 eexists. split; [exact (withTimeout_spec _ _ _ _ _ _ H)|]. split.
    - eapply Forall_impl; [exact Hall|]. now intros e [-> | ->].
    - unfold ExtMore.worker_code. destruct (timeout <=? _).
      + intros e [= <-]. tauto.
      + intros e He. destruct (Herr e He) as [-> | [-> | ->]]; tauto. }
  unfold runTool.
  destruct (String.eqb (tool request) "browser_find"); [apply Hsend|].
  destruct (String.eqb (tool request) "browser_navigate").
  { destruct (navigateActiveTab_spec (param request "url") timeout st)
      as (out & r & H & Hall & Herr).
    do 2 eexists. split; [exact (withTimeout_spec _ _ _ _ _ _ H)|]. split; [exact Hall|].
    destruct (timeout <=? 0); [|exact Herr].
    intros e [= <-]. unfold ExtMore.worker_code. tauto. }
  destruct (String.eqb (tool request) "browser_highlight"); [apply Hsend|].
  destruct (String.eqb (tool request) "browser_click"); [apply Hsend|].
  destruct (String.eqb (tool request) "browser_type"); [apply Hsend|].
  do 2 eexists. split; [reflexivity|]. split; [constructor|].
  intros e [= <-]. unfold ExtMore.worker_code. tauto.
Qed.

Lemma normalizeErrorCode_worker (e : string) :
  ExtMore.worker_code e -> normalizeErrorCode e = e.
Proof. intros [-> | [-> | [-> | ->]]]; reflexivity. Qed.

Lemma executeToolRequest_open (request : ToolRequest) (st : State) :
  socketOpen browser = true ->
  exists out (ok : bool) data err tail_,
    executeToolRequest browser request st =
      (ExtMore.after_execute request st,
       out ++ [SendBackend (ToolResult (sessionId st) (token st) (actionId request)
                              ok data err)] ++ tail_,
       Ok tt) /\
    Forall (fun e => ExtMore.page_effect e = true) out /\
    (tail_ = [] \/ tail_ = [BroadcastState None]) /\
    ((ok = true /\ err = None) \/
     (ok = false /\ data = None /\ exists c, err = Some c /\ ExtMore.worker_code c)).
Proof.
  intros Hopen.
  destruct (runTool_spec request
              (Z.min (if timeoutMs request =? 0 then TOOL_TIMEOUT_MS else timeoutMs request)
                 120000) st) as (out1 & r1 & H1 & Hq1 & Herr).
  unfold executeToolRequest, try_finally, try_catch, mbind, M_bind, bind.
  cbv zeta. rewrite H1. destruct r1 as [d|e].
  - destruct (updateHud_spec browser "Done" st) as (hud & Hh & Hall).
    rewrite Hh. unfold get, sendToBackend. rewrite Hopen. unfold emit, modify, ret.
    cbn [negb].
    unfold ExtMore.after_execute. cbn [pendingAction set_pendingToolRequests].
    destruct (pendingAction st) as [a|];
      [destruct (String.eqb (pa_actionId a) (actionId request))|];
      unfold broadcastState, mbind, M_bind, bind, get, emit, modify;
      cbn [pendingAction set_pendingAction];
      exists (out1 ++ hud), true, d, None;
      [exists [BroadcastState None] | exists [] | exists []];
      (split; [simpl; now rewrite ?app_nil_r, <- ?app_assoc|]);
      (split; [apply Forall_app; split;
               [exact Hq1 | exact (proj1 (page_effect_hud _ _ Hall))]|]);
      (split; [tauto|]); left; split; reflexivity.
  - pose proof (Herr e eq_refl) as Hc.
    rewrite (normalizeErrorCode_worker e Hc).
    destruct (updateHud_spec browser ("Failed: " +:+ e) st) as (hud & Hh & Hall).
    rewrite Hh. unfold get, sendToBackend. rewrite Hopen. unfold emit, modify, ret.
    cbn [negb].
    unfold ExtMore.after_execute. cbn [pendingAction set_pendingToolRequests].
    destruct (pendingAction st) as [a|];
      [destruct (String.eqb (pa_actionId a) (actionId request))|];
      unfold broadcastState, mbind, M_bind, bind, get, emit, modify;
      cbn [pendingAction set_pendingAction];
      exists (out1 ++ hud), false, None, (Some e);
      [exists [BroadcastState None] | exists [] | exists []];
      (split; [simpl; now rewrite ?app_nil_r, <- ?app_assoc|]);
      (split; [apply Forall_app; split;
               [exact Hq1 | exact (proj1 (page_effect_hud _ _ Hall))]|]);
      (split; [tauto|]); right; (split; [reflexivity|]); (split; [reflexivity|]);
      exists e; (split; [reflexivity | exact Hc]).
Qed.

Lemma executeToolRequest_closed (request : ToolRequest) (st : State) :
  socketOpen browser = false ->
  exists out,
    executeToolRequest browser request st =
      (ExtMore.after_execute request st, out, Throw "EXTENSION_NOT_READY") /\
    List.filter ExtMore.sends_backend out = [].
Proof.
  intros Hopen.
  assert (Hflt : forall l, Forall (fun e => ExtMore.page_effect e = true) l ->
                           List.filter ExtMore.sends_backend l = []).
  { induction 1 as [|e l He _ IH]; [reflexivity|]. now destruct e. }
  destruct (runTool_spec request
              (Z.min (if timeoutMs request =? 0 then TOOL_TIMEOUT_MS else timeoutMs request)
                 120000) st) as (out1 & r1 & H1 & Hq1 & Herr).
  unfold executeToolRequest, try_finally, try_catch, mbind, M_bind, bind.
  cbv zeta. rewrite H1. destruct r1 as [d|e].
  - destruct (updateHud_spec browser "Done" st) as (hud & Hh & Hall).
    destruct (updateHud_spec browser ("Failed: " +:+ normalizeErrorCode "EXTENSION_NOT_READY") st)
      as (hud2 & Hh2 & Hall2).
    rewrite Hh. unfold get, sendToBackend. rewrite Hopen. unfold throw, modify, ret.
    cbn [negb]. rewrite Hh2.
    unfold ExtMore.after_execute. cbn [pendingAction set_pendingToolRequests].
    destruct (pendingAction st) as [a|];
      [destruct (String.eqb (pa_actionId a) (actionId request))|];
      unfold broadcastState, mbind, M_bind, bind, get, emit, modify;
      cbn [pendingAction set_pendingAction];
      eexists; (split; [reflexivity|]);
      rewrite !List.filter_app, (Hflt _ Hq1),
        (Hflt _ (proj1 (page_effect_hud _ _ Hall))),
        (Hflt _ (proj1 (page_effect_hud _ _ Hall2))); reflexivity.
  - destruct (updateHud_spec browser ("Failed: " +:+ normalizeErrorCode e) st)
      as (hud & Hh & Hall).
    rewrite Hh. unfold get, sendToBackend. rewrite Hopen. unfold throw, modify, ret.
    cbn [negb].
    unfold ExtMore.after_execute. cbn [pendingAction set_pendingToolRequests].
    destruct (pendingAction st) as [a|];
      [destruct (String.eqb (pa_actionId a) (actionId request))|];
      unfold broadcastState, mbind, M_bind, bind, get, emit, modify;
      cbn [pendingAction set_pendingAction];
      eexists; (split; [reflexivity|]);
      rewrite !List.filter_app, (Hflt _ Hq1),
        (Hflt _ (proj1 (page_effect_hud _ _ Hall))); reflexivity.
Qed.

Lemma filter_result_execute (out tail_ : list Effect) (m : ExtensionToBackend) :
  Forall (fun e => ExtMore.page_effect e = true) out ->
  tail_ = [] \/ tail_ = [BroadcastState None] ->
  sends_tool_result (SendBackend m) = true ->
  List.filter sends_tool_result (out ++ SendBackend m :: tail_) = [SendBackend m].
Proof.
  intros Hq Ht Hm. rewrite !List.filter_app, (proj1 (page_effect_quiet _ Hq)).
  cbn [List.filter app]. rewrite Hm. now destruct Ht as [-> | ->].
Qed.

Lemma handleApproval_spec (st : State) (id : string) (request : ToolRequest)
    (approved : bool) :
  socketOpen browser = true ->
  pendingToolRequests st !! id = Some request ->
  actionId request = id ->
  exists out ok data err,
    handleApproval browser id approved st =
      (set_pendingToolRequests (delete id (pendingToolRequests st))
         (set_pendingAction None st), out, Ok tt) /\
    List.filter sends_tool_result out
    = [SendBackend (ToolResult (sessionId st) (token st) id ok data err)] /\
    (approved = false -> List.filter acts_on_page out = []).
Proof.
  intros Hopen Hreq Hid. destruct approved.
  - destruct (executeToolRequest_open request (set_pendingAction None st) Hopen)
      as (out & ok & data & err & tl & Hex & Hq & Htl & _).
    eexists. exists ok, data, err. split; [|split; [|discriminate]].
    + unfold handleApproval, mbind, M_bind, bind, get, sendToBackend, broadcastState,
        modify, emit.
      rewrite Hreq, Hopen. simpl. rewrite Hex.
      unfold ExtMore.after_execute. simpl.
      rewrite Hid. reflexivity.
    + cbn [app]. cbn [List.filter sends_tool_result].
      now rewrite (filter_result_execute out tl (ToolResult _ _ _ ok data err) Hq Htl eq_refl).
  - destruct (handleApproval_denied browser st id request Hopen Hreq) as (hud & H & Hall).
    eexists. exists false, None, (Some "PERMISSION_DENIED"). split; [exact H|].
    destruct (page_effect_hud _ _ Hall) as (_ & Ha & Hr).
    split; [|intros _]; cbn [app List.filter sends_tool_result acts_on_page];
      rewrite !List.filter_app; rewrite ?Ha, ?Hr; reflexivity.
Qed.

Lemma handleApproval_unknown (st : State) (id : string) (approved : bool) :
  pendingToolRequests st !! id = None ->
  handleApproval browser id approved st = (st, [], Ok tt).
Proof.
  intros H. unfold handleApproval, mbind, M_bind, bind, get. now rewrite H.
Qed.

(** The HUD line sends the backend nothing. *)
Lemma hud_sends_nothing (message : string) (out : list Effect) :
  Forall (fun e => e = TabsSendMessage (CmdHud message) \/ e = ExecuteScript) out ->
  List.filter ExtMore.sends_backend out = [].
Proof. induction 1 as [|e l [-> | ->] _ IH]; [reflexivity| |]; exact IH. Qed.

Lemma handleApproval_start_unknown (st : State) (id : string) (approved : bool) :
  pendingToolRequests st !! id = None ->
  ExtMore.handleApproval_start browser id approved st = (st, [], Ok ExtMore.NothingLeft).
Proof.
  intros H. unfold ExtMore.handleApproval_start, mbind, M_bind, bind, get.
  now rewrite H.
Qed.

Lemma handleApproval_start_denied (st : State) (id : string) (request : ToolRequest) :
  socketOpen browser = true ->
  pendingToolRequests st !! id = Some request ->
  ExtMore.handleApproval_start browser id false st
  = (set_pendingToolRequests (delete id (pendingToolRequests st))
       (set_pendingAction None st),
     [SendBackend (UserApproval (sessionId st) (token st) id false); BroadcastState None],
     Ok (ExtMore.AfterDenial id)).
Proof.
  intros Hopen Hreq.
  unfold ExtMore.handleApproval_start, mbind, M_bind, bind, get, sendToBackend,
    broadcastState, modify, emit.
  rewrite Hreq, Hopen. reflexivity.
Qed.

Lemma handleApproval_start_approved (st : State) (id : string) (request : ToolRequest) :
  socketOpen browser = true ->
  pendingToolRequests st !! id = Some request ->
  ExtMore.handleApproval_start browser id true st
  = (set_pendingAction None st,
     [SendBackend (UserApproval (sessionId st) (token st) id true); BroadcastState None],
     Ok (ExtMore.Executes request)).
Proof.
  intros Hopen Hreq.
  unfold ExtMore.handleApproval_start, mbind, M_bind, bind, get, sendToBackend,
    broadcastState, modify, emit.
  rewrite Hreq, Hopen. reflexivity.
Qed.

(** What is left of a denial. *)
Lemma handleApproval_rest_denied (st : State) (id : string) :
  socketOpen browser = true ->
  exists hud,
    ExtMore.handleApproval_rest browser (ExtMore.AfterDenial id) st
    = (st, hud ++ [SendBackend (denial_result st id)], Ok tt) /\
    Forall (fun e => e = TabsSendMessage (CmdHud "Failed: PERMISSION_DENIED")
                     \/ e = ExecuteScript) hud.
Proof.
  intros Hopen.
  destruct (updateHud_spec browser "Failed: PERMISSION_DENIED" st) as (hud & Hhud & Hall).
  exists hud. split; [|exact Hall].
  unfold ExtMore.handleApproval_rest, mbind, M_bind, bind, get, sendToBackend, emit.
  rewrite Hhud, Hopen. reflexivity.
Qed.

(** [handleApproval] is its part before the first [await] followed by
    the rest. *)
Lemma handleApproval_split (st : State) (id : string) (approved : bool) :
  handleApproval browser id approved st
  = bind (ExtMore.handleApproval_start browser id approved)
      (ExtMore.handleApproval_rest browser) st.
Proof.
  unfold bind at 1.
  destruct (pendingToolRequests st !! id) as [request|] eqn:Hreq.
  2:{ now rewrite handleApproval_unknown, handleApproval_start_unknown. }
  destruct (socketOpen browser) eqn:Hopen.
  2:{ unfold handleApproval, ExtMore.handleApproval_start, mbind, M_bind, bind, get,
        sendToBackend.
      rewrite Hreq, Hopen. reflexivity. }
  destruct approved.
  - rewrite (handleApproval_start_approved st id request Hopen Hreq).
    unfold handleApproval, mbind, M_bind, bind, get, sendToBackend, broadcastState,
      modify, emit.
    rewrite Hreq, Hopen. simpl.
    destruct (executeToolRequest browser request (set_pendingAction None st))
      as [[s o] r]. reflexivity.
  - rewrite (handleApproval_start_denied st id request Hopen Hreq).
    destruct (updateHud_spec browser "Failed: PERMISSION_DENIED"
                (set_pendingToolRequests (delete id (pendingToolRequests st))
                   (set_pendingAction None st))) as (hud & Hhud & _).
    unfold handleApproval, ExtMore.handleApproval_rest, mbind, M_bind, bind, get,
      sendToBackend, broadcastState, modify, emit.
    rewrite Hreq, Hopen. simpl. rewrite Hhud. reflexivity.
Qed.

(** One run of [executeToolRequest]: one [tool_result], under the action
    id of the request, and the request forgotten. *)
Lemma executeToolRequest_result (request : ToolRequest) (st : State) :
  socketOpen browser = true ->
  exists st1 out ok data err,
    executeToolRequest browser request st = (st1, out, Ok tt) /\
    List.filter sends_tool_result out
    = [SendBackend (ToolResult (sessionId st) (token st) (actionId request) ok data err)] /\
    pendingToolRequests st1 = delete (actionId request) (pendingToolRequests st) /\
    sessionId st1 = sessionId st /\ token st1 = token st.
Proof.
  intros Hopen.
  destruct (executeToolRequest_open request st Hopen)
    as (out & ok & data & err & tl & Hex & Hq & Htl & _).
  eexists. eexists. exists ok, data, err. split; [exact Hex|]. split.
  - cbn [app].
    exact (filter_result_execute out tl (ToolResult _ _ _ ok data err) Hq Htl eq_refl).
  - unfold ExtMore.after_execute.
    destruct (pendingAction st) as [a|];
      [destruct (String.eqb (pa_actionId a) (actionId request))|];
      repeat split; reflexivity.
Qed.

(** The gate looks at the request and at the auto-run switch only. *)
Lemma requiresManualApproval_autoRun (st st' : State) (request : ToolRequest) :
  autoRun st = autoRun st' ->
  requiresManualApproval st request = requiresManualApproval st' request.
Proof. intros H. unfold requiresManualApproval. now rewrite H. Qed.

(** [stopRun] with an action waiting, on an open socket. *)
Lemma stopRun_pending (st : State) (a : PendingAction) :
  socketOpen browser = true ->
  pendingAction st = Some a ->
  exists hud,
    ExtMore.stopRun browser st
    = (set_pendingAction None
         (set_pendingToolRequests (delete (pa_actionId a) (pendingToolRequests st)) st),
       [SendBackend (Cancel (sessionId st) (token st));
        SendBackend (UserApproval (sessionId st) (token st) (pa_actionId a) false);
        SendBackend (ToolResult (sessionId st) (token st) (pa_actionId a) false None
                       (Some "CANCELLED"));
        BroadcastState None] ++ hud,
       Ok tt) /\
    Forall (fun e => e = TabsSendMessage (CmdHud "Failed: CANCELLED")
                     \/ e = ExecuteScript) hud.
Proof.
  intros Hopen Ea.
  destruct (updateHud_spec browser "Failed: CANCELLED"
              (set_pendingAction None
                 (set_pendingToolRequests
                    (delete (pa_actionId a) (pendingToolRequests st)) st)))
    as (hud & Hh & Hall).
  exists hud. split; [|exact Hall].
  unfold ExtMore.stopRun, mbind, M_bind, bind, get, sendToBackend, broadcastState,
    modify, emit.
  rewrite Hopen. cbn [negb]. cbn beta. rewrite Ea.
  unfold mbind, M_bind, bind, get, emit. cbn [negb].
  rewrite Hh. reflexivity.
Qed.

End WorkerMore.

(** X15: whatever the page answers, [sendToolMessageToActiveTab] leaves
    the state of the worker alone, sends the page nothing but the command
    itself (at most twice) and the script injection of the retry, and
    fails only with NO_ACTIVE_TAB, PERMISSION_DENIED or
    EXTENSION_NOT_READY: an error code of the content script, such as
    NOT_FOUND, never leaves it.  With no usable tab nothing is sent. *)
Theorem X15_page_errors_are_flattened (browser : Ext.Browser)
    (payload : Ext.PageCommand) (st : Ext.State) :
  exists out r,
    Ext.sendToolMessageToActiveTab browser payload st = (st, out, r) /\
    Forall (fun e => e = Ext.TabsSendMessage payload \/ e = Ext.ExecuteScript) out /\
    (length (List.filter Ext.is_page_message out) <= 2)%nat /\
    (forall e, r = Ext.Throw e ->
       e = "NO_ACTIVE_TAB" \/ e = "PERMISSION_DENIED" \/ e = "EXTENSION_NOT_READY") /\
    (r = Ext.Throw "NO_ACTIVE_TAB" -> out = []).
Proof. exact (sendTool_spec browser payload st). Qed.

(** X16: [executeToolRequest] on an open socket never rejects and sends
    the backend exactly one [tool_result], for the action id of the
    request and with the session id and token of the worker: a success
    without an error code, or a failure without data whose code is one of
    NO_ACTIVE_TAB, PERMISSION_DENIED, EXTENSION_NOT_READY and TIMEOUT.  It
    never asks for approval.  On a closed socket it rejects with
    EXTENSION_NOT_READY and sends the backend nothing.  Either way the
    request is forgotten, and the pending action is cleared when it is
    the one of this request. *)
Theorem X16_one_result_per_execution (browser : Ext.Browser)
    (request : Ext.ToolRequest) (st : Ext.State) :
  exists st' out r,
    Ext.executeToolRequest browser request st = (st', out, r) /\
    Ext.pendingToolRequests st'
    = delete (Ext.actionId request) (Ext.pendingToolRequests st) /\
    Ext.pendingAction st'
    = match Ext.pendingAction st with
      | Some a => if String.eqb (Ext.pa_actionId a) (Ext.actionId request)
                  then None else Some a
      | None => None
      end /\
    Ext.sessionId st' = Ext.sessionId st /\ Ext.token st' = Ext.token st /\
    Ext.autoRun st' = Ext.autoRun st /\
    if Ext.socketOpen browser then
      r = Ext.Ok tt /\
      Forall (fun e => forall a, e <> Ext.BroadcastApprovalNeeded a) out /\
      exists (ok : bool) data err,
        List.filter ExtMore.sends_backend out
        = [Ext.SendBackend (Protocol.ToolResult (Ext.sessionId st) (Ext.token st)
                              (Ext.actionId request) ok data err)] /\
        ((ok = true /\ err = None) \/
         (ok = false /\ data = None /\ exists c, err = Some c /\ ExtMore.worker_code c))
    else
      r = Ext.Throw "EXTENSION_NOT_READY" /\ List.filter ExtMore.sends_backend out = [].
Proof.
  assert (Hst : Ext.pendingToolRequests (ExtMore.after_execute request st)
                = delete (Ext.actionId request) (Ext.pendingToolRequests st) /\
                Ext.pendingAction (ExtMore.after_execute request st)
                = match Ext.pendingAction st with
                  | Some a => if String.eqb (Ext.pa_actionId a) (Ext.actionId request)
                              then None else Some a
                  | None => None
                  end /\
                Ext.sessionId (ExtMore.after_execute request st) = Ext.sessionId st /\
                Ext.token (ExtMore.after_execute request st) = Ext.token st /\
                Ext.autoRun (ExtMore.after_execute request st) = Ext.autoRun st).
  { unfold ExtMore.after_execute.
    destruct (Ext.pendingAction st) as [a|] eqn:Ea;
      [destruct (String.eqb (Ext.pa_actionId a) (Ext.actionId request))|];
      simpl; rewrite ?Ea; repeat split. }
  destruct Hst as (H1 & H2 & H3 & H4 & H5).
  destruct (Ext.socketOpen browser) eqn:Hopen.
  - destruct (executeToolRequest_open browser request st Hopen)
      as (out & ok & data & err & tl & Hex & Hq & Htl & Hres).
    do 3 eexists. split; [exact Hex|]. repeat (split; [assumption|]).
    split; [reflexivity|]. split.
    + apply Forall_app. split; [exact (proj1 (proj2 (page_effect_quiet _ Hq)))|].
      constructor; [discriminate|].
      destruct Htl as [-> | ->]; repeat constructor; discriminate.
    + exists ok, data, err. split; [|exact Hres].
      assert (Hflt : List.filter ExtMore.sends_backend out = []).
      { clear -Hq. induction Hq as [|e l He _ IH]; [reflexivity|]. now destruct e. }
      rewrite !List.filter_app, Hflt. simpl. now destruct Htl as [-> | ->].
  - destruct (executeToolRequest_closed browser request st Hopen) as (out & Hex & Hflt).
    do 3 eexists. split; [exact Hex|]. repeat (split; [assumption|]).
    split; [reflexivity | exact Hflt].
Qed.

(** A page whose content script answers NOT_FOUND to a click: the
    backend is told EXTENSION_NOT_READY. *)
Lemma page_not_found_is_reported_not_ready :
  exists sid tok,
    List.filter ExtMore.sends_backend
      (snd (fst (Ext.executeToolRequest not_found_browser submit_payment_click
                   (autoRunState true))))
    = [Ext.SendBackend (Protocol.ToolResult sid tok (Ext.actionId submit_payment_click)
                          false None (Some "EXTENSION_NOT_READY"))].
Proof. do 2 eexists. vm_compute. reflexivity. Qed.

(** X17: a denial decides an action at once, an approval only when its
    execution has ended.  For a request that waits under its own action
    id on an open socket, [handleApproval] is its part before the first
    [await] followed by the rest.  Denied, the first part clears the
    pending action and forgets the request, so that any further
    [handleApproval] for the id does nothing, and the rest sends the one
    PERMISSION_DENIED [tool_result]; the page gets no tool command.
    Approved, the first part clears the pending action, sends no result
    and keeps the request: a second approval that arrives before the
    execution has ended is let through to execute the same request
    again, and every such execution sends one [tool_result] for the id,
    so two of them are sent; only after an execution has ended does a
    further [handleApproval] for the id do nothing. *)
Theorem X17_approval_decides_once (browser : Ext.Browser) (st : Ext.State)
    (id : string) (request : Ext.ToolRequest) :
  Ext.socketOpen browser = true ->
  Ext.pendingToolRequests st !! id = Some request ->
  Ext.actionId request = id ->
  (forall approved,
     Ext.handleApproval browser id approved st
     = Ext.bind (ExtMore.handleApproval_start browser id approved)
         (ExtMore.handleApproval_rest browser) st) /\
  (exists sd out1 out2,
     ExtMore.handleApproval_start browser id false st
     = (sd, out1, Ext.Ok (ExtMore.AfterDenial id)) /\
     Ext.pendingAction sd = None /\
     Ext.pendingToolRequests sd !! id = None /\
     (forall again, Ext.handleApproval browser id again sd = (sd, [], Ext.Ok tt)) /\
     ExtMore.handleApproval_rest browser (ExtMore.AfterDenial id) sd
     = (sd, out2, Ext.Ok tt) /\
     List.filter Ext.sends_tool_result (out1 ++ out2)
     = [Ext.SendBackend (denial_result st id)] /\
     List.filter Ext.acts_on_page (out1 ++ out2) = []) /\
  (exists sa out1,
     ExtMore.handleApproval_start browser id true st
     = (sa, out1, Ext.Ok (ExtMore.Executes request)) /\
     Ext.pendingAction sa = None /\
     Ext.pendingToolRequests sa !! id = Some request /\
     List.filter Ext.sends_tool_result out1 = [] /\
     (forall s, exists s' out ok data err,
        ExtMore.handleApproval_rest browser (ExtMore.Executes request) s
        = (s', out, Ext.Ok tt) /\
        List.filter Ext.sends_tool_result out
        = [Ext.SendBackend
             (Protocol.ToolResult (Ext.sessionId s) (Ext.token s) id ok data err)] /\
        Ext.pendingToolRequests s' !! id = None /\
        forall again, Ext.handleApproval browser id again s' = (s', [], Ext.Ok tt)) /\
     (exists out1' s1 o1 s2 o2,
        ExtMore.handleApproval_start browser id true sa
        = (sa, out1', Ext.Ok (ExtMore.Executes request)) /\
        ExtMore.handleApproval_rest browser (ExtMore.Executes request) sa
        = (s1, o1, Ext.Ok tt) /\
        ExtMore.handleApproval_rest browser (ExtMore.Executes request) s1
        = (s2, o2, Ext.Ok tt) /\
        length (List.filter Ext.sends_tool_result (out1 ++ out1' ++ o1 ++ o2)) = 2%nat)).
Proof.
  intros Hopen Hreq Hid.
  assert (Hrest : forall s, exists s' out ok data err,
            ExtMore.handleApproval_rest browser (ExtMore.Executes request) s
            = (s', out, Ext.Ok tt) /\
            List.filter Ext.sends_tool_result out
            = [Ext.SendBackend
                 (Protocol.ToolResult (Ext.sessionId s) (Ext.token s) id ok data err)] /\
            Ext.pendingToolRequests s' !! id = None /\
            forall again, Ext.handleApproval browser id again s' = (s', [], Ext.Ok tt)).
  { intros s.
    destruct (executeToolRequest_result browser request s Hopen)
      as (s' & out & ok & data & err & Hex & Hone & Hp & _).
    rewrite Hid in Hone, Hp.
    assert (Hgone : Ext.pendingToolRequests s' !! id = None)
      by (rewrite Hp; apply lookup_delete_eq).
    exists s', out, ok, data, err. split; [exact Hex|]. split; [exact Hone|].
    split; [exact Hgone|]. intros again. now apply handleApproval_unknown. }
  split; [intros approved; apply handleApproval_split|]. split.
  - destruct (handleApproval_rest_denied browser
                (Ext.set_pendingToolRequests (delete id (Ext.pendingToolRequests st))
                   (Ext.set_pendingAction None st)) id Hopen) as (hud & Hr & Hall).
    destruct (page_effect_hud _ _ Hall) as (_ & Ha & Hs).
    do 3 eexists.
    split; [exact (handleApproval_start_denied browser st id request Hopen Hreq)|].
    split; [reflexivity|].
    assert (Hgone : Ext.pendingToolRequests
                      (Ext.set_pendingToolRequests (delete id (Ext.pendingToolRequests st))
                         (Ext.set_pendingAction None st)) !! id = None)
      by (simpl; apply lookup_delete_eq).
    split; [exact Hgone|].
    split; [intros again; now apply handleApproval_unknown|].
    split; [exact Hr|].
    split; cbn [app List.filter Ext.sends_tool_result Ext.acts_on_page];
      rewrite List.filter_app; rewrite ?Ha, ?Hs; reflexivity.
  - do 2 eexists.
    split; [exact (handleApproval_start_approved browser st id request Hopen Hreq)|].
    split; [reflexivity|]. split; [exact Hreq|]. split; [reflexivity|].
    split; [exact Hrest|].
    destruct (Hrest (Ext.set_pendingAction None st))
      as (s1 & o1 & ok1 & d1 & e1 & H1 & Hone1 & _).
    destruct (Hrest s1) as (s2 & o2 & ok2 & d2 & e2 & H2 & Hone2 & _).
    eexists. exists s1, o1, s2, o2.
    split; [exact (handleApproval_start_approved browser (Ext.set_pendingAction None st)
                     id request Hopen Hreq)|].
    split; [exact H1|]. split; [exact H2|].
    cbn [app List.filter Ext.sends_tool_result].
    now rewrite List.filter_app, Hone1, Hone2.
Qed.

Lemma X17_approval_decides_once_witness :
  exists sa out1 out1' s1 o1 s2 o2,
    ExtMore.handleApproval_start friendly_browser "call-7" true awaiting_approval
    = (sa, out1, Ext.Ok (ExtMore.Executes submit_payment_click)) /\
    ExtMore.handleApproval_start friendly_browser "call-7" true sa
    = (sa, out1', Ext.Ok (ExtMore.Executes submit_payment_click)) /\
    ExtMore.handleApproval_rest friendly_browser (ExtMore.Executes submit_payment_click) sa
    = (s1, o1, Ext.Ok tt) /\
    ExtMore.handleApproval_rest friendly_browser (ExtMore.Executes submit_payment_click) s1
    = (s2, o2, Ext.Ok tt) /\
    length (List.filter Ext.sends_tool_result (out1 ++ out1' ++ o1 ++ o2)) = 2%nat.
Proof.
  destruct (X17_approval_decides_once friendly_browser awaiting_approval "call-7"
              submit_payment_click)
    as (_ & _ & sa & out1 & Hs & _ & _ & _ & _ & out1' & s1 & o1 & s2 & o2
        & Hs' & H1 & H2 & Htwo).
  - reflexivity.
  - vm_compute. reflexivity.
  - reflexivity.
  - exists sa, out1, out1', s1, o1, s2, o2. repeat split; assumption.
Defined.

(** X18: [stopRun] does nothing on a closed socket.  On an open one it
    sends the backend a [cancel] and, when an action waits for approval,
    a rejecting [user_approval] and a CANCELLED [tool_result] for it, in
    this order and nothing else; it sends the page no tool command,
    leaves no pending action, and forgets the request of the action, so
    that a later approval of the stopped action does nothing. *)
Theorem X18_stop_answers_the_pending_action (browser : Ext.Browser) (st : Ext.State) :
  exists st' out,
    ExtMore.stopRun browser st = (st', out, Ext.Ok tt) /\
    if Ext.socketOpen browser then
      List.filter ExtMore.sends_backend out
      = Ext.SendBackend (Protocol.Cancel (Ext.sessionId st) (Ext.token st)) ::
        match Ext.pendingAction st with
        | Some a =>
            [Ext.SendBackend (Protocol.UserApproval (Ext.sessionId st) (Ext.token st)
                                (Ext.pa_actionId a) false);
             Ext.SendBackend (Protocol.ToolResult (Ext.sessionId st) (Ext.token st)
                                (Ext.pa_actionId a) false None (Some "CANCELLED"))]
        | None => []
        end /\
      List.filter Ext.acts_on_page out = [] /\
      Ext.pendingAction st' = None /\
      Ext.pendingToolRequests st'
      = match Ext.pendingAction st with
        | Some a => delete (Ext.pa_actionId a) (Ext.pendingToolRequests st)
        | None => Ext.pendingToolRequests st
        end /\
      match Ext.pendingAction st with
      | Some a => forall approved,
          Ext.handleApproval browser (Ext.pa_actionId a) approved st' = (st', [], Ext.Ok tt)
      | None => True
      end
    else st' = st /\ out = [].
Proof.
  unfold ExtMore.stopRun. destruct (Ext.socketOpen browser) eqn:Hopen; cbn [negb].
  2:{ do 2 eexists. split; [reflexivity|]. now split. }
  assert (Hflt : forall l message,
            Forall (fun e => e = Ext.TabsSendMessage (Ext.CmdHud message)
                             \/ e = Ext.ExecuteScript) l ->
            List.filter ExtMore.sends_backend l = []).
  { induction 1 as [|e l [-> | ->] _ IH]; [reflexivity| |]; exact IH. }
  destruct (Ext.pendingAction st) as [a|] eqn:Ea.
  - destruct (updateHud_spec browser "Failed: CANCELLED"
                (Ext.set_pendingAction None
                   (Ext.set_pendingToolRequests
                      (delete (Ext.pa_actionId a) (Ext.pendingToolRequests st)) st)))
      as (hud & Hh & Hall).
    unfold mbind, Ext.M_bind, Ext.bind, Ext.get, Ext.sendToBackend, Ext.broadcastState,
      Ext.modify, Ext.emit.
    rewrite Hopen, Ea. cbn [negb]. unfold mbind, Ext.M_bind, Ext.bind, Ext.get, Ext.emit.
    rewrite Hh. do 2 eexists. split; [reflexivity|].
    destruct (page_effect_hud _ _ Hall) as (_ & Ha & _).
    split; [|split; [|split; [reflexivity|split; [reflexivity|]]]].
    + cbn [app List.filter ExtMore.sends_backend]. rewrite (Hflt _ _ Hall). reflexivity.
    + cbn [app List.filter Ext.acts_on_page]. exact Ha.
    + intros approved. apply handleApproval_unknown. simpl. apply lookup_delete_eq.
  - destruct (updateHud_spec browser "Failed: CANCELLED" st) as (hud & Hh & Hall).
    unfold mbind, Ext.M_bind, Ext.bind, Ext.get, Ext.sendToBackend, Ext.ret, Ext.emit.
    rewrite Hopen, Ea. cbn [negb]. rewrite Hh.
    do 2 eexists. split; [reflexivity|].
    destruct (page_effect_hud _ _ Hall) as (_ & Ha & _).
    split; [|split; [|split; [exact Ea|split; [reflexivity|exact I]]]].
    + cbn [app List.filter ExtMore.sends_backend]. rewrite (Hflt _ _ Hall). reflexivity.
    + cbn [app List.filter Ext.acts_on_page]. exact Ha.
Qed.

(** X20: there is one slot for the action that waits for approval, and
    a second gated request takes it from the first.  On an open socket,
    when two requests under different action ids both need approval and
    are handled one after the other, neither sends the backend anything
    nor the page a tool command; the first waits as the pending action
    until the second replaces it, and both requests are kept.  Whatever
    is then decided for the second ([handleApproval], approved or not,
    or [stopRun]) sends the one [tool_result] of the second, leaves no
    pending action, and leaves the first request kept and without a
    result. *)
Theorem X20_second_gated_request_displaces_first (browser : Ext.Browser)
    (st : Ext.State) (r1 r2 : Ext.ToolRequest) :
  Ext.socketOpen browser = true ->
  Ext.requiresManualApproval st r1 = true ->
  Ext.requiresManualApproval st r2 = true ->
  Ext.actionId r1 <> Ext.actionId r2 ->
  exists st1 out1 st2 out2,
    Ext.onToolRequest browser r1 st = (st1, out1, Ext.Ok tt) /\
    Ext.onToolRequest browser r2 st1 = (st2, out2, Ext.Ok tt) /\
    List.filter ExtMore.sends_backend (out1 ++ out2) = [] /\
    List.filter Ext.acts_on_page (out1 ++ out2) = [] /\
    Ext.pendingAction st1
    = Some (Ext.mkPendingAction (Ext.actionId r1) (Ext.tool r1) (Ext.ui_label r1)) /\
    Ext.pendingAction st2
    = Some (Ext.mkPendingAction (Ext.actionId r2) (Ext.tool r2) (Ext.ui_label r2)) /\
    Ext.pendingToolRequests st2 !! Ext.actionId r1 = Some r1 /\
    Ext.pendingToolRequests st2 !! Ext.actionId r2 = Some r2 /\
    (forall approved, exists st3 out3 ok data err,
       Ext.handleApproval browser (Ext.actionId r2) approved st2 = (st3, out3, Ext.Ok tt) /\
       List.filter Ext.sends_tool_result out3
       = [Ext.SendBackend (Protocol.ToolResult (Ext.sessionId st) (Ext.token st)
                             (Ext.actionId r2) ok data err)] /\
       Ext.pendingAction st3 = None /\
       Ext.pendingToolRequests st3 !! Ext.actionId r1 = Some r1) /\
    (exists st3 out3,
       ExtMore.stopRun browser st2 = (st3, out3, Ext.Ok tt) /\
       List.filter Ext.sends_tool_result out3
       = [Ext.SendBackend (Protocol.ToolResult (Ext.sessionId st) (Ext.token st)
                             (Ext.actionId r2) false None (Some "CANCELLED"))] /\
       Ext.pendingAction st3 = None /\
       Ext.pendingToolRequests st3 !! Ext.actionId r1 = Some r1).
Proof.
  intros Hopen Hg1 Hg2 Hne.
  destruct (onToolRequest_gated browser st r1 Hg1) as (hud1 & H1 & Hall1).
  set (st1 := Ext.set_pendingAction
                (Some (Ext.mkPendingAction (Ext.actionId r1) (Ext.tool r1) (Ext.ui_label r1)))
                (Ext.set_pendingToolRequests
                   (<[Ext.actionId r1 := r1]> (Ext.pendingToolRequests st)) st)) in *.
  assert (Hg2' : Ext.requiresManualApproval st1 r2 = true)
    by (rewrite <- Hg2; now apply requiresManualApproval_autoRun).
  destruct (onToolRequest_gated browser st1 r2 Hg2') as (hud2 & H2 & Hall2).
  set (st2 := Ext.set_pendingAction
                (Some (Ext.mkPendingAction (Ext.actionId r2) (Ext.tool r2) (Ext.ui_label r2)))
                (Ext.set_pendingToolRequests
                   (<[Ext.actionId r2 := r2]> (Ext.pendingToolRequests st1)) st1)) in *.
  assert (Hk1 : Ext.pendingToolRequests st2 !! Ext.actionId r1 = Some r1).
  { simpl. rewrite lookup_insert_ne by (intros E; apply Hne; now symmetry).
    apply lookup_insert_eq. }
  assert (Hk2 : Ext.pendingToolRequests st2 !! Ext.actionId r2 = Some r2)
    by (simpl; apply lookup_insert_eq).
  assert (Hkept : delete (Ext.actionId r2) (Ext.pendingToolRequests st2) !! Ext.actionId r1
                  = Some r1)
    by (rewrite lookup_delete_ne by (intros E; apply Hne; now symmetry); exact Hk1).
  destruct (page_effect_hud _ _ Hall1) as (_ & Ha1 & _).
  destruct (page_effect_hud _ _ Hall2) as (_ & Ha2 & _).
  exists st1, (hud1 ++ [Ext.BroadcastState (Ext.pendingAction st1);
                        Ext.BroadcastApprovalNeeded
                          (Ext.mkPendingAction (Ext.actionId r1) (Ext.tool r1)
                             (Ext.ui_label r1))]),
    st2, (hud2 ++ [Ext.BroadcastState (Ext.pendingAction st2);
                   Ext.BroadcastApprovalNeeded
                     (Ext.mkPendingAction (Ext.actionId r2) (Ext.tool r2)
                        (Ext.ui_label r2))]).
  split; [exact H1|]. split; [exact H2|].
  split; [rewrite !List.filter_app, (hud_sends_nothing _ _ Hall1),
            (hud_sends_nothing _ _ Hall2); reflexivity|].
  split; [rewrite !List.filter_app, Ha1, Ha2; reflexivity|].
  split; [reflexivity|]. split; [reflexivity|].
  split; [exact Hk1|]. split; [exact Hk2|]. split.
  - intros approved.
    destruct (handleApproval_spec browser st2 (Ext.actionId r2) r2 approved Hopen Hk2
                eq_refl) as (out3 & ok & data & err & H3 & Hone & _).
    eexists. exists out3, ok, data, err.
    split; [exact H3|]. split; [exact Hone|]. split; [reflexivity|exact Hkept].
  - destruct (stopRun_pending browser st2 _ Hopen eq_refl) as (hud & H3 & Hall).
    destruct (page_effect_hud _ _ Hall) as (_ & _ & Hr).
    do 2 eexists. split; [exact H3|].
    split; [cbn [app List.filter Ext.sends_tool_result]; rewrite Hr; reflexivity|].
    split; [reflexivity|exact Hkept].
Qed.

Lemma X20_second_gated_request_displaces_first_witness :
  exists st1 out1 st2 out2 st3 out3,
    Ext.onToolRequest friendly_browser straddling_click (autoRunState false)
    = (st1, out1, Ext.Ok tt) /\
    Ext.onToolRequest friendly_browser submit_payment_click st1 = (st2, out2, Ext.Ok tt) /\
    Ext.pendingAction st2
    = Some (Ext.mkPendingAction "call-7" "browser_click" "clicking Submit Payment") /\
    ExtMore.stopRun friendly_browser st2 = (st3, out3, Ext.Ok tt) /\
    Ext.pendingAction st3 = None /\
    Ext.pendingToolRequests st3 !! "a1" = Some straddling_click.
Proof.
  destruct (X20_second_gated_request_displaces_first friendly_browser (autoRunState false)
              straddling_click submit_payment_click)
    as (st1 & out1 & st2 & out2 & H1 & H2 & _ & _ & _ & Hp & _ & _ & _
        & st3 & out3 & H3 & _ & Hn & Hk).
  - reflexivity.
  - reflexivity.
  - reflexivity.
  - discriminate.
  - exists st1, out1, st2, out2, st3, out3. repeat split; assumption.
Defined.

(** ** The address of a navigation *)

Section Address.
Import Ext.





(** *** Characters *)

Lemma chars_head (c : ascii) (r : string) :
  exists t gs, Js.chars (String c r) = String c t :: gs.
Proof.
  simpl. destruct (Js.chars r) as [|g gs]; [|destruct (Js.continues g)]; eauto.
Qed.






Lemma Forall_drop_ws {P : string -> Prop} (l : list string) :
  Forall P l -> Forall P (Js.drop_ws l).
Proof.
  induction 1 as [|g r Hg Hr IH]; [constructor|]. simpl.
  destruct (Js.is_white_space g); [exact IH | now constructor].
Qed.





(** *** Trimming *)










(** *** Plain text *)















End Address.




(* ===================================================================== *)
(** * More properties of the content script *)
(* ===================================================================== *)

Section SelectorsMore.
Import Content.












End SelectorsMore.



(** X23: the [data-test-id] spelling breaks the round trip.  On a page
    with two buttons of the same test id, one in each spelling, the
    selector written for the button that spells it [data-test-id] is
    unique and resolves to the other button. *)
Theorem X23_test_id_names_another_element :
  exists (doc : Content.Node) (p q : Content.Path) (d : Content.ElemData),
    Content.element doc p = Some d /\
    Content.isUniqueSelector doc (Content.buildSelector doc p d) = true /\
    ContentMore.getTarget doc (Some (Content.buildSelector doc p d)) = Some q /\
    q <> p /\ ~ ContentMore.plain_test_id d.
Proof.
  exists pay_page, [0; 1]%nat, [1; 1]%nat, (Content.data old_pay_button).
  split; [reflexivity|]. split; [vm_compute; reflexivity|].
  split; [vm_compute; reflexivity|]. split; [discriminate|].
  intros H. specialize (H eq_refl). discriminate H.
Qed.

(** ** The ranking *)

Section RankingMore.
Import Content.
Context {A : Type}.
Implicit Types (x y : A * Z) (l : list (A * Z)).

Lemma insert_ranked_perm x l : Permutation (insert_ranked x l) (x :: l).
Proof.
  induction l as [|y l IH]; simpl; [reflexivity|].
  destruct (snd y <=? snd x); [reflexivity|].
  rewrite IH. apply perm_swap.
Qed.

Lemma sort_ranked_perm l : Permutation (sort_ranked l) l.
Proof.
  induction l as [|x l IH]; simpl; [reflexivity|].
  rewrite insert_ranked_perm. now constructor.
Qed.

Lemma insert_ranked_sorted x l :
  StronglySorted ContentMore.outranks l ->
  StronglySorted ContentMore.outranks (insert_ranked x l).
Proof.
  induction 1 as [|y l Hs IH Hall]; simpl; [repeat constructor|].
  destruct (snd y <=? snd x) eqn:E.
  - apply Z.leb_le in E. constructor; [now constructor|].
    constructor; [exact E|].
    eapply Forall_impl; [exact Hall|]. unfold ContentMore.outranks. intros z Hz. lia.
  - apply Z.leb_gt in E. constructor; [exact IH|].
    rewrite insert_ranked_perm. constructor; [unfold ContentMore.outranks; lia | exact Hall].
Qed.

Lemma sort_ranked_sorted l : StronglySorted ContentMore.outranks (sort_ranked l).
Proof.
  induction l as [|x l IH]; simpl; [constructor | now apply insert_ranked_sorted].
Qed.

(** The sort is stable: it keeps the order of the items of one score. *)
Lemma filter_insert_ranked (s : Z) x l :
  List.filter (fun y => snd y =? s) (insert_ranked x l)
  = List.filter (fun y => snd y =? s) (x :: l).
Proof.
  induction l as [|y l IH]; [reflexivity|]. cbn [insert_ranked].
  destruct (snd y <=? snd x) eqn:E; [reflexivity|]. apply Z.leb_gt in E.
  cbn [List.filter] in *. rewrite IH.
  destruct (snd y =? s) eqn:Ey, (snd x =? s) eqn:Ex; try reflexivity.
  apply Z.eqb_eq in Ey, Ex. lia.
Qed.

Lemma filter_sort_ranked (s : Z) l :
  List.filter (fun y => snd y =? s) (sort_ranked l) = List.filter (fun y => snd y =? s) l.
Proof.
  induction l as [|x l IH]; [reflexivity|]. cbn [sort_ranked fold_right].
  rewrite filter_insert_ranked. cbn [List.filter]. fold (sort_ranked l).
  now rewrite IH.
Qed.

Lemma sorted_lookup l (i j : nat) x y :
  StronglySorted ContentMore.outranks l ->
  (i <= j)%nat -> l !! i = Some x -> l !! j = Some y -> snd y <= snd x.
Proof.
  intros Hs. revert i j. induction Hs as [|z l Hs IH Hall]; intros i j Hij Hi Hj;
    [discriminate|].
  destruct i as [|i], j as [|j]; simpl in *; try lia.
  - injection Hi as <-. injection Hj as <-. lia.
  - injection Hi as <-. rewrite List.Forall_forall in Hall.
    apply (Hall y). apply list_elem_of_In. eapply list_elem_of_lookup_2, Hj.
  - apply (IH i j); [lia | assumption | assumption].
Qed.

Lemma sorted_cut l (n : nat) x y :
  StronglySorted ContentMore.outranks l ->
  In y (firstn n l) -> In x (skipn n l) -> snd x <= snd y.
Proof.
  intros Hs. revert n. induction Hs as [|z l Hs IH Hall]; intros n Hy Hx.
  - destruct n; contradiction.
  - destruct n as [|n]; [contradiction|]. simpl in Hy, Hx.
    destruct Hy as [<- | Hy]; [|now apply (IH n)].
    rewrite List.Forall_forall in Hall. apply (Hall x).
    rewrite <- (firstn_skipn n l). apply in_or_app. now right.
Qed.

End RankingMore.

Section FindMore.
Import Content.

Lemma eligible_spec doc (p : Path) (d : ElemData) :
  In (p, d) (eligible doc) ->
  element doc p = Some d /\ isVisible d = true /\ isHTMLElement d = true /\
  interactive d = true.
Proof.
  unfold eligible. intros H.
  apply List.filter_In in H as [H Hv]. apply List.filter_In in H as [H Hh].
  apply List.filter_In in H as [H Hi]. simpl in *.
  apply list_elem_of_In, list_elem_of_omap in H as (q & _ & Hq).
  destruct (element doc q) as [d'|] eqn:E; [|discriminate].
  simpl in Hq. injection Hq as -> ->. repeat split; assumption.
Qed.

Lemma rankCandidate_blank d query :
  normalizeText (Some query) = "" -> rankCandidate d query = 0.
Proof. intros H. unfold rankCandidate. now rewrite H. Qed.

Lemma scored_spec doc query (x : (Path * ElemData) * Z) :
  In x (ContentMore.scored doc query) ->
  In (fst x) (eligible doc) /\ snd x = rankCandidate (snd (fst x)) query /\ 10 <= snd x.
Proof.
  unfold ContentMore.scored. intros H. apply List.filter_In in H as [H Hpos].
  apply in_map_iff in H as (pd & <- & Hpd). simpl in *.
  split; [exact Hpd|]. split; [reflexivity|].
  apply visible_scores_at_least_10; [exact (eligible_visible doc pd Hpd)|].
  intros Hb. rewrite (rankCandidate_blank _ _ Hb) in Hpos. discriminate.
Qed.

Lemma In_firstn {A} (n : nat) (l : list A) (x : A) : In x (firstn n l) -> In x l.
Proof. intros H. rewrite <- (firstn_skipn n l). apply in_or_app. now left. Qed.

Lemma ranked_scored doc query (x : (Path * ElemData) * Z) :
  In x (ranked doc query) -> In x (ContentMore.scored doc query).
Proof.
  unfold ranked. intros H. apply In_firstn in H.
  exact (Permutation_in _ (sort_ranked_perm _) H).
Qed.

Lemma scored_blank doc query :
  normalizeText (Some query) = "" -> ContentMore.scored doc query = [].
Proof.
  intros Hb. unfold ContentMore.scored.
  induction (eligible doc) as [|pd l IH]; [reflexivity|].
  cbn [map List.filter snd]. now rewrite (rankCandidate_blank _ _ Hb).
Qed.

Lemma findCandidates_lookup doc query (k : nat) :
  findCandidates doc query !! k
  = (fun item : Path * ElemData * Z =>
       mkCandidate ("cand-" +:+ pretty (k + 1)%nat) (getElementLabel (snd (fst item)))
         (buildSelector doc (fst (fst item)) (snd (fst item))))
    <$> ranked doc query !! k.
Proof.
  unfold findCandidates. rewrite list_lookup_imap.
  destruct (ranked doc query !! k) as [[[p d] z]|]; reflexivity.
Qed.

Lemma collapse_ws_nonempty (s : string) : s <> "" -> Js.collapse_ws s <> "".
Proof.
  destruct s as [|c r]; [congruence|]. intros _. unfold Js.collapse_ws.
  destruct (chars_head c r) as (t & gs & ->). cbn [Js.collapse_ws_go].
  destruct (Js.is_white_space (String c t)); discriminate.
Qed.

Lemma slice0_nonempty (s : string) : s <> "" -> Js.slice0 120 s <> "".
Proof.
  destruct s as [|c r]; [congruence|]. intros _. cbn [Js.slice0].
  destruct (Js.is_continuation c); [discriminate|].
  destruct (Js.is_lead4 c); discriminate.
Qed.

Lemma trimmed_nonempty (o : option string) (v : string) :
  trimmed o = Some v -> v <> "".
Proof.
  unfold trimmed. destruct o as [s|]; [|discriminate].
  destruct (String.eqb (Js.trim s) "") eqn:E; [discriminate|].
  intros [= <-]. now apply String.eqb_neq.
Qed.

End FindMore.

(** X24: [findCandidates] returns at most eight candidates; the
    candidate at position [k] (from 0) has the id [cand-(k+1)], and the
    label and the selector of the element ranked at that position, so the
    ids of one result are all different; and a blank query finds nothing. *)
Theorem X24_candidates_are_numbered (doc : Content.Node) (query : string) :
  (length (Content.findCandidates doc query) <= 8)%nat /\
  (forall k c, Content.findCandidates doc query !! k = Some c ->
     exists p d score,
       Content.ranked doc query !! k = Some (p, d, score) /\
       c = Content.mkCandidate ("cand-" +:+ pretty (k + 1)%nat)
             (Content.getElementLabel d) (Content.buildSelector doc p d)) /\
  NoDup (Content.cand_id <$> Content.findCandidates doc query) /\
  (Content.normalizeText (Some query) = "" -> Content.findCandidates doc query = []).
Proof.
  split; [|split; [|split]].
  - unfold Content.findCandidates, Content.ranked. rewrite length_imap, length_firstn. lia.
  - intros k c H. rewrite findCandidates_lookup in H.
    destruct (Content.ranked doc query !! k) as [[[p d] z]|]; [|discriminate].
    injection H as <-. now exists p, d, z.
  - apply NoDup_alt. intros i j x Hi Hj.
    rewrite list_lookup_fmap, findCandidates_lookup in Hi, Hj.
    destruct (Content.ranked doc query !! i) as [xi|]; [|discriminate].
    destruct (Content.ranked doc query !! j) as [xj|]; [|discriminate].
    simpl in Hi, Hj. injection Hi as Hi. injection Hj as Hj. rewrite <- Hj in Hi.
    injection Hi as Hi. apply pretty_nat_inj in Hi. lia.
  - intros Hb. unfold Content.findCandidates, Content.ranked.
    change (List.filter _ (map _ (Content.eligible doc)))
      with (ContentMore.scored doc query).
    now rewrite (scored_blank _ _ Hb).
Qed.

Lemma X24_candidates_are_numbered_witness :
  Content.findCandidates search_page "   " = [].
Proof.
  destruct (X24_candidates_are_numbered search_page "   ") as (_ & _ & _ & H).
  apply H. reflexivity.
Defined.

(** X25: what [findCandidates] ranks are the eight best.  Scores never
    increase along the ranked list; every ranked element is an element of
    the document that is visible and matches the selector list, and
    scores at least 10; an element that scored above zero and is left out
    scores no more than any ranked one; with at most eight such elements
    none is left out; and elements of equal score keep their document
    order. *)
Theorem X25_ranked_is_the_top_eight (doc : Content.Node) (query : string) :
  (forall i j x y, (i <= j)%nat ->
     Content.ranked doc query !! i = Some x -> Content.ranked doc query !! j = Some y ->
     snd y <= snd x) /\
  (forall p d score, In (p, d, score) (Content.ranked doc query) ->
     Content.element doc p = Some d /\ Content.isVisible d = true /\
     Content.interactive d = true /\ score = Content.rankCandidate d query /\
     10 <= score) /\
  (forall x y, In x (ContentMore.scored doc query) -> ~ In x (Content.ranked doc query) ->
     In y (Content.ranked doc query) -> snd x <= snd y) /\
  ((length (ContentMore.scored doc query) <= 8)%nat ->
   Permutation (Content.ranked doc query) (ContentMore.scored doc query)) /\
  (forall s, exists rest,
     List.filter (fun x => snd x =? s) (ContentMore.scored doc query)
     = List.filter (fun x => snd x =? s) (Content.ranked doc query) ++ rest).
Proof.
  pose proof (sort_ranked_sorted (ContentMore.scored doc query)) as Hs.
  pose proof (sort_ranked_perm (ContentMore.scored doc query)) as Hp.
  change (Content.ranked doc query)
    with (firstn 8 (Content.sort_ranked (ContentMore.scored doc query))).
  split; [|split; [|split; [|split]]].
  - intros i j x y Hij Hi Hj.
    apply lookup_take_Some in Hi as [Hi _]. apply lookup_take_Some in Hj as [Hj _].
    exact (sorted_lookup _ i j x y Hs Hij Hi Hj).
  - intros p d score H. apply (ranked_scored doc query) in H.
    apply scored_spec in H as (He & Hsc & H10). simpl in *.
    apply eligible_spec in He as (He & Hv & _ & Hi). tauto.
  - intros x y Hx Hnot Hy. apply (sorted_cut _ 8 x y Hs Hy).
    apply (Permutation_in _ (Permutation_sym Hp)) in Hx.
    rewrite <- (firstn_skipn 8 (Content.sort_ranked _)) in Hx.
    apply in_app_or in Hx as [Hx | Hx]; [contradiction | exact Hx].
  - intros Hlen. rewrite firstn_all2; [exact Hp|].
    now rewrite length_sort_ranked.
  - intros s.
    exists (List.filter (fun x => snd x =? s)
              (skipn 8 (Content.sort_ranked (ContentMore.scored doc query)))).
    rewrite <- List.filter_app, firstn_skipn. symmetry. apply filter_sort_ranked.
Qed.

Lemma X25_ranked_is_the_top_eight_witness :
  Permutation (Content.ranked search_page_with_button "search")
              (ContentMore.scored search_page_with_button "search").
Proof.
  destruct (X25_ranked_is_the_top_eight search_page_with_button "search")
    as (_ & _ & _ & H & _).
  apply H. vm_compute. lia.
Defined.

(** ** The tool messages *)

Section ToolsMore.
Import Content ContentMore.

Lemma htmlTarget_spec doc selector (p : Path) (d : ElemData) :
  htmlTarget doc selector = Some (p, d) ->
  getTarget doc selector = Some p /\ element doc p = Some d /\ isHTMLElement d = true.
Proof.
  unfold htmlTarget. destruct (getTarget doc selector) as [q|]; [|discriminate].
  destruct (element doc q) as [e|] eqn:E; [|discriminate].
  destruct (isHTMLElement e) eqn:Eh; [|discriminate].
  intros [= -> ->]. auto.
Qed.

Lemma typeIntoElement_spec editable (p : Path) (d : ElemData) (text : string) :
  (snd (typeIntoElement editable p d text) = false ->
   fst (typeIntoElement editable p d text) = []) /\
  (forall q, ~ In (Click q) (fst (typeIntoElement editable p d text))) /\
  (forall q t,
     In (SetValue q t) (fst (typeIntoElement editable p d text)) \/
     In (SetTextContent q t) (fst (typeIntoElement editable p d text)) ->
     q = p /\ t = text).
Proof.
  unfold typeIntoElement.
  destruct (_ && _)%bool; [|destruct (_ && _)%bool]; cbn [fst snd In].
  - split; [discriminate|]. split; [intros q H; intuition discriminate|].
    intros q t H. intuition (try discriminate; congruence).
  - split; [discriminate|]. split; [intros q H; intuition discriminate|].
    intros q t H. intuition (try discriminate; congruence).
  - split; [reflexivity|]. split; [intros q []|]. intros q t [[] | []].
Qed.

End ToolsMore.



(** X27: [handleToolMessage] fails only with NOT_FOUND or
    EXTENSION_NOT_READY, and a failing message changes nothing on the
    page: no click, no value set, no event (a failing [type] has scrolled
    to its target and highlighted it, a failing [click] or [highlight]
    has done nothing at all).  A click happens only for a [click]
    message, on the first match of its selector, which is a visible HTML
    element; a text is set only for a [type] message, on the HTML element
    that is the first match of its selector.  [hud] and [find] never
    fail, and [find] does nothing to the page. *)
Theorem X27_page_tool_safety (doc : Content.Node) (editable : Content.Path -> bool)
    (message : ContentMore.ToolMessage) :
  (forall code, snd (ContentMore.handleToolMessage doc editable message)
                = ContentMore.ReplyError code ->
     (code = "NOT_FOUND" \/ code = "EXTENSION_NOT_READY") /\
     Forall (fun a => ContentMore.changes_page a = false)
       (fst (ContentMore.handleToolMessage doc editable message)) /\
     (forall selector, message = ContentMore.MsgClick selector ->
        fst (ContentMore.handleToolMessage doc editable message) = []) /\
     (forall selector label, message = ContentMore.MsgHighlight selector label ->
        fst (ContentMore.handleToolMessage doc editable message) = []) /\
     (forall m, message <> ContentMore.MsgHud m) /\
     (forall q, message <> ContentMore.MsgFind q)) /\
  (forall p, In (ContentMore.Click p)
               (fst (ContentMore.handleToolMessage doc editable message)) ->
     exists selector d,
       message = ContentMore.MsgClick selector /\
       ContentMore.getTarget doc selector = Some p /\
       Content.element doc p = Some d /\
       Content.isHTMLElement d = true /\ Content.isVisible d = true) /\
  (forall p text,
     In (ContentMore.SetValue p text)
        (fst (ContentMore.handleToolMessage doc editable message)) \/
     In (ContentMore.SetTextContent p text)
        (fst (ContentMore.handleToolMessage doc editable message)) ->
     exists selector d,
       message = ContentMore.MsgType selector text /\
       ContentMore.getTarget doc selector = Some p /\
       Content.element doc p = Some d /\ Content.isHTMLElement d = true) /\
  (forall q, message = ContentMore.MsgFind q ->
     ContentMore.handleToolMessage doc editable message
     = ([], ContentMore.ReplyCandidates (Content.findCandidates doc q))).
Proof.
  destruct message as [m | q | selector label | selector | selector text | ];
    cbn [ContentMore.handleToolMessage].
  - (* hud *)
    split; [intros code [=]|]. split; [intros p [[=] | []]|].
    split; [intros p text [[[=] | []] | [[=] | []]]|]. intros q [=].
  - (* find *)
    split; [intros code [=]|]. split; [intros p []|].
    split; [intros p text [[] | []]|]. intros q' [= <-]. reflexivity.
  - (* highlight *)
    destruct (ContentMore.htmlTarget doc selector) as [[p d]|] eqn:Et; cbn [fst snd].
    + split; [intros code [=]|]. split; [intros p' [[=] | [[=] | []]]|].
      split; [intros p' text [[[=] | [[=] | []]] | [[=] | [[=] | []]]]|]. intros q [=].
    + split.
      { intros code [= <-]. split; [now left|]. split; [constructor|].
        repeat split; try reflexivity; intros; discriminate. }
      split; [intros p []|]. split; [intros p text [[] | []]|]. intros q [=].
  - (* click *)
    destruct (ContentMore.htmlTarget doc selector) as [[p d]|] eqn:Et;
      [destruct (Content.isVisible d) eqn:Ev|]; cbn [negb fst snd].
    + apply htmlTarget_spec in Et as (Ht & He & Hh).
      split; [intros code [=]|]. split.
      { intros p' [[=] | [[=] | [[= <-] | []]]]. now exists selector, d. }
      split; [intros p' text [[[=] | [[=] | [[=] | []]]] | [[=] | [[=] | [[=] | []]]]]|].
      intros q [=].
    + split.
      { intros code [= <-]. split; [now left|]. split; [constructor|].
        repeat split; try reflexivity; intros; discriminate. }
      split; [intros p' []|]. split; [intros p' text [[] | []]|]. intros q [=].
    + split.
      { intros code [= <-]. split; [now left|]. split; [constructor|].
        repeat split; try reflexivity; intros; discriminate. }
      split; [intros p' []|]. split; [intros p' text [[] | []]|]. intros q [=].
  - (* type *)
    destruct (ContentMore.htmlTarget doc selector) as [[p d]|] eqn:Et; cbn [fst snd].
    + apply htmlTarget_spec in Et as (Ht & He & Hh).
      destruct (typeIntoElement_spec editable p d text) as (Hno & Hclick & Hset).
      destruct (ContentMore.typeIntoElement editable p d text) as [typing typed].
      cbn [fst snd] in *. split.
      { intros code Hcode. destruct typed; [discriminate|]. injection Hcode as <-.
        rewrite (Hno eq_refl). split; [now left|].
        split; [repeat constructor|].
        repeat split; intros; discriminate. }
      split.
      { intros p' [[=] | [[=] | Hin]]. destruct (Hclick p' Hin). }
      split; [|intros q [=]].
      intros p' text' Hin. exists selector, d.
      assert (Hpt : p' = p /\ text' = text).
      { apply Hset. destruct Hin as [[[=] | [[=] | Hin]] | [[=] | [[=] | Hin]]];
          [now left | now right]. }
      destruct Hpt as [-> ->]. auto.
    + split.
      { intros code [= <-]. split; [now left|]. split; [constructor|].
        repeat split; try reflexivity; intros; discriminate. }
      split; [intros p' []|]. split; [intros p' text' [[] | []]|]. intros q [=].
  - (* other *)
    split.
    { intros code [= <-]. split; [now right|]. split; [constructor|].
      repeat split; try reflexivity; intros; discriminate. }
    split; [intros p' []|]. split; [intros p' text' [[] | []]|]. intros q [=].
Qed.

(** X6: the label [getElementLabel] gives an element is never empty,
    given that its tag name, which is the last resort, is not: each
    earlier choice is taken only when it is not blank after trimming. *)
Theorem X6_label_is_not_empty (d : Content.ElemData) :
  Content.tag d <> "" -> Content.getElementLabel d <> "".
Proof.
  intros Htag. unfold Content.getElementLabel.
  destruct (Content.trimmed (Content.attr d "aria-label")) as [v|] eqn:E1;
    [exact (trimmed_nonempty _ _ E1)|].
  destruct (String.eqb (Js.trim (Content.text d)) "") eqn:Et; cbn [negb].
  - destruct (Content.trimmed (Some _)) as [v|] eqn:E2;
      [exact (trimmed_nonempty _ _ E2)|].
    destruct (Content.trimmed (Content.attr d "placeholder")) as [v|] eqn:E3;
      [exact (trimmed_nonempty _ _ E3)|].
    destruct (Content.trimmed (Content.attr d "name")) as [v|] eqn:E4;
      [exact (trimmed_nonempty _ _ E4) | exact Htag].
  - apply String.eqb_neq in Et. now apply slice0_nonempty, collapse_ws_nonempty.
Qed.

Lemma X6_label_is_not_empty_witness :
  Content.getElementLabel (Content.data search_input) <> "".
Proof. apply X6_label_is_not_empty. discriminate. Defined.
